(** * Everything Presence One: device session and entity state dispatch

    A shallow embedding of [drivers/everything-presence-one/device.ts]:
    the connection manager ([connect], [disconnect], the client error
    listener and the connect timeout), the entity registry
    ([registerEntity]) and the state dispatcher ([onEntityState],
    [onSettings]), followed by the properties of the specification.

    Modelling conventions.
    - JavaScript values are the inductive [value]; a number is an IEEE 754
      binary64 float, as in the language.  Arrays and the other exotic
      objects never reach the code paths below and are left out.
    - An object carries an identity ([oid]): the registry keeps a reference
      to the raw entity object, and listeners are attached to the object,
      not to a copy of it.
    - The device is a record of the fields of the class plus the part of
      the environment the code acts on (listeners of the entity objects,
      promises, host timers, the clock) and the [trace] of the calls made
      to the host and to the protocol library, in program order.
    - A method is a computation in the monad [M]: it returns normally or
      throws, and keeps the state it reached in both cases. *)

From Stdlib Require Import String Ascii List Bool Arith NArith Lia.
From Stdlib Require Import Floats.PrimFloat.
Import ListNotations.
Open Scope string_scope.
Set Warnings "-register-all".

(* ================================================================== *)
(** ** Strings *)

(** [String.prototype.includes]: [sub] occurs somewhere in [s]. *)
Fixpoint includes (s sub : string) : bool :=
  prefix sub s ||
  match s with
  | EmptyString => false
  | String _ rest => includes rest sub
  end.

(** [String.prototype.endsWith]: [suffix] is a final segment of [s]. *)
Fixpoint endsWith (s suffix : string) : bool :=
  (s =? suffix) ||
  match s with
  | EmptyString => false
  | String _ rest => endsWith rest suffix
  end.

(* ================================================================== *)
(** ** JavaScript values *)

Inductive prototype : Type :=
| ObjectPrototype        (* a plain object, or an instance of some other class *)
| ConnectionPrototype.   (* [x instanceof Connection] holds *)

Inductive value : Type :=
| VUndefined
| VNull
| VBool (b : bool)
| VNum (n : float)
| VStr (s : string)
| VFunction
| VObject (oid : nat) (proto : prototype) (props : list (string * value)).

(** What a [throw] carries, or an ['error'] event: an [Error] instance
    with its message, or any other value. *)
Inductive thrown : Type :=
| ErrorInstance (message : string)
| NotAnError (v : value).

Definition typeof (v : value) : string :=
  match v with
  | VUndefined => "undefined"
  | VNull => "object"
  | VBool _ => "boolean"
  | VNum _ => "number"
  | VStr _ => "string"
  | VFunction => "function"
  | VObject _ _ _ => "object"
  end.

Fixpoint lookup (k : string) (props : list (string * value)) : option value :=
  match props with
  | [] => None
  | (k', v) :: rest => if k' =? k then Some v else lookup k rest
  end.

(** [v.k] (or [v?.k]): [undefined] when the property is absent, and for
    the values that have no properties of interest. *)
Definition get (v : value) (k : string) : value :=
  match v with
  | VObject _ _ props =>
      match lookup k props with Some x => x | None => VUndefined end
  | _ => VUndefined
  end.

(** [v.k] without [?.] throws a [TypeError] when [v] is [undefined] or
    [null]; this is its message. *)
Definition unreadable (v : value) (k : string) : option thrown :=
  match v with
  | VUndefined =>
      Some (ErrorInstance ("Cannot read properties of undefined (reading '" ++ k ++ "')"))
  | VNull =>
      Some (ErrorInstance ("Cannot read properties of null (reading '" ++ k ++ "')"))
  | _ => None
  end.

(** ['k' in v], for an object [v]. *)
Definition has_property (k : string) (v : value) : bool :=
  match v with
  | VObject _ _ props =>
      match lookup k props with Some _ => true | None => false end
  | _ => false
  end.

Definition instanceof_Connection (v : value) : bool :=
  match v with
  | VObject _ ConnectionPrototype _ => true
  | _ => false
  end.

(** [v === null] *)
Definition is_null (v : value) : bool :=
  match v with
  | VNull => true
  | _ => false
  end.

(** The identity of an object (0 for a primitive, which has none). *)
Definition oid_of (v : value) : nat :=
  match v with
  | VObject o _ _ => o
  | _ => 0
  end.

(** JavaScript truthiness, as tested by [!x]. *)
Definition truthy (v : value) : bool :=
  match v with
  | VUndefined | VNull => false
  | VBool b => b
  | VNum n => negb (is_nan n || is_zero n)
  | VStr s => negb (s =? "")
  | VFunction | VObject _ _ _ => true
  end.

(* ================================================================== *)
(** ** The entity schema (zod) *)

Declare Scope option_scope.
Delimit Scope option_scope with opt.
Notation "x <- m ;; k" :=
  (match m with Some x => k | None => None end)
  (at level 61, m at next level, right associativity) : option_scope.

Definition z_string (v : value) : option string :=
  match v with VStr s => Some s | _ => None end.

(** [z.number()]: a number that is not NaN. *)
Definition z_number (v : value) : option float :=
  match v with
  | VNum n => if is_nan n then None else Some n
  | _ => None
  end.

Definition z_boolean (v : value) : option bool :=
  match v with VBool b => Some b | _ => None end.

(** [schema.optional()]: [undefined] (an absent key reads as [undefined])
    is accepted and stays absent. *)
Definition z_optional {A : Type} (schema : value -> option A) (v : value)
  : option (option A) :=
  match v with
  | VUndefined => Some None
  | _ => match schema v with Some a => Some (Some a) | None => None end
  end.

(** [z.object(...)] wants a non-null object; zod classifies an object with
    function-valued [then] and [catch] as a promise and refuses it. *)
Definition z_object (v : value) : option value :=
  match v with
  | VObject _ _ _ =>
      if (typeof (get v "then") =? "function") && (typeof (get v "catch") =? "function")
      then None else Some v
  | _ => None
  end.

Module EntityConfig.
Record t : Type := {
  objectId : string;
  key : float;
  name : string;
  uniqueId : string;
  icon : string;
  unitOfMeasurement : option string;
  accuracyDecimals : option float;
  forceUpdate : option bool;
  deviceClass : option string;
  stateClass : option float;
  lastResetType : option float;
  disabledByDefault : bool;
  entityCategory : float
}.
End EntityConfig.

Module EntityData.
Record t : Type := {
  config : EntityConfig.t;
  id : float;
  name : string;
  type : string;
  unit : option string
}.
End EntityData.

Definition ParsedEntityData : Type := EntityData.t.

Definition configSchema (v : value) : option EntityConfig.t :=
  (o <- z_object v ;;
   objectId <- z_string (get o "objectId") ;;
   key <- z_number (get o "key") ;;
   name <- z_string (get o "name") ;;
   uniqueId <- z_string (get o "uniqueId") ;;
   icon <- z_string (get o "icon") ;;
   unitOfMeasurement <- z_optional z_string (get o "unitOfMeasurement") ;;
   accuracyDecimals <- z_optional z_number (get o "accuracyDecimals") ;;
   forceUpdate <- z_optional z_boolean (get o "forceUpdate") ;;
   deviceClass <- z_optional z_string (get o "deviceClass") ;;
   stateClass <- z_optional z_number (get o "stateClass") ;;
   lastResetType <- z_optional z_number (get o "lastResetType") ;;
   disabledByDefault <- z_boolean (get o "disabledByDefault") ;;
   entityCategory <- z_number (get o "entityCategory") ;;
   Some (EntityConfig.Build_t objectId key name uniqueId icon unitOfMeasurement
           accuracyDecimals forceUpdate deviceClass stateClass lastResetType
           disabledByDefault entityCategory))%opt.

(** [entitySchema.safeParse(entity)]: [Some data] on success (the data
    holds the declared keys only), [None] on failure. *)
Definition entitySchema (v : value) : option ParsedEntityData :=
  (o <- z_object v ;;
   config <- configSchema (get o "config") ;;
   id <- z_number (get o "id") ;;
   name <- z_string (get o "name") ;;
   type <- z_string (get o "type") ;;
   unit <- z_optional z_string (get o "unit") ;;
   Some (EntityData.Build_t config id name type unit))%opt.

(* ================================================================== *)
(** ** Constants and helpers of the module *)

Definition CONNECT_TIMEOUT : N := 15000.

Module DRIVER_SETTINGS.
Definition ESP_32_STATUS_LED : string := "esp32_status_led".
Definition MMWAVE_LED : string := "mmwave_led".
Definition MMWAVE_ON_LATENCY : string := "mmwave_on_latency".
Definition MMWAVE_OFF_LATENCY : string := "mmwave_off_latency".
Definition MMWAVE_SENSITIVITY : string := "mmwave_sensitivity".
Definition MMWAVE_DISTANCE : string := "mmwave_distance".
End DRIVER_SETTINGS.

Definition formatHostname (host : string) : string :=
  if endsWith host ".local" then host else host ++ ".local".

Definition includesBinarySensorMMWave (entity : ParsedEntityData) : bool :=
  includes (EntityConfig.uniqueId (EntityData.config entity)) "binary_sensor_mmwave" ||
  includes (EntityConfig.uniqueId (EntityData.config entity)) "binary_sensormmwave".

Definition includesBinarySensorOccupancy (entity : ParsedEntityData) : bool :=
  includes (EntityConfig.uniqueId (EntityData.config entity)) "binary_sensor_occupancy" ||
  includes (EntityConfig.uniqueId (EntityData.config entity)) "binary_sensoroccupancy".

(* ================================================================== *)
(** ** The device and its environment *)

(** The options object handed to [new Client(...)]. *)
Record ClientOptions : Type := {
  host : string;
  port : value;
  clearSession : bool;
  initializeDeviceInfo : bool;
  initializeListEntities : bool;
  initializeSubscribeStates : bool;
  initializeSubscribeLogs : bool;
  initializeSubscribeBLEAdvertisements : bool;
  clientInfo : string;
  encryptionKey : string;
  password : string;
  reconnect : bool;
  reconnectInterval : N;
  pingInterval : N;
  pingAttempts : N
}.

(** The listeners [connect] puts on the client.  The ['initialized']
    listener is a closure over the promise it resolves; the timer of that
    promise has the same number. *)
Inductive client_listener : Type :=
| OnNewEntity
| OnError
| OnInitialized (promise : nat).

Record Client : Type := {
  options : ClientOptions;
  client_listeners : list client_listener
}.

(** The only listener the driver puts on an entity object: the ['state']
    callback of [registerEntity], a closure over the object id. *)
Inductive entity_listener : Type :=
| StateListener (objectId : string).

Record entry : Type := {
  data : ParsedEntityData;
  original : value
}.

Inductive promise_state : Type :=
| Pending
| Fulfilled
| Rejected (reason : thrown).

(** Calls to the host (Homey), to the protocol client and to the entity
    objects, in program order. *)
Inductive effect : Type :=
| Log (message : string)                       (* this.log *)
| LogError (message : string) (detail : thrown) (* this.error *)
| DebugEntity (message : string)
| DebugClient (message : string)
| Translate (key : string)                     (* this.homey.__ *)
| SetCapabilityValue (capability : string) (v : value)
| SetSettings (key : string) (v : value)
| SetUnavailable (reason : string)
| SetAvailable
| NewClient (opts : ClientOptions)
| ClientConnect
| ClientDisconnect
| ClientRemoveAllListeners
| ListEntitiesService
| DnsLookup (hostname : string)
| SubscribeStatesService (connection : nat)
| EntitySetState (entity : nat) (v : value)
| EntityRemoveAllListeners (entity : nat)
| SetTimeout (timer : nat) (ms : N)
| ClearTimeout (timer : nat).

Record device : Type := mkDevice {
  (* the store of the device *)
  store_host : string;
  store_port : value;
  (* the fields of the class *)
  client : option Client;
  connectPromise : option nat;
  entities : list (string * entry);     (* a Map, in insertion order *)
  (* the environment *)
  listeners : list (nat * entity_listener);  (* (entity object, listener) *)
  promises : list promise_state;        (* a promise is its index here *)
  timers : list (nat * N);              (* (timer, due time) *)
  now : N;                              (* the clock, in milliseconds *)
  disconnect_fault : option thrown;     (* what client.disconnect() throws, if it does *)
  trace : list effect
}.

Definition set_client (c : option Client) (d : device) : device :=
  mkDevice (store_host d) (store_port d) c (connectPromise d) (entities d)
    (listeners d) (promises d) (timers d) (now d) (disconnect_fault d) (trace d).

Definition set_connectPromise (p : option nat) (d : device) : device :=
  mkDevice (store_host d) (store_port d) (client d) p (entities d)
    (listeners d) (promises d) (timers d) (now d) (disconnect_fault d) (trace d).

Definition set_entities (m : list (string * entry)) (d : device) : device :=
  mkDevice (store_host d) (store_port d) (client d) (connectPromise d) m
    (listeners d) (promises d) (timers d) (now d) (disconnect_fault d) (trace d).

Definition set_listeners (l : list (nat * entity_listener)) (d : device) : device :=
  mkDevice (store_host d) (store_port d) (client d) (connectPromise d) (entities d)
    l (promises d) (timers d) (now d) (disconnect_fault d) (trace d).

Definition set_promises (ps : list promise_state) (d : device) : device :=
  mkDevice (store_host d) (store_port d) (client d) (connectPromise d) (entities d)
    (listeners d) ps (timers d) (now d) (disconnect_fault d) (trace d).

Definition set_timers (ts : list (nat * N)) (d : device) : device :=
  mkDevice (store_host d) (store_port d) (client d) (connectPromise d) (entities d)
    (listeners d) (promises d) ts (now d) (disconnect_fault d) (trace d).

Definition set_now (t : N) (d : device) : device :=
  mkDevice (store_host d) (store_port d) (client d) (connectPromise d) (entities d)
    (listeners d) (promises d) (timers d) t (disconnect_fault d) (trace d).

Definition set_trace (tr : list effect) (d : device) : device :=
  mkDevice (store_host d) (store_port d) (client d) (connectPromise d) (entities d)
    (listeners d) (promises d) (timers d) (now d) (disconnect_fault d) tr.

(** *** Methods: state, exceptions, effects *)

Inductive completion (A : Type) : Type :=
| Normal (a : A)
| Throw (e : thrown).
Arguments Normal {A} a.
Arguments Throw {A} e.

Definition M (A : Type) : Type := device -> completion A * device.

Definition ret {A : Type} (a : A) : M A := fun d => (Normal a, d).

Definition bind {A B : Type} (m : M A) (k : A -> M B) : M B :=
  fun d =>
    match m d with
    | (Normal a, d') => k a d'
    | (Throw e, d') => (Throw e, d')
    end.

Definition throw {A : Type} (e : thrown) : M A := fun d => (Throw e, d).

(** [try { m } catch (err) { handler err }] *)
Definition try_catch {A : Type} (m : M A) (handler : thrown -> M A) : M A :=
  fun d =>
    match m d with
    | (Normal a, d') => (Normal a, d')
    | (Throw e, d') => handler e d'
    end.

Definition get_device : M device := fun d => (Normal d, d).

Definition modify (f : device -> device) : M unit := fun d => (Normal tt, f d).

Definition emit (e : effect) : M unit :=
  modify (fun d => set_trace (trace d ++ [e]) d).

(** The state a method leaves behind, whatever its completion. *)
Definition exec {A : Type} (m : M A) (d : device) : device := snd (m d).

Declare Scope method_scope.
Delimit Scope method_scope with method.
Bind Scope method_scope with M.
Notation "x <- m ;; k" := (bind m (fun x => k))
  (at level 61, m at next level, right associativity) : method_scope.
Notation "m ;; k" := (bind m (fun _ => k))
  (at level 61, right associativity) : method_scope.

Fixpoint forEach {A : Type} (l : list A) (f : A -> M unit) : M unit :=
  match l with
  | [] => ret tt
  | a :: rest => (f a ;; forEach rest f)%method
  end.

(** *** The registry: a [Map] keyed by object id *)

Fixpoint map_get {V : Type} (k : string) (m : list (string * V)) : option V :=
  match m with
  | [] => None
  | (k', v) :: rest => if k' =? k then Some v else map_get k rest
  end.

(** [Map.prototype.set]: a known key keeps its place, a new one goes last. *)
Fixpoint map_set {V : Type} (k : string) (v : V) (m : list (string * V))
  : list (string * V) :=
  match m with
  | [] => [(k, v)]
  | (k', v') :: rest =>
      if k' =? k then (k, v) :: rest else (k', v') :: map_set k v rest
  end.

(** *** Events and asynchronous methods

    What the environment delivers between two steps of the driver: time
    passing (the host runs the timers that are due), the client emitting
    ['initialized'] or ['newEntity'], an entity object emitting ['state'].
    The ['error'] event starts an asynchronous [connect] and is handled
    apart, by [on_client_error]. *)

Inductive event : Type :=
| Elapse (ms : N)
| Initialized
| NewEntity (entity : value)
| EntityState (entity : nat) (state : value).

(** The outcome of an [async] method over the events that follow its call:
    settled, with the events that are left, or still waiting when the
    events run out. *)
Inductive async (A : Type) : Type :=
| Settled (c : completion A) (d : device) (rest : list event)
| Unsettled (d : device).
Arguments Settled {A} c d rest.
Arguments Unsettled {A} d.

(* ================================================================== *)
(** ** The driver *)

Section Driver.

(** [this.homey.__]: the localisation table of the app. *)
Variable homey__ : string -> string.

(** [String(x)], the conversion of the language. *)
Variable js_String : value -> string.

Open Scope method_scope.

Definition debugEntity (message : string) : M unit := emit (DebugEntity message).
Definition debugClient (message : string) : M unit := emit (DebugClient message).

Definition getErrorMessage (error : thrown) : string :=
  match error with
  | ErrorInstance message => message
  | NotAnError v => js_String v
  end.

(** [switch (x) { case 'c': ... }] on an optional string. *)
Definition is_case (x : option string) (c : string) : bool :=
  match x with
  | Some s => s =? c
  | None => false
  end.

(** *** State dispatch *)

Definition onEntityState (entityId : string) (state : value) : M unit :=
  d <- get_device ;;
  match map_get entityId (entities d) with
  | None => throw (ErrorInstance ("Missing entity " ++ entityId))
  | Some e =>
      let entity := data e in
      let deviceClass := EntityConfig.deviceClass (EntityData.config entity) in
      let objectId := EntityConfig.objectId (EntityData.config entity) in
      debugEntity "state" ;;
      (if is_case deviceClass "temperature" then
         if typeof (get state "state") =? "number" then
           debugEntity "Capability: measure_temperature: state event" ;;
           emit (SetCapabilityValue "measure_temperature" (get state "state"))
         else ret tt
       else if is_case deviceClass "humidity" then
         if typeof (get state "state") =? "number" then
           debugEntity "Capability: measure_humidity: state event" ;;
           emit (SetCapabilityValue "measure_humidity" (get state "state"))
         else ret tt
       else if is_case deviceClass "illuminance" then
         if typeof (get state "state") =? "number" then
           debugEntity "Capability: measure_luminance: state event" ;;
           emit (SetCapabilityValue "measure_luminance" (get state "state"))
         else ret tt
       else if is_case deviceClass "motion" then
         if typeof (get state "state") =? "boolean" then
           debugEntity "Capability: alarm_motion.pir: state event" ;;
           emit (SetCapabilityValue "alarm_motion.pir" (get state "state"))
         else ret tt
       else if is_case deviceClass "occupancy" then
         if typeof (get state "state") =? "boolean" then
           if includesBinarySensorMMWave entity then
             debugEntity "Capability: alarm_motion.mmwave: state event" ;;
             emit (SetCapabilityValue "alarm_motion.mmwave" (get state "state"))
           else if includesBinarySensorOccupancy entity then
             debugEntity "Capability: alarm_motion: state event" ;;
             emit (SetCapabilityValue "alarm_motion" (get state "state"))
           else ret tt
         else ret tt
       else debugEntity "Unknown device class:") ;;
      (if (objectId =? DRIVER_SETTINGS.MMWAVE_SENSITIVITY) ||
          (objectId =? DRIVER_SETTINGS.MMWAVE_ON_LATENCY) ||
          (objectId =? DRIVER_SETTINGS.MMWAVE_OFF_LATENCY) ||
          (objectId =? DRIVER_SETTINGS.MMWAVE_DISTANCE) then
         if typeof (get state "state") =? "number" then
           debugEntity ("Setting: " ++ objectId ++ ": state event") ;;
           emit (SetSettings objectId (get state "state"))
         else ret tt
       else if (objectId =? DRIVER_SETTINGS.MMWAVE_LED) ||
               (objectId =? DRIVER_SETTINGS.ESP_32_STATUS_LED) then
         if typeof (get state "state") =? "boolean" then
           debugEntity ("Setting: " ++ objectId ++ ": state event") ;;
           emit (SetSettings objectId (get state "state"))
         else ret tt
       else debugEntity "Unknown setting:")
  end.

(** The ['state'] listener that [registerEntity] puts on the entity. *)
Definition state_listener (objectId : string) (state : value) : M unit :=
  try_catch (onEntityState objectId state)
    (fun err => debugEntity "Failed to handle entity state event").

(** *** The registry *)

Definition registerEntity (entity : value) : M unit :=
  match entitySchema entity with
  | None => debugEntity "Invalid entity object received, error:"
  | Some parsed =>
      let objectId := EntityConfig.objectId (EntityData.config parsed) in
      modify (fun d =>
        set_entities
          (map_set objectId {| data := parsed; original := entity |} (entities d)) d) ;;
      debugEntity ("Register entity: " ++ objectId ++ ":") ;;
      (if negb (typeof entity =? "object") ||
          is_null entity ||
          negb (has_property "connection" entity) ||
          negb (instanceof_Connection (get entity "connection"))
       then throw (ErrorInstance "Expected entity.connection to be instanceof Connection")
       else ret tt) ;;
      emit (SubscribeStatesService (oid_of (get entity "connection"))) ;;
      (if negb (typeof entity =? "object") ||
          is_null entity ||
          negb (has_property "on" entity) ||
          negb (typeof (get entity "on") =? "function")
       then throw (ErrorInstance "Expected entity.on to be a function")
       else ret tt) ;;
      modify (fun d =>
        set_listeners (listeners d ++ [(oid_of entity, StateListener objectId)]) d)
  end.

(** *** Settings written by the user *)

Definition is_driver_setting (k : string) : bool :=
  (k =? DRIVER_SETTINGS.MMWAVE_SENSITIVITY) ||
  (k =? DRIVER_SETTINGS.MMWAVE_ON_LATENCY) ||
  (k =? DRIVER_SETTINGS.MMWAVE_OFF_LATENCY) ||
  (k =? DRIVER_SETTINGS.MMWAVE_DISTANCE) ||
  (k =? DRIVER_SETTINGS.MMWAVE_LED) ||
  (k =? DRIVER_SETTINGS.ESP_32_STATUS_LED).

(** The body of the [for] loop of [onSettings], for one changed key. *)
Definition onSettings_key (newSettings : value) (changedKey : string) : M unit :=
  if is_driver_setting changedKey then
    d <- get_device ;;
    match map_get changedKey (entities d) with
    | None => throw (ErrorInstance ("Missing entity " ++ changedKey))
    | Some entity =>
        if negb (truthy (original entity)) then
          throw (ErrorInstance ("Missing original entity " ++ changedKey))
        else
          match unreadable newSettings changedKey with
          | Some typeError => throw typeError
          | None =>
              let value := get newSettings changedKey in
              if (typeof value =? "number") || (typeof value =? "boolean") then
                if negb (typeof (original entity) =? "object") ||
                   is_null (original entity) ||
                   negb (has_property "setState" (original entity)) ||
                   negb (typeof (get (original entity) "setState") =? "function")
                then throw (ErrorInstance "Expected entity.setState to be a function")
                else emit (EntitySetState (oid_of (original entity)) value)
              else ret tt
          end
    end
  else emit (Log "Unknown changed setting key:").

(** [onSettings({ newSettings, changedKeys })]; the method is [async], so
    [Throw] here is the rejection its caller receives. *)
Definition onSettings (newSettings : value) (changedKeys : list string) : M unit :=
  emit (Log "EverythingPresenceOneDevice settings were changed") ;;
  forEach changedKeys (onSettings_key newSettings).

(** *** Promises and timers *)

Definition is_pending (p : nat) (d : device) : bool :=
  match nth_error (promises d) p with
  | Some Pending => true
  | _ => false
  end.

Fixpoint update_nth {A : Type} (n : nat) (a : A) (l : list A) : list A :=
  match l, n with
  | [], _ => []
  | _ :: rest, O => a :: rest
  | x :: rest, S n' => x :: update_nth n' a rest
  end.

(** [resolve] and [reject] of a promise: the first call settles it, later
    calls do nothing. *)
Definition settle (p : nat) (s : promise_state) : M unit :=
  modify (fun d =>
    if is_pending p d then set_promises (update_nth p s (promises d)) d else d).

Definition clearTimeout (t : nat) : M unit :=
  emit (ClearTimeout t) ;;
  modify (fun d => set_timers (filter (fun x => negb (fst x =? t)%nat) (timers d)) d).

(** The callback given to [setTimeout] in [connect]. *)
Definition timeout_callback (p : nat) : M unit :=
  emit (Translate "error.connect_timeout") ;;
  settle p (Rejected (ErrorInstance (homey__ "error.connect_timeout"))).

(** The ['initialized'] listener of [connect]; [hostname] is
    [addressProps.host]. *)
Definition initialized_listener (hostname : string) (p : nat) : M unit :=
  debugClient "connected" ;;
  clearTimeout p ;;
  emit ListEntitiesService ;;
  emit (DnsLookup hostname) ;;
  emit SetAvailable ;;
  settle p Fulfilled.

(** *** The event loop *)

Definition run_timers : M unit :=
  d <- get_device ;;
  modify (set_timers (filter (fun t => negb (snd t <=? now d)%N) (timers d))) ;;
  forEach (filter (fun t => (snd t <=? now d)%N) (timers d))
    (fun t => timeout_callback (fst t)).

Definition client_emit (react : Client -> client_listener -> M unit) : M unit :=
  d <- get_device ;;
  match client d with
  | None => ret tt
  | Some c => forEach (client_listeners c) (react c)
  end.

Definition handle (ev : event) : M unit :=
  match ev with
  | Elapse ms =>
      modify (fun d => set_now (now d + ms)%N d) ;;
      run_timers
  | Initialized =>
      client_emit (fun c l =>
        match l with
        | OnInitialized p => initialized_listener (host (options c)) p
        | _ => ret tt
        end)
  | NewEntity entity =>
      client_emit (fun c l =>
        match l with
        | OnNewEntity => registerEntity entity
        | _ => ret tt
        end)
  | EntityState o state =>
      d <- get_device ;;
      forEach (listeners d) (fun l =>
        match l with
        | (o', StateListener objectId) =>
            if (o' =? o)%nat then state_listener objectId state else ret tt
        end)
  end.

(** One turn of the event loop.  An exception that escapes a listener goes
    back to the emitter; the device keeps the state it had reached. *)
Definition step (d : device) (ev : event) : device := exec (handle ev) d.

Definition run (d : device) (evs : list event) : device := fold_left step evs d.

(** [await] of promise [p]: the caller resumes once [p] is settled, before
    the next event when it is settled already. *)
Fixpoint await (p : nat) (d : device) (evs : list event) : device * option (list event) :=
  if negb (is_pending p d) then (d, Some evs)
  else
    match evs with
    | [] => (d, None)
    | ev :: rest => await p (step d ev) rest
    end.

(** *** Disconnect *)

Definition client_disconnect : M unit :=
  d <- get_device ;;
  match client d with
  | None => ret tt
  | Some _ =>
      emit ClientDisconnect ;;
      match disconnect_fault d with
      | Some e => throw e
      | None => ret tt
      end
  end.

Definition client_removeAllListeners : M unit :=
  d <- get_device ;;
  match client d with
  | None => ret tt
  | Some c =>
      emit ClientRemoveAllListeners ;;
      modify (set_client (Some {| options := options c; client_listeners := [] |}))
  end.

(** [entity.original.removeAllListeners()] *)
Definition entity_removeAllListeners (o : nat) : M unit :=
  emit (EntityRemoveAllListeners o) ;;
  modify (fun d =>
    set_listeners (filter (fun l => negb (fst l =? o)%nat) (listeners d)) d).

(** The callback of [this.entities.forEach] in [disconnect]. *)
Definition revoke (entity : entry) : M unit :=
  if negb (typeof (original entity) =? "object") ||
     is_null (original entity) ||
     negb (has_property "removeAllListeners" (original entity)) ||
     negb (typeof (get (original entity) "removeAllListeners") =? "function")
  then throw (ErrorInstance "Expected entity.removeAllListeners to be a function")
  else entity_removeAllListeners (oid_of (original entity)).

(** [disconnect] up to its [await]. *)
Definition disconnect_sync : M unit :=
  debugClient "disconnect" ;;
  try_catch client_disconnect
    (fun err => emit (LogError "Failed to disconnect client"
                        (NotAnError (VStr (getErrorMessage err))))) ;;
  client_removeAllListeners ;;
  d <- get_device ;;
  forEach (entities d) (fun kv => revoke (snd kv)).

Definition disconnect (d : device) (evs : list event) : async unit :=
  match disconnect_sync d with
  | (Throw e, d1) => Settled (Throw e) d1 evs
  | (Normal _, d1) =>
      match connectPromise d1 with
      | None => Settled (Normal tt) d1 evs
      | Some p =>
          match await p d1 evs with
          | (d2, Some rest) => Settled (Normal tt) d2 rest
          | (d2, None) => Unsettled d2
          end
      end
  end.

(** *** Connect *)

Definition client_options (hostname : string) (port_ : value) : ClientOptions :=
  {| host := hostname;
     port := port_;
     clearSession := false;
     initializeDeviceInfo := false;
     initializeListEntities := false;
     initializeSubscribeStates := true;
     initializeSubscribeLogs := false;
     initializeSubscribeBLEAdvertisements := false;
     clientInfo := "homey";
     encryptionKey := "";
     password := "";
     reconnect := true;
     reconnectInterval := 30000;
     pingInterval := 15000;
     pingAttempts := 3 |}.

Definition client_on (l : client_listener) : M unit :=
  modify (fun d =>
    match client d with
    | None => d
    | Some c =>
        set_client
          (Some {| options := options c;
                   client_listeners := client_listeners c ++ [l] |}) d
    end).

(** [connect] after its [await this.disconnect()]: the new client, its
    listeners, the promise and its timer.  Returns the promise. *)
Definition open_session : M nat :=
  d <- get_device ;;
  let opts := client_options (formatHostname (store_host d)) (store_port d) in
  debugClient "connecting:" ;;
  emit (NewClient opts) ;;
  modify (set_client (Some {| options := opts; client_listeners := [] |})) ;;
  client_on OnNewEntity ;;
  client_on OnError ;;
  let p := length (promises d) in
  modify (fun d => set_promises (promises d ++ [Pending]) d) ;;
  emit (SetTimeout p CONNECT_TIMEOUT) ;;
  modify (fun d => set_timers (timers d ++ [(p, (now d + CONNECT_TIMEOUT)%N)]) d) ;;
  emit ClientConnect ;;
  client_on (OnInitialized p) ;;
  modify (set_connectPromise (Some p)) ;;
  ret p.

(** How a settled promise completes the [await] on it. *)
Definition outcome (p : nat) (d : device) : completion unit :=
  match nth_error (promises d) p with
  | Some (Rejected e) => Throw e
  | _ => Normal tt
  end.

Definition connect (d : device) (evs : list event) : async unit :=
  match disconnect d evs with
  | Unsettled d1 => Unsettled d1
  | Settled (Throw e) d1 rest => Settled (Throw e) d1 rest
  | Settled (Normal _) d1 rest =>
      match open_session d1 with
      | (Throw e, d2) => Settled (Throw e) d2 rest
      | (Normal p, d2) =>
          match await p d2 rest with
          | (d3, Some rest') => Settled (outcome p d3) d3 rest'
          | (d3, None) => Unsettled d3
          end
      end
  end.

(** The ['error'] listener of the client, with the events that follow. *)
Definition on_client_error (error : thrown) (d : device) (evs : list event)
  : device * list event :=
  let d1 := exec (debugClient "error:") d in
  if includes (getErrorMessage error) "Bad format: Encryption expected" then
    (exec (emit (Translate "error.unavailable_encrypted") ;;
           emit (SetUnavailable (homey__ "error.unavailable_encrypted"))) d1,
     evs)
  else
    match connect d1 evs with
    | Settled (Throw connectError) d2 rest =>
        (exec (emit (Log "Could not re-connect after error") ;;
               emit (Translate "error.unavailable") ;;
               emit (SetUnavailable (homey__ "error.unavailable"))) d2,
         rest)
    | Settled (Normal _) d2 rest => (d2, rest)
    | Unsettled d2 => (d2, [])
    end.

(** [onInit]: the first connect; a failure is only reported. *)
Definition onInit (d : device) (evs : list event) : device * list event :=
  let d1 := exec (emit (Log "EverythingPresenceOneDevice has been initialized")) d in
  match connect d1 evs with
  | Settled (Throw err) d2 rest =>
      (exec (emit (LogError "EverythingPresenceOneDevice failed to connect" err)) d2,
       rest)
  | Settled (Normal _) d2 rest => (d2, rest)
  | Unsettled d2 => (d2, [])
  end.

(** A device that was just constructed. *)
Definition new_device (hostname : string) (port_ : value) : device :=
  {| store_host := hostname;
     store_port := port_;
     client := None;
     connectPromise := None;
     entities := [];
     listeners := [];
     promises := [];
     timers := [];
     now := 0;
     disconnect_fault := None;
     trace := [] |}.

End Driver.

(* ================================================================== *)
(** ** Observations and invariants *)

Definition capability_write (e : effect) : option (string * value) :=
  match e with
  | SetCapabilityValue capability v => Some (capability, v)
  | _ => None
  end.

(** The capability writes of a trace, in order. *)
Fixpoint capability_writes (tr : list effect) : list (string * value) :=
  match tr with
  | [] => []
  | e :: rest =>
      match capability_write e with
      | Some w => w :: capability_writes rest
      | None => capability_writes rest
      end
  end.

(** No listener is left on the client. *)
Definition client_silent (d : device) : Prop :=
  match client d with
  | None => True
  | Some c => client_listeners c = []
  end.

(** No connect attempt is in flight: no timer is armed and
    [this.connectPromise], if any, is settled. *)
Definition idle (d : device) : Prop :=
  timers d = [] /\
  match connectPromise d with
  | None => True
  | Some p => is_pending p d = false
  end.

(** Which of the two comes first in a sequence of events, for a timer that
    is due [budget] milliseconds from now: the timer or the ['initialized']
    signal of the client. *)
Inductive verdict : Type :=
| TimerFirst
| SignalFirst
| Undecided.

Fixpoint race (budget : N) (evs : list event) : verdict :=
  match evs with
  | [] => Undecided
  | Elapse ms :: rest =>
      if (budget <=? ms)%N then TimerFirst else race (budget - ms) rest
  | Initialized :: _ => SignalFirst
  | _ :: rest => race budget rest
  end.

(** How many times the connect timeout callback ran. *)
Fixpoint timeout_calls (tr : list effect) : nat :=
  match tr with
  | [] => 0
  | Translate key :: rest =>
      if key =? "error.connect_timeout" then S (timeout_calls rest) else timeout_calls rest
  | _ :: rest => timeout_calls rest
  end.

(** The effects of the registry and of the state dispatch, as opposed to
    those of the connection manager. *)
Definition dispatch_effect (e : effect) : Prop :=
  match e with
  | DebugEntity _ | SetCapabilityValue _ _ | SetSettings _ _
  | SubscribeStatesService _ => True
  | _ => False
  end.

(** The effects the listeners of the event loop can have. *)
Definition loop_effect (e : effect) : Prop :=
  match e with
  | DebugEntity _ | SetCapabilityValue _ _ | SetSettings _ _
  | SubscribeStatesService _ | Translate _ | DebugClient _ | ClearTimeout _
  | ListEntitiesService | DnsLookup _ | SetAvailable => True
  | _ => False
  end.

(** [d'] comes after [d]: the store is the same and the trace has grown by
    effects that satisfy [Q]. *)
Definition evolves (Q : effect -> Prop) (d d' : device) : Prop :=
  store_host d' = store_host d /\
  store_port d' = store_port d /\
  exists delta, trace d' = (trace d ++ delta)%list /\ Forall Q delta.

(** Any effect but the creation of a client. *)
Definition no_new_client (e : effect) : Prop :=
  match e with
  | NewClient _ => False
  | _ => True
  end.

(** An effect of [connect] on device [d]: a client, if it is created, gets
    the options that [connect] builds from the store of [d]. *)
Definition connect_effect (d : device) (e : effect) : Prop :=
  match e with
  | NewClient o => o = client_options (formatHostname (store_host d)) (store_port d)
  | _ => True
  end.

(** The client has no listener, the registry is [E] and the listeners of
    the entity objects are [L]. *)
Definition unplugged (E : list (string * entry)) (L : list (nat * entity_listener))
  (d : device) : Prop :=
  entities d = E /\ listeners d = L /\ client_silent d.

(** A connect attempt in flight: promise [p] is pending, its timer is the
    only one and is due at [due], the client carries the three listeners
    of [connect], and the timeout callback ran [n] times so far. *)
Definition attempt (p : nat) (due : N) (n : nat) (d : device) : Prop :=
  nth_error (promises d) p = Some Pending /\
  timers d = [(p, due)] /\
  (exists o, client d =
             Some {| options := o;
                     client_listeners := [OnNewEntity; OnError; OnInitialized p] |}) /\
  (now d < due)%N /\
  timeout_calls (trace d) = n.

(** After the promise is fulfilled and its timer cleared: whatever comes
    next, no timer is armed, the promise stays fulfilled and the timeout
    callback does not run. *)
Definition succeeded (p : nat) (n : nat) (d : device) : Prop :=
  timers d = [] /\
  nth_error (promises d) p = Some Fulfilled /\
  timeout_calls (trace d) = n.

(** The device an [async] method has reached. *)
Definition device_of {A : Type} (r : async A) : device :=
  match r with
  | Settled _ d _ => d
  | Unsettled d => d
  end.

(* ================================================================== *)
(** ** Sample data

    Entities as the protocol client announces them (see the examples in
    the source), used to run the model on concrete inputs. *)

Module Sample.

Definition connection : value :=
  VObject 1 ConnectionPrototype [("subscribeStatesService", VFunction)].

Definition config (objectId uniqueId deviceClass : string) : value :=
  VObject 0 ObjectPrototype
    [("objectId", VStr objectId);
     ("key", VNum 920262939);
     ("name", VStr " Sensor");
     ("uniqueId", VStr uniqueId);
     ("icon", VStr "");
     ("unitOfMeasurement", VStr "");
     ("accuracyDecimals", VNum 1);
     ("forceUpdate", VBool false);
     ("deviceClass", VStr deviceClass);
     ("stateClass", VNum 1);
     ("lastResetType", VNum 0);
     ("disabledByDefault", VBool false);
     ("entityCategory", VNum 0)].

(** An entity object of the client: an event emitter with its
    connection. *)
Definition entity (o : nat) (objectId uniqueId deviceClass : string) : value :=
  VObject o ObjectPrototype
    [("config", config objectId uniqueId deviceClass);
     ("type", VStr "Sensor");
     ("name", VStr " Sensor");
     ("id", VNum 920262939);
     ("connection", connection);
     ("on", VFunction);
     ("removeAllListeners", VFunction);
     ("setState", VFunction)].

(** The same announcement without a live connection. *)
Definition detached (o : nat) (objectId uniqueId deviceClass : string) : value :=
  VObject o ObjectPrototype
    [("config", config objectId uniqueId deviceClass);
     ("type", VStr "Sensor");
     ("name", VStr " Sensor");
     ("id", VNum 920262939);
     ("on", VFunction);
     ("removeAllListeners", VFunction)].

Definition temperature : value :=
  entity 10 "_temperature" "everything-presence-one-7083ccsensor_temperature" "temperature".

Definition mmwave : value :=
  entity 11 "_mmwave" "everything-presence-one-7083ccbinary_sensor_mmwave" "occupancy".

Definition occupancy : value :=
  entity 12 "_occupancy" "everything-presence-one-7083ccbinary_sensoroccupancy" "occupancy".

(** An occupancy sensor of a device that was named [binary_sensor_mmwave-lab]. *)
Definition occupancy_of_mmwave_lab : value :=
  entity 14 "_occupancy" "binary_sensor_mmwave-labbinary_sensor_occupancy" "occupancy".

Definition sensitivity : value :=
  entity 13 "mmwave_sensitivity" "everything-presence-one-7083ccnumber_mmwave_sensitivity" "".

(** A state event of the client: [{ key, state, missingState }]. *)
Definition state (v : value) : value :=
  VObject 99 ObjectPrototype
    [("key", VNum 920262939); ("state", v); ("missingState", VBool false)].

Definition String_ (v : value) : string :=
  match v with
  | VStr s => s
  | VUndefined => "undefined"
  | VNull => "null"
  | VBool true => "true"
  | VBool false => "false"
  | _ => "[object Object]"
  end.

Definition locale (key : string) : string :=
  if key =? "error.connect_timeout" then "Connect timeout"
  else if key =? "error.unavailable_encrypted" then "Encrypted devices are not supported"
  else if key =? "error.unavailable" then "Device unavailable"
  else key.

Definition device0 : device := new_device "everything-presence-one-7083cc" (VNum 6053).

End Sample.

(** Devices reached on concrete runs. *)
Module Run.

(** The device after [onInit], the ['initialized'] signal and the
    announcement of two entities. *)
Definition connected : device :=
  Eval vm_compute in
    run Sample.locale
      (fst (onInit Sample.locale Sample.String_ Sample.device0 [Initialized]))
      [NewEntity Sample.temperature; NewEntity Sample.mmwave].

Definition reading : event := EntityState 10 (Sample.state (VNum 21.5)).

(** The same device after a second object was announced under the object
    id of the first. *)
Definition replaced : device :=
  Eval vm_compute in
    step Sample.locale connected
      (NewEntity (Sample.entity 20 "_temperature" "other-sensor_temperature" "temperature")).

(** The device once [disconnect] has completed, the reading still to
    come. *)
Definition disconnected : device :=
  Eval vm_compute in
    device_of (disconnect Sample.locale Sample.String_ connected [reading]).

(** The device that has seen a session error and starts a reconnect. *)
Definition troubled : device :=
  Eval vm_compute in set_trace (trace connected ++ [DebugClient "error:"]) connected.

(** A new device once the [disconnect] of its first [connect] is done. *)
Definition cleared : device :=
  Eval vm_compute in snd (disconnect_sync Sample.String_ Sample.device0).

Definition timed_out : device :=
  Eval vm_compute in
    device_of (connect Sample.locale Sample.String_ troubled [Elapse 15000]).

(** The troubled device once the teardown of its reconnect is done. *)
Definition torn_down : device :=
  Eval vm_compute in
    device_of (disconnect Sample.locale Sample.String_ troubled [Elapse 15000]).

End Run.

(* ================================================================== *)
(** ** Basic facts *)

Lemma prefix_app (p s : string) :
  prefix p s = true <-> exists r, s = p ++ r.
Proof.
  revert s. induction p as [|c p IH]; intros s; simpl.
  - split; [intros _; now exists s | intros _; now destruct s].
  - destruct s as [|c' s]; simpl.
    + split; [discriminate | intros [r Hr]; discriminate].
    + destruct (ascii_dec c c') as [->|Hne].
      * rewrite IH. split; intros [r Hr]; exists r; [now rewrite Hr | now inversion Hr].
      * split; [discriminate | intros [r Hr]; inversion Hr; congruence].
Qed.

(** [includes] is the substring test. *)
Lemma includes_spec (s sub : string) :
  includes s sub = true <-> exists a b, s = a ++ sub ++ b.
Proof.
  induction s as [|c s IH].
  - change (includes "" sub) with (prefix sub "" || false).
    rewrite orb_false_r, prefix_app. split.
    + intros [r Hr]. now exists "", r.
    + intros [a [b H]]. destruct a; [now exists b | discriminate].
  - change (includes (String c s) sub) with (prefix sub (String c s) || includes s sub).
    rewrite orb_true_iff, prefix_app, IH. split.
    + intros [[r Hr]|[a [b H]]].
      * now exists "", r.
      * exists (String c a), b. simpl. now rewrite H.
    + intros [a [b H]]. destruct a as [|c' a]; simpl in H.
      * left. now exists b.
      * right. inversion H. now exists a, b.
Qed.

(** [endsWith] is the suffix test. *)
Lemma endsWith_spec (s suffix : string) :
  endsWith s suffix = true <-> exists a, s = a ++ suffix.
Proof.
  induction s as [|c s IH].
  - change (endsWith "" suffix) with (("" =? suffix) || false).
    rewrite orb_false_r, String.eqb_eq. split.
    + intros <-. now exists "".
    + intros [a H]. destruct a; [assumption | discriminate].
  - change (endsWith (String c s) suffix)
      with ((String c s =? suffix) || endsWith s suffix).
    rewrite orb_true_iff, String.eqb_eq, IH. split.
    + intros [<-|[a H]].
      * now exists "".
      * exists (String c a). simpl. now rewrite H.
    + intros [a H]. destruct a as [|c' a]; simpl in H.
      * now left.
      * right. inversion H. now exists a.
Qed.

(** The host name given to the client always ends in [.local]. *)
Lemma formatHostname_local (hostname : string) :
  endsWith (formatHostname hostname) ".local" = true.
Proof.
  unfold formatHostname. destruct (endsWith hostname ".local") eqn:E; [assumption|].
  apply endsWith_spec. now exists hostname.
Qed.

Example formatHostname_2019 :
  formatHostname "everything-presence-one-7083cc" = "everything-presence-one-7083cc.local".
Proof. reflexivity. Qed.

Example formatHostname_2023 :
  formatHostname "everything-presence-one-7083cc.local" =
  "everything-presence-one-7083cc.local".
Proof. reflexivity. Qed.

(** The schema on a few payloads: an announcement of the client passes; a
    NaN key, a missing [type] and a promise-like object do not; an absent
    optional key is accepted. *)
Example entitySchema_accepts :
  option_map EntityData.type (entitySchema Sample.temperature) = Some "Sensor" /\
  option_map EntityData.unit (entitySchema Sample.temperature) = Some None.
Proof. split; reflexivity. Qed.

Example entitySchema_refuses :
  entitySchema (VObject 3 ObjectPrototype
                  [("config", Sample.config "a" "b" "c"); ("id", VNum nan);
                   ("name", VStr "n"); ("type", VStr "Sensor")]) = None /\
  entitySchema (VObject 3 ObjectPrototype
                  [("config", Sample.config "a" "b" "c"); ("id", VNum 1);
                   ("name", VStr "n")]) = None /\
  entitySchema (VObject 3 ObjectPrototype
                  [("config", Sample.config "a" "b" "c"); ("id", VNum 1);
                   ("name", VStr "n"); ("type", VStr "Sensor");
                   ("then", VFunction); ("catch", VFunction)]) = None /\
  entitySchema VNull = None.
Proof. repeat split. Qed.

Lemma capability_writes_app (l1 l2 : list effect) :
  capability_writes (l1 ++ l2) = (capability_writes l1 ++ capability_writes l2)%list.
Proof.
  induction l1 as [|e l1 IH]; simpl; [reflexivity|].
  destruct (capability_write e); simpl; now rewrite IH.
Qed.

Lemma map_get_set_same {V : Type} (k : string) (v : V) (m : list (string * V)) :
  map_get k (map_set k v m) = Some v.
Proof.
  induction m as [|[k' v'] m IH]; simpl.
  - now rewrite String.eqb_refl.
  - destruct (k' =? k) eqn:E; simpl.
    + now rewrite String.eqb_refl.
    + now rewrite E.
Qed.

Lemma map_get_set_other {V : Type} (k k' : string) (v : V) (m : list (string * V)) :
  k <> k' -> map_get k' (map_set k v m) = map_get k' m.
Proof.
  intros Hne. induction m as [|[k0 v0] m IH]; simpl.
  - destruct (k =? k') eqn:E; [apply String.eqb_eq in E; contradiction | reflexivity].
  - destruct (k0 =? k) eqn:E; simpl.
    + apply String.eqb_eq in E; subst k0.
      destruct (k =? k') eqn:E'; [apply String.eqb_eq in E'; contradiction | reflexivity].
    + now rewrite IH.
Qed.

Lemma map_set_set {V : Type} (k : string) (v v' : V) (m : list (string * V)) :
  map_set k v' (map_set k v m) = map_set k v' m.
Proof.
  induction m as [|[k0 v0] m IH]; simpl.
  - now rewrite String.eqb_refl.
  - destruct (k0 =? k) eqn:E; simpl.
    + now rewrite String.eqb_refl.
    + now rewrite E, IH.
Qed.

Lemma map_set_length_known {V : Type} (k : string) (v v' : V) (m : list (string * V)) :
  map_get k m = Some v -> length (map_set k v' m) = length m.
Proof.
  induction m as [|[k0 v0] m IH]; simpl; [discriminate|].
  destruct (k0 =? k); simpl; [reflexivity|].
  intros H. now rewrite IH.
Qed.

(** A payload that passes the schema is an object. *)
Lemma entitySchema_object (entity : value) (parsed : ParsedEntityData) :
  entitySchema entity = Some parsed ->
  typeof entity = "object" /\ is_null entity = false.
Proof.
  destruct entity; simpl; try discriminate. now split.
Qed.

(* ================================================================== *)
(** ** State dispatch (C5, C6) *)

Ltac method_step :=
  unfold exec, debugEntity, debugClient, emit, modify, bind, ret, throw, get_device;
  simpl.

(** C5. For a registered entity of device class [temperature], a state
    event whose value is the number [v] writes [v] to the capability
    [measure_temperature] (and nothing else to any capability), and a state
    event whose value is a boolean writes no capability. *)
Theorem temperature_state_dispatch :
  forall (d : device) (entityId : string) (e : entry) (state : value),
    map_get entityId (entities d) = Some e ->
    EntityConfig.deviceClass (EntityData.config (data e)) = Some "temperature" ->
    fst (onEntityState entityId state d) = Normal tt /\
    (forall v : float,
        get state "state" = VNum v ->
        capability_writes (trace (exec (onEntityState entityId state) d)) =
        (capability_writes (trace d) ++ [("measure_temperature", VNum v)])%list) /\
    (forall b : bool,
        get state "state" = VBool b ->
        capability_writes (trace (exec (onEntityState entityId state) d)) =
        capability_writes (trace d)).
Proof.
  intros d entityId e state Hget Hclass.
  unfold onEntityState. method_step. rewrite Hget, Hclass. simpl.
  split; [|split].
  - destruct (typeof (get state "state") =? "number"); simpl;
      repeat match goal with
             | |- context [if ?c then _ else _] => destruct c; simpl
             end; reflexivity.
  - intros v Hv. rewrite Hv. simpl.
    repeat match goal with
           | |- context [if ?c then _ else _] => destruct c; simpl
           end;
      repeat rewrite capability_writes_app; simpl;
      repeat rewrite app_nil_r; repeat rewrite <- app_assoc; reflexivity.
  - intros b Hb. rewrite Hb. simpl.
    repeat match goal with
           | |- context [if ?c then _ else _] => destruct c; simpl
           end;
      repeat rewrite capability_writes_app; simpl;
      repeat rewrite app_nil_r; reflexivity.
Qed.

Lemma temperature_state_dispatch_witness :
  capability_writes
    (trace (exec (onEntityState "_temperature" (Sample.state (VNum 21.5)))
              (exec (registerEntity Sample.temperature) Sample.device0))) =
  [("measure_temperature", VNum 21.5)] /\
  capability_writes
    (trace (exec (onEntityState "_temperature" (Sample.state (VBool true)))
              (exec (registerEntity Sample.temperature) Sample.device0))) = [].
Proof.
  split.
  - apply (proj1 (proj2 (temperature_state_dispatch
             (exec (registerEntity Sample.temperature) Sample.device0)
             "_temperature" _ (Sample.state (VNum 21.5)) eq_refl eq_refl))
             21.5%float eq_refl).
  - apply (proj2 (proj2 (temperature_state_dispatch
             (exec (registerEntity Sample.temperature) Sample.device0)
             "_temperature" _ (Sample.state (VBool true)) eq_refl eq_refl))
             true eq_refl).
Defined.

(** C6, as the code has it.  For a registered entity of device class
    [occupancy] and a boolean state: when the unique id contains
    [binary_sensor_mmwave] or [binary_sensormmwave] the value goes to
    [alarm_motion.mmwave]; when it contains neither of these and contains
    [binary_sensor_occupancy] or [binary_sensoroccupancy] the value goes to
    [alarm_motion].  In both cases it is the only capability write. *)
Theorem occupancy_state_dispatch :
  forall (d : device) (entityId : string) (e : entry) (state : value) (b : bool),
    map_get entityId (entities d) = Some e ->
    EntityConfig.deviceClass (EntityData.config (data e)) = Some "occupancy" ->
    get state "state" = VBool b ->
    (includes (EntityConfig.uniqueId (EntityData.config (data e))) "binary_sensor_mmwave" = true \/
     includes (EntityConfig.uniqueId (EntityData.config (data e))) "binary_sensormmwave" = true ->
     capability_writes (trace (exec (onEntityState entityId state) d)) =
     (capability_writes (trace d) ++ [("alarm_motion.mmwave", VBool b)])%list) /\
    (includes (EntityConfig.uniqueId (EntityData.config (data e))) "binary_sensor_mmwave" = false ->
     includes (EntityConfig.uniqueId (EntityData.config (data e))) "binary_sensormmwave" = false ->
     includes (EntityConfig.uniqueId (EntityData.config (data e))) "binary_sensor_occupancy" = true \/
     includes (EntityConfig.uniqueId (EntityData.config (data e))) "binary_sensoroccupancy" = true ->
     capability_writes (trace (exec (onEntityState entityId state) d)) =
     (capability_writes (trace d) ++ [("alarm_motion", VBool b)])%list).
Proof.
  intros d entityId e state b Hget Hclass Hstate.
  assert (Hrun : forall mm oc,
             includesBinarySensorMMWave (data e) = mm ->
             includesBinarySensorOccupancy (data e) = oc ->
             capability_writes (trace (exec (onEntityState entityId state) d)) =
             (capability_writes (trace d) ++
              (if mm then [("alarm_motion.mmwave", VBool b)]
               else if oc then [("alarm_motion", VBool b)] else []))%list).
  { intros mm oc Hmm Hoc.
    unfold onEntityState. method_step. rewrite Hget, Hclass, Hstate. simpl.
    rewrite Hmm.
    destruct mm; [|rewrite Hoc; destruct oc]; simpl;
      repeat match goal with
             | |- context [if ?c then _ else _] => destruct c; simpl
             end;
      repeat rewrite capability_writes_app; simpl;
      repeat rewrite app_nil_r; repeat rewrite <- app_assoc; reflexivity. }
  split.
  - intros Hmm.
    apply (Hrun true (includesBinarySensorOccupancy (data e))); [|reflexivity].
    unfold includesBinarySensorMMWave. destruct Hmm as [H|H]; rewrite H.
    + reflexivity.
    + apply orb_true_r.
  - intros H1 H2 Hoc.
    apply (Hrun false true).
    + unfold includesBinarySensorMMWave. now rewrite H1, H2.
    + unfold includesBinarySensorOccupancy. destruct Hoc as [H|H]; rewrite H.
      * reflexivity.
      * apply orb_true_r.
Qed.

Lemma occupancy_state_dispatch_witness :
  capability_writes
    (trace (exec (onEntityState "_mmwave" (Sample.state (VBool true)))
              (exec (registerEntity Sample.mmwave) Sample.device0))) =
  [("alarm_motion.mmwave", VBool true)] /\
  capability_writes
    (trace (exec (onEntityState "_occupancy" (Sample.state (VBool false)))
              (exec (registerEntity Sample.occupancy) Sample.device0))) =
  [("alarm_motion", VBool false)].
Proof.
  split.
  - apply (proj1 (occupancy_state_dispatch
             (exec (registerEntity Sample.mmwave) Sample.device0)
             "_mmwave" _ (Sample.state (VBool true)) true eq_refl eq_refl eq_refl)).
    left. reflexivity.
  - apply (proj2 (occupancy_state_dispatch
             (exec (registerEntity Sample.occupancy) Sample.device0)
             "_occupancy" _ (Sample.state (VBool false)) false eq_refl eq_refl eq_refl)).
    + reflexivity.
    + reflexivity.
    + right. reflexivity.
Defined.

(** C6 as stated fails when the unique id carries both markers: the entity
    is of class [occupancy], its unique id contains
    [binary_sensor_occupancy], the state is a boolean, and the value goes to
    [alarm_motion.mmwave] only; [alarm_motion] is not written. *)
Lemma occupancy_both_markers_counterexample :
  option_map (fun e => EntityConfig.deviceClass (EntityData.config (data e)))
    (map_get "_occupancy"
       (entities (exec (registerEntity Sample.occupancy_of_mmwave_lab) Sample.device0))) =
  Some (Some "occupancy") /\
  includes "binary_sensor_mmwave-labbinary_sensor_occupancy" "binary_sensor_occupancy" = true /\
  capability_writes
    (trace (exec (onEntityState "_occupancy" (Sample.state (VBool true)))
              (exec (registerEntity Sample.occupancy_of_mmwave_lab) Sample.device0))) =
  [("alarm_motion.mmwave", VBool true)].
Proof. repeat split. Qed.

(* ================================================================== *)
(** ** The registry (C7, C8, C10) *)

(** Where a payload that passes the schema is stored, whether the rest of
    [registerEntity] throws or not. *)
Lemma registerEntity_stores (d : device) (entity : value) (parsed : ParsedEntityData) :
  entitySchema entity = Some parsed ->
  entities (exec (registerEntity entity) d) =
  map_set (EntityConfig.objectId (EntityData.config parsed))
    {| data := parsed; original := entity |} (entities d).
Proof.
  intros Hparse. unfold registerEntity. rewrite Hparse. method_step.
  repeat match goal with
         | |- context [if ?c then _ else _] => destruct c; simpl
         end; reflexivity.
Qed.

Lemma registerEntity_malformed (d : device) (entity : value) :
  entitySchema entity = None ->
  registerEntity entity d =
  (Normal tt,
   set_trace (trace d ++ [DebugEntity "Invalid entity object received, error:"]) d).
Proof.
  intros Hparse. unfold registerEntity. now rewrite Hparse.
Qed.

(** C7. A payload that fails the entity schema leaves the registry (and the
    listeners) as they were and does not raise; the only effect is the
    debug line.  The same holds for the ['newEntity'] event that delivers
    the payload. *)
Theorem registerEntity_discards_malformed :
  forall (homey__ : string -> string) (d : device) (entity : value),
    entitySchema entity = None ->
    fst (registerEntity entity d) = Normal tt /\
    entities (exec (registerEntity entity) d) = entities d /\
    listeners (exec (registerEntity entity) d) = listeners d /\
    trace (exec (registerEntity entity) d) =
      (trace d ++ [DebugEntity "Invalid entity object received, error:"])%list /\
    entities (step homey__ d (NewEntity entity)) = entities d.
Proof.
  intros homey__ d entity Hparse.
  unfold exec. rewrite (registerEntity_malformed d entity Hparse). simpl.
  repeat split.
  unfold step, exec, handle, client_emit, bind, get_device. simpl.
  destruct (client d) as [c|]; [|reflexivity].
  generalize (client_listeners c) as ls. intros ls. revert d.
  induction ls as [|l ls IH]; intros d; simpl; [reflexivity|].
  unfold bind.
  destruct l; simpl; try apply IH.
  rewrite (registerEntity_malformed d entity Hparse).
  rewrite IH. reflexivity.
Qed.

Lemma registerEntity_discards_malformed_witness :
  fst (registerEntity (VStr "noise") Sample.device0) = Normal tt /\
  entities (exec (registerEntity (VStr "noise")) Sample.device0) = [].
Proof.
  destruct (registerEntity_discards_malformed Sample.locale Sample.device0
              (VStr "noise") eq_refl) as [Hok [Hreg _]].
  split; [exact Hok | exact Hreg].
Defined.

(** C8. After [registerEntity] of a payload that passes the schema, the
    lookup by its object id returns the parsed data (with the raw object),
    whether or not the rest of the registration throws; other keys are
    untouched; and registering again under the same object id replaces the
    entry: the lookup returns the later data, the registry is the one the
    later registration alone would give, and it has not grown. *)
Theorem registerEntity_lookup :
  forall (d : device) (entity : value) (parsed : ParsedEntityData),
    entitySchema entity = Some parsed ->
    map_get (EntityConfig.objectId (EntityData.config parsed))
      (entities (exec (registerEntity entity) d)) =
    Some {| data := parsed; original := entity |} /\
    (forall k : string,
        EntityConfig.objectId (EntityData.config parsed) <> k ->
        map_get k (entities (exec (registerEntity entity) d)) = map_get k (entities d)) /\
    (forall (entity' : value) (parsed' : ParsedEntityData),
        entitySchema entity' = Some parsed' ->
        EntityConfig.objectId (EntityData.config parsed') =
        EntityConfig.objectId (EntityData.config parsed) ->
        map_get (EntityConfig.objectId (EntityData.config parsed))
          (entities (exec (registerEntity entity') (exec (registerEntity entity) d))) =
        Some {| data := parsed'; original := entity' |} /\
        entities (exec (registerEntity entity') (exec (registerEntity entity) d)) =
        entities (exec (registerEntity entity') d) /\
        length (entities (exec (registerEntity entity') (exec (registerEntity entity) d))) =
        length (entities (exec (registerEntity entity) d))).
Proof.
  intros d entity parsed Hparse.
  rewrite (registerEntity_stores d entity parsed Hparse).
  split; [apply map_get_set_same|].
  split; [intros k Hk; now apply map_get_set_other|].
  intros entity' parsed' Hparse' Hsame.
  rewrite (registerEntity_stores _ entity' parsed' Hparse').
  rewrite (registerEntity_stores d entity' parsed' Hparse').
  rewrite (registerEntity_stores d entity parsed Hparse).
  rewrite Hsame. split; [|split].
  - apply map_get_set_same.
  - apply map_set_set.
  - apply (map_set_length_known _ {| data := parsed; original := entity |}).
    apply map_get_set_same.
Qed.

Lemma registerEntity_lookup_witness :
  option_map (fun e => EntityConfig.deviceClass (EntityData.config (data e)))
    (map_get "_temperature"
       (entities (exec (registerEntity Sample.temperature) Sample.device0))) =
  Some (Some "temperature") /\
  option_map original
    (map_get "_temperature"
       (entities (exec (registerEntity (Sample.entity 20 "_temperature" "other" "humidity"))
                    (exec (registerEntity Sample.temperature) Sample.device0)))) =
  Some (Sample.entity 20 "_temperature" "other" "humidity").
Proof.
  destruct (registerEntity_lookup Sample.device0 Sample.temperature _ eq_refl)
    as [Hfirst [_ Hagain]].
  split.
  - exact (f_equal
             (option_map (fun e => EntityConfig.deviceClass (EntityData.config (data e))))
             Hfirst).
  - destruct (Hagain (Sample.entity 20 "_temperature" "other" "humidity") _ eq_refl eq_refl)
      as [Hlater _].
    exact (f_equal (option_map original) Hlater).
Defined.

(** C10. [registerEntity] stores a payload that passes the schema before it
    probes the connection and [on]: when [entity.connection] is not a
    [Connection] instance the call throws, and when the connection is one
    but [entity.on] is not a function it throws as well; in both cases the
    registry already holds the new entry and no listener was attached. *)
Theorem registerEntity_not_atomic :
  forall (d : device) (entity : value) (parsed : ParsedEntityData),
    entitySchema entity = Some parsed ->
    (instanceof_Connection (get entity "connection") = false ->
     fst (registerEntity entity d) =
       Throw (ErrorInstance "Expected entity.connection to be instanceof Connection") /\
     map_get (EntityConfig.objectId (EntityData.config parsed))
       (entities (exec (registerEntity entity) d)) =
       Some {| data := parsed; original := entity |} /\
     listeners (exec (registerEntity entity) d) = listeners d) /\
    (has_property "connection" entity = true ->
     instanceof_Connection (get entity "connection") = true ->
     (typeof (get entity "on") =? "function") = false ->
     fst (registerEntity entity d) =
       Throw (ErrorInstance "Expected entity.on to be a function") /\
     map_get (EntityConfig.objectId (EntityData.config parsed))
       (entities (exec (registerEntity entity) d)) =
       Some {| data := parsed; original := entity |} /\
     listeners (exec (registerEntity entity) d) = listeners d).
Proof.
  intros d entity parsed Hparse.
  destruct (entitySchema_object entity parsed Hparse) as [Hobj Hnull].
  split.
  - intros Hconn.
    rewrite (registerEntity_stores d entity parsed Hparse), map_get_set_same.
    unfold registerEntity. rewrite Hparse. method_step.
    rewrite Hconn. simpl. rewrite !orb_true_r. simpl. now repeat split.
  - intros Hhas Hconn Hon.
    rewrite (registerEntity_stores d entity parsed Hparse), map_get_set_same.
    unfold registerEntity. rewrite Hparse. method_step.
    rewrite Hobj, Hnull, Hhas, Hconn, Hon. simpl. rewrite !orb_true_r. simpl.
    now repeat split.
Qed.

Lemma registerEntity_not_atomic_witness :
  fst (registerEntity (Sample.detached 5 "_illuminance" "uid" "illuminance") Sample.device0) =
    Throw (ErrorInstance "Expected entity.connection to be instanceof Connection") /\
  option_map original
    (map_get "_illuminance"
       (entities (exec (registerEntity (Sample.detached 5 "_illuminance" "uid" "illuminance"))
                    Sample.device0))) =
    Some (Sample.detached 5 "_illuminance" "uid" "illuminance").
Proof.
  destruct (proj1 (registerEntity_not_atomic Sample.device0
                     (Sample.detached 5 "_illuminance" "uid" "illuminance") _ eq_refl)
              eq_refl) as [Hthrow [Hstored _]].
  split.
  - exact Hthrow.
  - exact (f_equal (option_map original) Hstored).
Defined.

(* ================================================================== *)
(** ** Missing entities (C9) *)

Lemma state_listener_no_throw (objectId : string) (state : value) (d : device) :
  fst (state_listener objectId state d) = Normal tt.
Proof.
  unfold state_listener, try_catch.
  destruct (onEntityState objectId state d) as [[[]|err] d']; reflexivity.
Qed.

Lemma onSettings_key_entities (newSettings : value) (k : string) (d : device) :
  entities (exec (onSettings_key newSettings k) d) = entities d.
Proof.
  unfold onSettings_key. method_step.
  destruct (is_driver_setting k); [|reflexivity].
  destruct (map_get k (entities d)) as [e|]; [|reflexivity].
  destruct (unreadable newSettings k);
    repeat match goal with
           | |- context [if ?c then _ else _] => destruct c; simpl
           end; reflexivity.
Qed.

Lemma onSettings_loop_missing (newSettings : value) (k : string) (keys : list string) :
  In k keys ->
  is_driver_setting k = true ->
  forall d : device,
    map_get k (entities d) = None ->
    exists err, fst (forEach keys (onSettings_key newSettings) d) = Throw err.
Proof.
  intros Hin Hset. induction keys as [|k' keys IH]; [contradiction|].
  intros d Hmiss. simpl. unfold bind.
  destruct (onSettings_key newSettings k' d) as [[[]|err] d'] eqn:Hkey.
  - destruct Hin as [->|Hin].
    + unfold onSettings_key in Hkey. rewrite Hset in Hkey.
      unfold bind, get_device in Hkey. simpl in Hkey. rewrite Hmiss in Hkey.
      discriminate.
    + apply (IH Hin).
      assert (Hent : entities d' = entities d).
      { change d' with (snd (Normal tt, d')). rewrite <- Hkey.
        apply onSettings_key_entities. }
      now rewrite Hent.
  - exists err. reflexivity.
Qed.

(** C9. When the registry has no entry for the identifier: the state
    dispatch throws the missing-entity error, the ['state'] listener that
    wraps it catches the error and only logs it (that listener never lets
    any error out); [onSettings] for a changed driver setting rejects with
    the missing-entity error when the key comes first, and rejects wherever
    the key stands among the changed keys. *)
Theorem missing_entity_handling :
  forall (d : device) (k : string),
    map_get k (entities d) = None ->
    (forall state : value,
        onEntityState k state d = (Throw (ErrorInstance ("Missing entity " ++ k)), d) /\
        state_listener k state d =
        (Normal tt,
         set_trace (trace d ++ [DebugEntity "Failed to handle entity state event"]) d)) /\
    (forall (objectId : string) (state : value) (d' : device),
        fst (state_listener objectId state d') = Normal tt) /\
    (is_driver_setting k = true ->
     forall (newSettings : value) (rest : list string),
       fst (onSettings newSettings (k :: rest) d) =
       Throw (ErrorInstance ("Missing entity " ++ k))) /\
    (is_driver_setting k = true ->
     forall (newSettings : value) (changedKeys : list string),
       In k changedKeys ->
       exists err, fst (onSettings newSettings changedKeys d) = Throw err).
Proof.
  intros d k Hmiss.
  assert (Hdispatch : forall state,
             onEntityState k state d = (Throw (ErrorInstance ("Missing entity " ++ k)), d)).
  { intros state. unfold onEntityState, bind, get_device. simpl. now rewrite Hmiss. }
  split; [|split; [|split]].
  - intros state. split; [apply Hdispatch|].
    unfold state_listener, try_catch. rewrite Hdispatch. reflexivity.
  - intros objectId state d'. apply state_listener_no_throw.
  - intros Hset newSettings rest.
    unfold onSettings. method_step. unfold bind.
    unfold onSettings_key. rewrite Hset. unfold bind, get_device. simpl.
    now rewrite Hmiss.
  - intros Hset newSettings changedKeys Hin.
    unfold onSettings. method_step.
    apply (onSettings_loop_missing newSettings k changedKeys Hin Hset).
    exact Hmiss.
Qed.

Lemma missing_entity_handling_witness :
  state_listener "mmwave_led" (Sample.state (VBool true)) Sample.device0 =
  (Normal tt,
   set_trace [DebugEntity "Failed to handle entity state event"] Sample.device0) /\
  fst (onSettings (VObject 7 ObjectPrototype [("mmwave_led", VBool true)])
         ["mmwave_led"] Sample.device0) =
  Throw (ErrorInstance "Missing entity mmwave_led").
Proof.
  destruct (missing_entity_handling Sample.device0 "mmwave_led" eq_refl)
    as [Hstate [_ [Hfirst _]]].
  split.
  - exact (proj2 (Hstate (Sample.state (VBool true)))).
  - exact (Hfirst eq_refl (VObject 7 ObjectPrototype [("mmwave_led", VBool true)]) []).
Defined.

(* ================================================================== *)
(** ** Frames: what each listener can change *)

Open Scope list_scope.

Lemma set_trace_same (d : device) : set_trace (trace d) d = d.
Proof. now destruct d. Qed.

Lemma set_trace_nil (d : device) : set_trace (trace d ++ []) d = d.
Proof. rewrite app_nil_r. apply set_trace_same. Qed.

Ltac split_ifs :=
  repeat match goal with
         | |- context [if ?c then _ else _] => destruct c; simpl
         end.

Ltac frame_trace :=
  first
    [ exists []; split; [symmetry; apply set_trace_nil | constructor]
    | unfold set_trace; simpl; repeat rewrite <- app_assoc; simpl;
      eexists; split; [reflexivity | repeat constructor] ].

(** The state dispatch only writes to the trace, and only effects of its
    own kind. *)
Lemma onEntityState_frame (entityId : string) (state : value) (d : device) :
  exists delta,
    snd (onEntityState entityId state d) = set_trace (trace d ++ delta) d /\
    Forall dispatch_effect delta.
Proof.
  unfold onEntityState. method_step.
  destruct (map_get entityId (entities d)) as [e|]; simpl; [|frame_trace].
  split_ifs; frame_trace.
Qed.

Lemma state_listener_frame (objectId : string) (state : value) (d : device) :
  exists delta,
    snd (state_listener objectId state d) = set_trace (trace d ++ delta) d /\
    Forall dispatch_effect delta.
Proof.
  unfold state_listener, try_catch.
  destruct (onEntityState_frame objectId state d) as [delta [Hd Hq]].
  destruct (onEntityState objectId state d) as [[[]|err] d']; simpl in *.
  - now exists delta.
  - subst d'. method_step. exists (delta ++ [DebugEntity "Failed to handle entity state event"]).
    split.
    + unfold set_trace; simpl. now rewrite app_assoc.
    + apply Forall_app. split; [assumption | repeat constructor].
Qed.

Lemma registerEntity_frame (entity : value) (d : device) :
  exists es ls delta,
    snd (registerEntity entity d) =
    set_trace (trace d ++ delta) (set_listeners ls (set_entities es d)) /\
    Forall dispatch_effect delta.
Proof.
  exists (entities (snd (registerEntity entity d))),
         (listeners (snd (registerEntity entity d))).
  unfold registerEntity. destruct (entitySchema entity) as [parsed|]; method_step.
  - split_ifs; unfold set_trace, set_listeners, set_entities; simpl;
      repeat rewrite <- app_assoc; simpl;
      (eexists; split; [reflexivity | repeat constructor]).
  - exists [DebugEntity "Invalid entity object received, error:"].
    split; [now destruct d | repeat constructor].
Qed.

(** A loop keeps what each of its turns keeps. *)
Lemma forEach_preserves {A : Type} (I : device -> Prop) (f : A -> M unit) (l : list A) :
  (forall a d, I d -> I (snd (f a d))) ->
  forall d, I d -> I (snd (forEach l f d)).
Proof.
  intros Hf. induction l as [|a l IH]; intros d Hd; simpl; [assumption|].
  unfold bind. specialize (Hf a d Hd).
  destruct (f a d) as [[[]|err] d']; simpl in *; auto.
Qed.

Lemma timeout_calls_app (l1 l2 : list effect) :
  timeout_calls (l1 ++ l2) = timeout_calls l1 + timeout_calls l2.
Proof.
  induction l1 as [|e l1 IH]; simpl; [reflexivity|].
  destruct e; simpl; auto.
  destruct (key =? "error.connect_timeout")%string; simpl; now rewrite IH.
Qed.

Lemma timeout_calls_dispatch (delta : list effect) :
  Forall dispatch_effect delta -> timeout_calls delta = 0.
Proof.
  induction 1 as [|e delta He _ IH]; simpl; [reflexivity|].
  destruct e; simpl in He; try contradiction; assumption.
Qed.

Section Session.

Variable homey__ : string -> string.
Variable js_String : value -> string.

(** What the two callbacks of the promise of [connect] do. *)
Lemma timeout_callback_spec (p : nat) (d : device) :
  snd (timeout_callback homey__ p d) =
  let d1 := set_trace (trace d ++ [Translate "error.connect_timeout"]) d in
  if is_pending p d
  then set_promises
         (update_nth p (Rejected (ErrorInstance (homey__ "error.connect_timeout")))
            (promises d)) d1
  else d1.
Proof.
  unfold timeout_callback, settle. method_step.
  unfold is_pending; simpl. destruct (nth_error (promises d) p) as [[| |]|]; reflexivity.
Qed.

Lemma initialized_listener_spec (hostname : string) (p : nat) (d : device) :
  snd (initialized_listener hostname p d) =
  let d1 :=
    set_timers (filter (fun x => negb (fst x =? p)%nat) (timers d))
      (set_trace (trace d ++ [DebugClient "connected"; ClearTimeout p; ListEntitiesService;
                              DnsLookup hostname; SetAvailable]) d) in
  if is_pending p d then set_promises (update_nth p Fulfilled (promises d)) d1 else d1.
Proof.
  unfold initialized_listener, clearTimeout, settle. method_step.
  unfold is_pending; simpl. repeat rewrite <- app_assoc. simpl.
  destruct (nth_error (promises d) p) as [[| |]|]; reflexivity.
Qed.

(** *** While the client has no listener *)


Lemma step_unplugged E L (d : device) (ev : event) :
  unplugged E L d -> unplugged E L (step homey__ d ev).
Proof.
  intros Hd. unfold step, exec.
  destruct ev as [ms| |entity|o state]; simpl.
  - unfold bind, modify, run_timers, get_device. simpl.
    apply (forEach_preserves (unplugged E L)).
    + intros [p due] d' Hd'. rewrite timeout_callback_spec. simpl.
      destruct (is_pending p d'); exact Hd'.
    + exact Hd.
  - unfold client_emit, bind, get_device. simpl.
    destruct Hd as [HE [HL Hs]]. unfold client_silent in Hs.
    destruct (client d) as [c|] eqn:Hc; simpl.
    + rewrite Hs. simpl. unfold unplugged, client_silent. now rewrite Hc.
    + unfold unplugged, client_silent. now rewrite Hc.
  - unfold client_emit, bind, get_device. simpl.
    destruct Hd as [HE [HL Hs]]. unfold client_silent in Hs.
    destruct (client d) as [c|] eqn:Hc; simpl.
    + rewrite Hs. simpl. unfold unplugged, client_silent. now rewrite Hc.
    + unfold unplugged, client_silent. now rewrite Hc.
  - unfold bind, get_device. simpl.
    apply (forEach_preserves (unplugged E L)); [|exact Hd].
    intros [o' [objectId]] d' Hd'.
    destruct (o' =? o)%nat; [|exact Hd'].
    destruct (state_listener_frame objectId state d') as [delta [Heq _]].
    rewrite Heq. exact Hd'.
Qed.

Lemma await_unplugged E L (p : nat) (evs : list event) :
  forall d, unplugged E L d -> unplugged E L (fst (await homey__ p d evs)).
Proof.
  induction evs as [|ev evs IH]; intros d Hd; simpl.
  - destruct (negb (is_pending p d)); exact Hd.
  - destruct (negb (is_pending p d)); [exact Hd|].
    apply IH. now apply step_unplugged.
Qed.

(** *** Disconnect (C1) *)

Lemma revoke_loop (es : list (string * entry)) :
  forall d : device,
    entities (snd (forEach es (fun kv => revoke (snd kv)) d)) = entities d /\
    client (snd (forEach es (fun kv => revoke (snd kv)) d)) = client d /\
    connectPromise (snd (forEach es (fun kv => revoke (snd kv)) d)) = connectPromise d /\
    promises (snd (forEach es (fun kv => revoke (snd kv)) d)) = promises d /\
    (forall l, In l (listeners (snd (forEach es (fun kv => revoke (snd kv)) d))) -> In l (listeners d)) /\
    (fst (forEach es (fun kv => revoke (snd kv)) d) = Normal tt ->
     forall k e l, In (k, e) es ->
       ~ In (oid_of (original e), l) (listeners (snd (forEach es (fun kv => revoke (snd kv)) d)))).
Proof.
  induction es as [|[k0 e0] es IH]; intros d; simpl.
  - repeat split; auto; try (intros _ k e l []).
  - unfold bind. unfold revoke at 1 3 5 7 9 11 13. simpl.
    destruct (negb (typeof (original e0) =? "object")%string ||
              is_null (original e0) ||
              negb (has_property "removeAllListeners" (original e0)) ||
              negb (typeof (get (original e0) "removeAllListeners") =? "function")%string).
    + simpl. repeat split; auto. intros Habs; discriminate.
    + unfold entity_removeAllListeners. method_step.
      match goal with
      | |- context [forEach es _ ?d1] =>
          destruct (IH d1) as [HE [HC [HP [HPs [HL HN]]]]]
      end.
      simpl in *. repeat split; auto.
      * intros l Hl. apply HL in Hl. apply filter_In in Hl. tauto.
      * intros Hok k e l [Heq|Hin].
        -- inversion Heq; subst. intros Hl. apply HL in Hl.
           apply filter_In in Hl. destruct Hl as [_ Hl]. simpl in Hl.
           now rewrite Nat.eqb_refl in Hl.
        -- now apply (HN Hok k e l).
Qed.

Lemma disconnect_sync_spec (d : device) :
  entities (snd (disconnect_sync js_String d)) = entities d /\
  client_silent (snd (disconnect_sync js_String d)) /\
  connectPromise (snd (disconnect_sync js_String d)) = connectPromise d /\
  promises (snd (disconnect_sync js_String d)) = promises d /\
  (forall l, In l (listeners (snd (disconnect_sync js_String d))) -> In l (listeners d)) /\
  (fst (disconnect_sync js_String d) = Normal tt ->
   forall k e l, In (k, e) (entities d) ->
     ~ In (oid_of (original e), l) (listeners (snd (disconnect_sync js_String d)))).
Proof.
  unfold disconnect_sync, client_disconnect, client_removeAllListeners, try_catch.
  method_step.
  destruct (client d) as [c|] eqn:Hc; simpl;
    [destruct (disconnect_fault d) as [err|]; simpl|];
    rewrite ?Hc; simpl;
    match goal with
    | |- context [forEach (entities d) _ ?d1] =>
        destruct (revoke_loop (entities d) d1) as [HE [HC [HP [HPs [HL HN]]]]]
    end;
    simpl in *; unfold client_silent; rewrite ?HC; simpl; rewrite ?Hc;
    repeat split; auto.
Qed.

(** A state event on an object that carries no listener runs nothing. *)
Lemma state_event_unheard (o : nat) (state : value) (d : device) :
  (forall l, ~ In (o, l) (listeners d)) ->
  step homey__ d (EntityState o state) = d.
Proof.
  intros Hnone. unfold step, exec, handle, bind, get_device. simpl.
  assert (Hloop : forall ls d',
             (forall l, ~ In (o, l) ls) ->
             forEach ls (fun l : nat * entity_listener =>
               let (o', e) := l in
               match e with
               | StateListener objectId =>
                   if (o' =? o)%nat then state_listener objectId state else ret tt
               end) d' = (Normal tt, d')).
  { induction ls as [|[o' [objectId]] ls IH]; intros d' Hls; simpl; [reflexivity|].
    unfold bind. destruct (o' =? o)%nat eqn:Ho.
    - apply Nat.eqb_eq in Ho. subst o'. exfalso. apply (Hls (StateListener objectId)).
      now left.
    - simpl. apply IH. intros l Hl. apply (Hls l). now right. }
  now rewrite Hloop.
Qed.

(** C1, as the code has it.  When a call of [disconnect] completes, the
    registry holds exactly the entries it held before (it is not cleared),
    the client has no listener left, no entity object of the registry
    carries a listener, and so a state event on any of them runs no
    handler: it leaves the device as it is. *)
Theorem disconnect_revokes_listeners_keeps_registry :
  forall (d : device) (evs : list event) (d' : device) (rest : list event),
    disconnect homey__ js_String d evs = Settled (Normal tt) d' rest ->
    entities d' = entities d /\
    client_silent d' /\
    (forall k e l, In (k, e) (entities d') -> ~ In (oid_of (original e), l) (listeners d')) /\
    (forall k e state, In (k, e) (entities d') ->
       step homey__ d' (EntityState (oid_of (original e)) state) = d').
Proof.
  intros d evs d' rest Hdis. unfold disconnect in Hdis.
  destruct (disconnect_sync_spec d) as [HE [HS [HP [_ [_ HN]]]]].
  destruct (disconnect_sync js_String d) as [[[]|err] d1] eqn:Hsync; simpl in *;
    [|discriminate].
  specialize (HN eq_refl).
  assert (Hun : unplugged (entities d) (listeners d1) d').
  { destruct (connectPromise d1) as [p|].
    - pose proof (await_unplugged (entities d) (listeners d1) p evs d1) as Haw.
      destruct (await homey__ p d1 evs) as [d2 [rest'|]]; [|discriminate].
      inversion Hdis; subst. apply Haw. now repeat split.
    - inversion Hdis; subst. now repeat split. }
  destruct Hun as [HE' [HL' HS']].
  assert (Hnone : forall k e l,
             In (k, e) (entities d') -> ~ In (oid_of (original e), l) (listeners d')).
  { intros k e l Hin. rewrite HL'. rewrite HE' in Hin. now apply (HN k e l). }
  repeat split; auto.
  intros k e state Hin. apply state_event_unheard.
  intros l. now apply (Hnone k e l).
Qed.

(** *** How the trace grows *)

Lemma evolves_refl (Q : effect -> Prop) (d : device) : evolves Q d d.
Proof.
  repeat split. exists []. split; [now rewrite app_nil_r | constructor].
Qed.

Lemma evolves_same_trace (Q : effect -> Prop) (d d' : device) :
  store_host d' = store_host d ->
  store_port d' = store_port d ->
  trace d' = trace d ->
  evolves Q d d'.
Proof.
  intros Hh Hp Ht. repeat split; auto.
  exists []. split; [now rewrite app_nil_r | constructor].
Qed.

Lemma evolves_trans (Q : effect -> Prop) (d1 d2 d3 : device) :
  evolves Q d1 d2 -> evolves Q d2 d3 -> evolves Q d1 d3.
Proof.
  intros [Hh [Hp [delta [Ht Hq]]]] [Hh' [Hp' [delta' [Ht' Hq']]]].
  repeat split; try congruence.
  exists (delta ++ delta'). split.
  - now rewrite Ht', Ht, app_assoc.
  - apply Forall_app. now split.
Qed.

Lemma evolves_weaken (Q Q' : effect -> Prop) (d d' : device) :
  (forall e, Q e -> Q' e) -> evolves Q d d' -> evolves Q' d d'.
Proof.
  intros Himp [Hh [Hp [delta [Ht Hq]]]]. repeat split; auto.
  exists delta. split; [assumption|]. now apply (Forall_impl Q' Himp).
Qed.

Lemma forEach_evolves {A : Type} (Q : effect -> Prop) (f : A -> M unit) (l : list A) :
  (forall a d, evolves Q d (snd (f a d))) ->
  forall d, evolves Q d (snd (forEach l f d)).
Proof.
  intros Hf. induction l as [|a l IH]; intros d; simpl; [apply evolves_refl|].
  unfold bind. specialize (Hf a d).
  destruct (f a d) as [[[]|err] d']; simpl in *; [|assumption].
  apply (evolves_trans Q d d'); [assumption | apply IH].
Qed.

Ltac evolves_trace :=
  repeat split;
  unfold set_trace, set_timers, set_promises, set_listeners, set_entities; simpl;
  repeat rewrite <- app_assoc; simpl;
  (eexists; split; [reflexivity | repeat constructor]).

Lemma step_evolves (d : device) (ev : event) :
  evolves loop_effect d (step homey__ d ev).
Proof.
  unfold step, exec. destruct ev as [ms| |entity|o state]; simpl.
  - unfold run_timers. method_step. method_step.
    match goal with
    | |- evolves _ _ (snd (forEach ?l ?f ?d1)) =>
        apply (evolves_trans _ d d1);
        [apply evolves_same_trace; reflexivity | apply forEach_evolves]
    end.
    intros [p due] d'. rewrite timeout_callback_spec. simpl.
    destruct (is_pending p d'); evolves_trace.
  - unfold client_emit, bind, get_device. simpl.
    destruct (client d) as [c|]; [|apply evolves_refl].
    apply forEach_evolves. intros l d'.
    destruct l; try apply evolves_refl.
    rewrite initialized_listener_spec. simpl.
    destruct (is_pending promise d'); evolves_trace.
  - unfold client_emit, bind, get_device. simpl.
    destruct (client d) as [c|]; [|apply evolves_refl].
    apply forEach_evolves. intros l d'.
    destruct l; try apply evolves_refl.
    destruct (registerEntity_frame entity d') as [es [ls [delta [Heq Hq]]]].
    rewrite Heq. repeat split. exists delta. split; [reflexivity|].
    apply (Forall_impl loop_effect (P := dispatch_effect)); [|assumption].
    intros e He; destruct e; simpl in *; auto.
  - unfold bind, get_device. simpl. apply forEach_evolves.
    intros [o' [objectId]] d'. destruct (o' =? o)%nat; [|apply evolves_refl].
    destruct (state_listener_frame objectId state d') as [delta [Heq Hq]].
    rewrite Heq. repeat split. exists delta. split; [reflexivity|].
    apply (Forall_impl loop_effect (P := dispatch_effect)); [|assumption].
    intros e He; destruct e; simpl in *; auto.
Qed.

Lemma await_evolves (p : nat) (evs : list event) :
  forall d, evolves loop_effect d (fst (await homey__ p d evs)).
Proof.
  induction evs as [|ev evs IH]; intros d; simpl.
  - destruct (negb (is_pending p d)); apply evolves_refl.
  - destruct (negb (is_pending p d)); [apply evolves_refl|].
    apply (evolves_trans _ d (step homey__ d ev)); [apply step_evolves | apply IH].
Qed.

(** *** Connect: the options of the client (C2) *)

Lemma loop_effect_no_new_client (e : effect) : loop_effect e -> no_new_client e.
Proof. destruct e; simpl; auto. Qed.

Lemma no_new_client_connect_effect (d : device) (e : effect) :
  no_new_client e -> connect_effect d e.
Proof. destruct e; simpl; auto. intros []. Qed.

Lemma revoke_evolves (es : list (string * entry)) (d : device) :
  evolves no_new_client d (snd (forEach es (fun kv => revoke (snd kv)) d)).
Proof.
  apply forEach_evolves. intros [k e] d'. unfold revoke. simpl.
  destruct (negb (typeof (original e) =? "object")%string ||
            is_null (original e) ||
            negb (has_property "removeAllListeners" (original e)) ||
            negb (typeof (get (original e) "removeAllListeners") =? "function")%string).
  - apply evolves_refl.
  - unfold entity_removeAllListeners. method_step. evolves_trace.
Qed.

(** [disconnect] starts with its debug line and creates no client. *)
Lemma disconnect_sync_trace (d : device) :
  store_host (snd (disconnect_sync js_String d)) = store_host d /\
  store_port (snd (disconnect_sync js_String d)) = store_port d /\
  exists delta,
    trace (snd (disconnect_sync js_String d)) =
    trace d ++ DebugClient "disconnect" :: delta /\
    Forall no_new_client delta.
Proof.
  unfold disconnect_sync, client_disconnect, client_removeAllListeners, try_catch.
  method_step.
  destruct (client d) as [c|] eqn:Hc; simpl;
    [destruct (disconnect_fault d) as [err|]; simpl|];
    rewrite ?Hc; simpl;
    match goal with
    | |- context [forEach (entities d) _ ?d1] =>
        destruct (revoke_evolves (entities d) d1) as [Hh [Hp [delta [Ht Hq]]]]
    end;
    simpl in *; rewrite Hh, Hp, Ht; repeat rewrite <- app_assoc; simpl;
    (repeat split; eexists; split; [reflexivity | repeat constructor; assumption]).
Qed.

Lemma open_session_spec (d : device) :
  open_session d =
  (Normal (length (promises d)),
   mkDevice (store_host d) (store_port d)
     (Some {| options := client_options (formatHostname (store_host d)) (store_port d);
              client_listeners := [OnNewEntity; OnError; OnInitialized (length (promises d))] |})
     (Some (length (promises d)))
     (entities d) (listeners d)
     (promises d ++ [Pending])
     (timers d ++ [(length (promises d), (now d + CONNECT_TIMEOUT)%N)])
     (now d) (disconnect_fault d)
     (trace d ++ [DebugClient "connecting:";
                  NewClient (client_options (formatHostname (store_host d)) (store_port d));
                  SetTimeout (length (promises d)) CONNECT_TIMEOUT;
                  ClientConnect])).
Proof.
  unfold open_session, client_on. method_step.
  repeat rewrite <- app_assoc. reflexivity.
Qed.

(** The trace of a [connect]: the debug line of [disconnect] first; any
    client it creates has the options built from the store. *)
Lemma connect_trace (d : device) (evs : list event) :
  exists delta,
    trace (device_of (connect homey__ js_String d evs)) =
    trace d ++ DebugClient "disconnect" :: delta /\
    Forall (connect_effect d) delta.
Proof.
  destruct (disconnect_sync_trace d) as [Hh [Hp [delta [Ht Hq]]]].
  assert (Hq' : Forall (connect_effect d) delta).
  { apply (Forall_impl _ (no_new_client_connect_effect d)). exact Hq. }
  assert (Hloop : forall e, loop_effect e -> connect_effect d e).
  { intros e He. now apply no_new_client_connect_effect, loop_effect_no_new_client. }
  assert (Hdis : exists d1, device_of (disconnect homey__ js_String d evs) = d1 /\
                   store_host d1 = store_host d /\ store_port d1 = store_port d /\
                   exists delta1, trace d1 = trace d ++ DebugClient "disconnect" :: delta1 /\
                                  Forall (connect_effect d) delta1).
  { unfold disconnect.
    destruct (disconnect_sync js_String d) as [[[]|err] d1]; simpl in *.
    - destruct (connectPromise d1) as [p|].
      + destruct (await_evolves p evs d1) as [Hh2 [Hp2 [delta2 [Ht2 Hq2]]]].
        exists (fst (await homey__ p d1 evs)). split.
        * destruct (await homey__ p d1 evs) as [d2 [rest|]]; reflexivity.
        * repeat split; try congruence.
          exists (delta ++ delta2). split.
          -- rewrite Ht2, Ht, <- app_assoc. reflexivity.
          -- apply Forall_app. split; [assumption|].
             now apply (Forall_impl _ Hloop).
      + exists d1. repeat split; auto. now exists delta.
    - exists d1. repeat split; auto. now exists delta. }
  destruct Hdis as [d1 [Hd1 [Hh1 [Hp1 [delta1 [Ht1 Hq1]]]]]].
  unfold connect.
  destruct (disconnect homey__ js_String d evs) as [[[]|err] dd rest|dd];
    simpl in Hd1; subst dd; try (now exists delta1).
  rewrite open_session_spec.
  match goal with
  | |- context [await homey__ ?p ?d2 rest] =>
      destruct (await_evolves p rest d2) as [_ [_ [delta3 [Ht3 Hq3]]]];
      assert (Hdev : device_of
                       (let (d3, o) := await homey__ p d2 rest in
                        match o with
                        | Some rest' => Settled (outcome p d3) d3 rest'
                        | None => Unsettled d3
                        end) = fst (await homey__ p d2 rest))
        by (destruct (await homey__ p d2 rest) as [d3 [rest'|]]; reflexivity)
  end.
  rewrite Hdev, Ht3. simpl. rewrite Ht1, Hh1, Hp1.
  repeat rewrite <- app_assoc. simpl.
  eexists. split; [reflexivity|].
  apply Forall_app. split; [assumption|].
  repeat constructor. now apply (Forall_impl _ Hloop).
Qed.

(** No listener of the event loop touches [this.client]. *)
Lemma step_client (d : device) (ev : event) :
  client (step homey__ d ev) = client d.
Proof.
  unfold step, exec. destruct ev as [ms| |entity|o state]; simpl.
  - unfold run_timers. method_step. method_step.
    apply (forEach_preserves (fun d' => client d' = client d)); [|reflexivity].
    intros [p due] d' Hd'. rewrite timeout_callback_spec. simpl.
    destruct (is_pending p d'); exact Hd'.
  - unfold client_emit, bind, get_device. simpl.
    destruct (client d) as [c|] eqn:Hc; [|simpl; exact Hc].
    apply (forEach_preserves (fun d' => client d' = Some c)); [|assumption].
    intros l d' Hd'. destruct l; try exact Hd'.
    rewrite initialized_listener_spec. simpl.
    destruct (is_pending promise d'); exact Hd'.
  - unfold client_emit, bind, get_device. simpl.
    destruct (client d) as [c|] eqn:Hc; [|simpl; exact Hc].
    apply (forEach_preserves (fun d' => client d' = Some c)); [|assumption].
    intros l d' Hd'. destruct l; try exact Hd'.
    destruct (registerEntity_frame entity d') as [es [ls [delta [Heq _]]]].
    rewrite Heq. exact Hd'.
  - unfold bind, get_device. simpl.
    apply (forEach_preserves (fun d' => client d' = client d)); [|reflexivity].
    intros [o' [objectId]] d' Hd'. destruct (o' =? o)%nat; [|exact Hd'].
    destruct (state_listener_frame objectId state d') as [delta [Heq _]].
    rewrite Heq. exact Hd'.
Qed.

Lemma await_client (p : nat) (evs : list event) :
  forall d, client (fst (await homey__ p d evs)) = client d.
Proof.
  induction evs as [|ev evs IH]; intros d; simpl.
  - now destruct (negb (is_pending p d)).
  - destruct (negb (is_pending p d)); [reflexivity|].
    rewrite IH. apply step_client.
Qed.

Lemma disconnect_evolves (d : device) (evs : list event) :
  evolves no_new_client d (device_of (disconnect homey__ js_String d evs)).
Proof.
  destruct (disconnect_sync_trace d) as [Hh [Hp [delta [Ht Hq]]]].
  assert (Hsync : evolves no_new_client d (snd (disconnect_sync js_String d))).
  { repeat split; auto. exists (DebugClient "disconnect" :: delta).
    split; [assumption | now constructor]. }
  unfold disconnect.
  destruct (disconnect_sync js_String d) as [[[]|err] d1]; simpl in *; [|assumption].
  destruct (connectPromise d1) as [p|]; [|assumption].
  apply (evolves_trans _ d d1); [assumption|].
  apply (evolves_weaken loop_effect); [apply loop_effect_no_new_client|].
  pose proof (await_evolves p evs d1) as Haw.
  destruct (await homey__ p d1 evs) as [d2 [rest|]]; exact Haw.
Qed.

(** C2, as the code has it.  The options [connect] gives to the client are
    fixed but for the address: state subscription on; log, BLE
    advertisement and device-info subscriptions off; and reconnection by
    the client switched on, with an interval of 30000 ms.  Every client a
    call of [connect] creates gets these options, and a call that gets past
    [disconnect] creates one and keeps it in [this.client]. *)
Theorem connect_client_options :
  forall (d : device) (evs : list event),
    initializeSubscribeStates
      (client_options (formatHostname (store_host d)) (store_port d)) = true /\
    initializeSubscribeLogs
      (client_options (formatHostname (store_host d)) (store_port d)) = false /\
    initializeSubscribeBLEAdvertisements
      (client_options (formatHostname (store_host d)) (store_port d)) = false /\
    initializeDeviceInfo
      (client_options (formatHostname (store_host d)) (store_port d)) = false /\
    reconnect (client_options (formatHostname (store_host d)) (store_port d)) = true /\
    reconnectInterval
      (client_options (formatHostname (store_host d)) (store_port d)) = 30000%N /\
    (forall o,
        In (NewClient o) (trace (device_of (connect homey__ js_String d evs))) ->
        In (NewClient o) (trace d) \/
        o = client_options (formatHostname (store_host d)) (store_port d)) /\
    (forall d1 rest,
        disconnect homey__ js_String d evs = Settled (Normal tt) d1 rest ->
        In (NewClient (client_options (formatHostname (store_host d)) (store_port d)))
          (trace (device_of (connect homey__ js_String d evs))) /\
        option_map options (client (device_of (connect homey__ js_String d evs))) =
        Some (client_options (formatHostname (store_host d)) (store_port d))).
Proof.
  intros d evs. do 6 (split; [reflexivity|]). split.
  - intros o Hin.
    destruct (connect_trace d evs) as [delta [Ht Hq]]. rewrite Ht in Hin.
    apply in_app_or in Hin. destruct Hin as [Hin|[Habs|Hin]].
    + now left.
    + discriminate.
    + right. rewrite Forall_forall in Hq. exact (Hq _ Hin).
  - intros d1 rest Hdis.
    pose proof (disconnect_evolves d evs) as [Hh [Hp _]].
    unfold connect. rewrite Hdis in *. simpl in Hh, Hp.
    rewrite open_session_spec.
    match goal with
    | |- context [await homey__ ?p ?d2 rest] =>
        pose proof (await_evolves p rest d2) as [_ [_ [delta [Ht _]]]];
        pose proof (await_client p rest d2) as Hc;
        assert (Hdev : device_of
                         (let (d3, o) := await homey__ p d2 rest in
                          match o with
                          | Some rest' => Settled (outcome p d3) d3 rest'
                          | None => Unsettled d3
                          end) = fst (await homey__ p d2 rest))
          by (destruct (await homey__ p d2 rest) as [d3 [rest'|]]; reflexivity)
    end.
    rewrite Hdev, Ht, Hc. simpl. rewrite Hh, Hp. split; [|reflexivity].
    apply in_or_app. left. apply in_or_app. right. simpl. auto.
Qed.

(** *** The error listener of the client (C3) *)

(** C3. An error of the session whose message contains
    [Bad format: Encryption expected] marks the device unavailable with the
    encryption reason and does nothing else: no disconnect, no new client.
    Any other error starts a reconnect ([connect], whose first effect is the
    debug line of [disconnect]): once its teardown completes, a new client
    is created with the options of [connect], the connect timeout is armed
    and [client.connect()] is called, in this order, and that client is
    [this.client] from then on.  When that [connect] rejects (in its
    teardown already, or later), the device is marked unavailable with the
    generic reason, and when it resolves or stays pending nothing more is
    done. *)
Theorem client_error_policy :
  forall (error : thrown) (d : device) (evs : list event),
    (includes (getErrorMessage js_String error) "Bad format: Encryption expected" = true ->
     on_client_error homey__ js_String error d evs =
     (set_trace
        (trace d ++ [DebugClient "error:";
                     Translate "error.unavailable_encrypted";
                     SetUnavailable (homey__ "error.unavailable_encrypted")]) d,
      evs)) /\
    (includes (getErrorMessage js_String error) "Bad format: Encryption expected" = false ->
     (exists delta,
         trace (fst (on_client_error homey__ js_String error d evs)) =
         trace d ++ DebugClient "error:" :: DebugClient "disconnect" :: delta) /\
     (forall connectError d2 rest,
         connect homey__ js_String (set_trace (trace d ++ [DebugClient "error:"]) d) evs =
         Settled (Throw connectError) d2 rest ->
         on_client_error homey__ js_String error d evs =
         (set_trace
            (trace d2 ++ [Log "Could not re-connect after error";
                          Translate "error.unavailable";
                          SetUnavailable (homey__ "error.unavailable")]) d2,
          rest)) /\
     (forall d2 rest,
         connect homey__ js_String (set_trace (trace d ++ [DebugClient "error:"]) d) evs =
         Settled (Normal tt) d2 rest ->
         on_client_error homey__ js_String error d evs = (d2, rest)) /\
     (forall d2,
         connect homey__ js_String (set_trace (trace d ++ [DebugClient "error:"]) d) evs =
         Unsettled d2 ->
         on_client_error homey__ js_String error d evs = (d2, [])) /\
     (forall d1 rest,
         disconnect homey__ js_String (set_trace (trace d ++ [DebugClient "error:"]) d) evs =
         Settled (Normal tt) d1 rest ->
         (exists delta,
             trace (fst (on_client_error homey__ js_String error d evs)) =
             trace d1 ++
             [DebugClient "connecting:";
              NewClient (client_options (formatHostname (store_host d)) (store_port d));
              SetTimeout (length (promises d1)) CONNECT_TIMEOUT;
              ClientConnect] ++ delta) /\
         option_map options (client (fst (on_client_error homey__ js_String error d evs))) =
         Some (client_options (formatHostname (store_host d)) (store_port d))) /\
     (forall connectError d1 rest,
         disconnect homey__ js_String (set_trace (trace d ++ [DebugClient "error:"]) d) evs =
         Settled (Throw connectError) d1 rest ->
         on_client_error homey__ js_String error d evs =
         (set_trace
            (trace d1 ++ [Log "Could not re-connect after error";
                          Translate "error.unavailable";
                          SetUnavailable (homey__ "error.unavailable")]) d1,
          rest))).
Proof.
  intros error d evs. split; intros Hmsg; unfold on_client_error; rewrite Hmsg.
  - method_step. unfold set_trace; simpl. now repeat rewrite <- app_assoc.
  - change (exec (debugClient "error:") d)
      with (set_trace (trace d ++ [DebugClient "error:"]) d).
    split; [|split; [|split; [|split; [|split]]]].
    + destruct (connect_trace (set_trace (trace d ++ [DebugClient "error:"]) d) evs)
        as [delta [Ht _]].
      simpl in Ht. rewrite <- app_assoc in Ht. simpl in Ht.
      destruct (connect homey__ js_String
                  (set_trace (trace d ++ [DebugClient "error:"]) d) evs)
        as [[[]|connectError] d2 rest|d2]; simpl in *.
      * now exists delta.
      * method_step. rewrite Ht. repeat rewrite <- app_assoc. simpl.
        eexists. reflexivity.
      * now exists delta.
    + intros connectError d2 rest Hc. rewrite Hc. method_step.
      unfold set_trace; simpl. now repeat rewrite <- app_assoc.
    + intros d2 rest Hc. now rewrite Hc.
    + intros d2 Hc. now rewrite Hc.
    + intros d1 rest Hdis.
      pose proof (disconnect_evolves (set_trace (trace d ++ [DebugClient "error:"]) d) evs)
        as [Hh [Hp _]].
      rewrite Hdis in Hh, Hp. simpl in Hh, Hp.
      unfold connect. rewrite Hdis, open_session_spec.
      match goal with
      | |- context [await homey__ ?p ?d2 rest] =>
          pose proof (await_evolves p rest d2) as [_ [_ [delta [Ht _]]]];
          pose proof (await_client p rest d2) as Hc;
          destruct (await homey__ p d2 rest) as [d3 [rest'|]]
      end; simpl in Ht, Hc; rewrite Hh, Hp in *.
      * destruct (outcome (length (promises d1)) d3) as [[]|connectError]; simpl.
        -- split; [|now rewrite Hc].
           exists delta. rewrite Ht, <- app_assoc. reflexivity.
        -- split; [|now rewrite Hc].
           exists (delta ++ [Log "Could not re-connect after error";
                             Translate "error.unavailable";
                             SetUnavailable (homey__ "error.unavailable")]).
           rewrite Ht. repeat rewrite <- app_assoc. reflexivity.
      * simpl. split; [|now rewrite Hc].
        exists delta. rewrite Ht, <- app_assoc. reflexivity.
    + intros connectError d1 rest Hdis. unfold connect. rewrite Hdis. method_step.
      unfold set_trace; simpl. now repeat rewrite <- app_assoc.
Qed.

(** *** The connect timeout (C4) *)

Lemma nth_error_update_nth_same {A : Type} (l : list A) (n : nat) (x y : A) :
  nth_error l n = Some y -> nth_error (update_nth n x l) n = Some x.
Proof.
  revert n. induction l as [|a l IH]; intros [|n]; simpl; try discriminate; auto.
Qed.

Lemma nth_error_update_nth_other {A : Type} (l : list A) (n m : nat) (x : A) :
  n <> m -> nth_error (update_nth n x l) m = nth_error l m.
Proof.
  revert n m. induction l as [|a l IH]; intros [|n] [|m] Hne; simpl; auto;
    try contradiction.
Qed.

Lemma await_settled (p : nat) (d : device) (evs : list event) :
  is_pending p d = false -> await homey__ p d evs = (d, Some evs).
Proof.
  intros Hp. destruct evs; simpl; now rewrite Hp.
Qed.

Lemma disconnect_sync_clock (d : device) :
  timers (snd (disconnect_sync js_String d)) = timers d /\
  now (snd (disconnect_sync js_String d)) = now d.
Proof.
  unfold disconnect_sync, client_disconnect, client_removeAllListeners, try_catch.
  method_step.
  destruct (client d) as [c|] eqn:Hc; simpl;
    [destruct (disconnect_fault d) as [err|]; simpl|];
    rewrite ?Hc; simpl;
    (apply (forEach_preserves (fun d' => timers d' = timers d /\ now d' = now d));
     [|now split]);
    intros [k e] d' Hd'; unfold revoke; simpl;
    (destruct (negb (typeof (original e) =? "object")%string ||
               is_null (original e) ||
               negb (has_property "removeAllListeners" (original e)) ||
               negb (typeof (get (original e) "removeAllListeners") =? "function")%string);
     exact Hd').
Qed.


Lemma attempt_pending (p : nat) (due : N) (n : nat) (d : device) :
  attempt p due n d -> is_pending p d = true.
Proof.
  intros [Hp _]. unfold is_pending. now rewrite Hp.
Qed.

Lemma attempt_frame (p : nat) (due : N) (n : nat) (d : device) es ls delta :
  Forall dispatch_effect delta ->
  attempt p due n d ->
  attempt p due n (set_trace (trace d ++ delta) (set_listeners ls (set_entities es d))).
Proof.
  intros Hq [Hp [Ht [Hc [Hn Hcalls]]]]. repeat split; auto. simpl.
  now rewrite timeout_calls_app, (timeout_calls_dispatch delta Hq), Nat.add_0_r.
Qed.

Lemma attempt_new_entity (p : nat) (due : N) (n : nat) (d : device) (entity : value) :
  attempt p due n d -> attempt p due n (step homey__ d (NewEntity entity)).
Proof.
  intros Hatt. unfold step, exec, handle, client_emit, bind, get_device. simpl.
  destruct (client d) as [c|]; [|exact Hatt].
  apply (forEach_preserves (attempt p due n)); [|exact Hatt].
  intros l d' Hd'. destruct l; try exact Hd'.
  destruct (registerEntity_frame entity d') as [es [ls [delta [Heq Hq]]]].
  rewrite Heq. now apply attempt_frame.
Qed.

Lemma attempt_entity_state (p : nat) (due : N) (n : nat) (d : device) o state :
  attempt p due n d -> attempt p due n (step homey__ d (EntityState o state)).
Proof.
  intros Hatt. unfold step, exec, handle, bind, get_device. simpl.
  apply (forEach_preserves (attempt p due n)); [|exact Hatt].
  intros [o' [objectId]] d' Hd'. destruct (o' =? o)%nat; [|exact Hd'].
  destruct (state_listener_frame objectId state d') as [delta [Heq Hq]].
  rewrite Heq.
  replace (set_trace (trace d' ++ delta) d')
    with (set_trace (trace d' ++ delta)
            (set_listeners (listeners d') (set_entities (entities d') d')))
    by now destruct d'.
  now apply attempt_frame.
Qed.

Lemma attempt_wait (p : nat) (due : N) (n : nat) (d : device) (ms : N) :
  attempt p due n d -> (now d + ms < due)%N ->
  attempt p due n (step homey__ d (Elapse ms)) /\
  now (step homey__ d (Elapse ms)) = (now d + ms)%N.
Proof.
  intros [Hp [Ht [Hc [Hn Hcalls]]]] Hlt.
  unfold step, exec, handle, run_timers. method_step. method_step.
  rewrite Ht. simpl.
  assert (Hdue : (due <=? now d + ms)%N = false) by (apply N.leb_gt; exact Hlt).
  rewrite Hdue. simpl. repeat split; auto.
Qed.

Lemma attempt_timeout (p : nat) (due : N) (n : nat) (d : device) (ms : N) :
  attempt p due n d -> (due <= now d + ms)%N ->
  nth_error (promises (step homey__ d (Elapse ms))) p =
    Some (Rejected (ErrorInstance (homey__ "error.connect_timeout"))) /\
  timers (step homey__ d (Elapse ms)) = [].
Proof.
  intros [Hp [Ht [Hc [Hn Hcalls]]]] Hle.
  unfold step, exec, handle, run_timers. method_step. method_step.
  rewrite Ht. simpl.
  assert (Hdue : (due <=? now d + ms)%N = true) by (apply N.leb_le; exact Hle).
  rewrite Hdue. simpl.
  unfold is_pending. simpl. rewrite Hp. simpl. split; [|reflexivity].
  now apply (nth_error_update_nth_same _ _ _ Pending).
Qed.

Lemma attempt_initialized (p : nat) (due : N) (n : nat) (d : device) :
  attempt p due n d ->
  nth_error (promises (step homey__ d Initialized)) p = Some Fulfilled /\
  timers (step homey__ d Initialized) = [] /\
  timeout_calls (trace (step homey__ d Initialized)) = n /\
  In (ClearTimeout p) (trace (step homey__ d Initialized)).
Proof.
  intros [Hp [Ht [[o Hc] [Hn Hcalls]]]].
  unfold step, exec, handle, client_emit, bind, get_device. simpl.
  rewrite Hc. simpl.
  unfold is_pending. simpl. rewrite Hp, Ht. simpl.
  rewrite Nat.eqb_refl. simpl. repeat split.
  - now apply (nth_error_update_nth_same _ _ _ Pending).
  - repeat rewrite timeout_calls_app. simpl. rewrite Hcalls. lia.
  - repeat rewrite <- app_assoc. apply in_or_app. right. simpl. auto.
Qed.

(** The wait of [connect] for its promise, against the race of the timer
    and the signal. *)
Lemma await_race (p : nat) (due : N) (n : nat) (evs : list event) :
  forall d : device,
    attempt p due n d ->
    match race (due - now d) evs with
    | TimerFirst =>
        exists d' rest,
          await homey__ p d evs = (d', Some rest) /\
          nth_error (promises d') p =
            Some (Rejected (ErrorInstance (homey__ "error.connect_timeout"))) /\
          timers d' = []
    | SignalFirst =>
        exists d' rest,
          await homey__ p d evs = (d', Some rest) /\
          nth_error (promises d') p = Some Fulfilled /\
          timers d' = [] /\
          timeout_calls (trace d') = n /\
          In (ClearTimeout p) (trace d')
    | Undecided => True
    end.
Proof.
  induction evs as [|ev evs IH]; intros d Hatt; simpl; [exact I|].
  pose proof (attempt_pending p due n d Hatt) as Hpend.
  assert (Hnow : (now d < due)%N) by (destruct Hatt as [_ [_ [_ [H _]]]]; exact H).
  rewrite Hpend. simpl.
  destruct ev as [ms| |entity|o state].
  - destruct (due - now d <=? ms)%N eqn:Hcmp.
    + apply N.leb_le in Hcmp.
      destruct (attempt_timeout p due n d ms Hatt) as [Hrej Htim]; [lia|].
      exists (step homey__ d (Elapse ms)), evs. split; [|now split].
      apply await_settled. unfold is_pending. now rewrite Hrej.
    + apply N.leb_gt in Hcmp.
      destruct (attempt_wait p due n d ms Hatt) as [Hatt' Hnow']; [lia|].
      specialize (IH _ Hatt'). rewrite Hnow' in IH.
      replace (due - now d - ms)%N with (due - (now d + ms))%N by lia.
      exact IH.
  - destruct (attempt_initialized p due n d Hatt) as [Hful [Htim [Hcalls Hclr]]].
    exists (step homey__ d Initialized), evs. split; [|now repeat split].
    apply await_settled. unfold is_pending. now rewrite Hful.
  - pose proof (attempt_new_entity p due n d entity Hatt) as Hatt'.
    specialize (IH _ Hatt').
    assert (Hsame : now (step homey__ d (NewEntity entity)) = now d).
    { pose proof (attempt_new_entity p due n d entity Hatt) as _.
      unfold step, exec, handle, client_emit, bind, get_device. simpl.
      destruct (client d) as [c|]; [|reflexivity].
      apply (forEach_preserves (fun d' => now d' = now d)); [|reflexivity].
      intros l d' Hd'. destruct l; try exact Hd'.
      destruct (registerEntity_frame entity d') as [es [ls [delta [Heq _]]]].
      rewrite Heq. exact Hd'. }
    rewrite Hsame in IH. exact IH.
  - pose proof (attempt_entity_state p due n d o state Hatt) as Hatt'.
    specialize (IH _ Hatt').
    assert (Hsame : now (step homey__ d (EntityState o state)) = now d).
    { unfold step, exec, handle, bind, get_device. simpl.
      apply (forEach_preserves (fun d' => now d' = now d)); [|reflexivity].
      intros [o' [objectId]] d' Hd'. destruct (o' =? o)%nat; [|exact Hd'].
      destruct (state_listener_frame objectId state d') as [delta [Heq _]].
      rewrite Heq. exact Hd'. }
    rewrite Hsame in IH. exact IH.
Qed.


Lemma step_succeeded (p : nat) (n : nat) (d : device) (ev : event) :
  succeeded p n d -> succeeded p n (step homey__ d ev).
Proof.
  intros Hd. unfold step, exec. destruct ev as [ms| |entity|o state]; simpl.
  - destruct Hd as [Ht [Hp Hc]].
    unfold run_timers. method_step. method_step. rewrite Ht. simpl.
    now repeat split.
  - unfold client_emit, bind, get_device. simpl.
    destruct (client d) as [c|]; [|exact Hd].
    apply (forEach_preserves (succeeded p n)); [|exact Hd].
    intros l d' [Ht [Hp Hc]]. destruct l; try (now repeat split).
    rewrite initialized_listener_spec. simpl. rewrite Ht. simpl.
    destruct (is_pending promise d') eqn:Hpend; repeat split; simpl; auto;
      try (rewrite timeout_calls_app; simpl; now rewrite Nat.add_0_r).
    rewrite nth_error_update_nth_other; [assumption|].
    intros ->. unfold is_pending in Hpend. now rewrite Hp in Hpend.
  - unfold client_emit, bind, get_device. simpl.
    destruct (client d) as [c|]; [|exact Hd].
    apply (forEach_preserves (succeeded p n)); [|exact Hd].
    intros l d' [Ht [Hp Hc]]. destruct l; try (now repeat split).
    destruct (registerEntity_frame entity d') as [es [ls [delta [Heq Hq]]]].
    rewrite Heq. repeat split; auto. simpl.
    now rewrite timeout_calls_app, (timeout_calls_dispatch delta Hq), Nat.add_0_r.
  - unfold bind, get_device. simpl.
    apply (forEach_preserves (succeeded p n)); [|exact Hd].
    intros [o' [objectId]] d' [Ht [Hp Hc]].
    destruct (o' =? o)%nat; [|now repeat split].
    destruct (state_listener_frame objectId state d') as [delta [Heq Hq]].
    rewrite Heq. repeat split; auto. simpl.
    now rewrite timeout_calls_app, (timeout_calls_dispatch delta Hq), Nat.add_0_r.
Qed.

Lemma run_succeeded (p : nat) (n : nat) (evs : list event) :
  forall d, succeeded p n d -> succeeded p n (run homey__ d evs).
Proof.
  induction evs as [|ev evs IH]; intros d Hd; simpl; [exact Hd|].
  apply IH. now apply step_succeeded.
Qed.

(** On a device with no attempt in flight, [disconnect] completes at once
    when its loop over the registry goes through. *)
Lemma disconnect_idle (d : device) (evs : list event) :
  idle d ->
  fst (disconnect_sync js_String d) = Normal tt ->
  disconnect homey__ js_String d evs =
    Settled (Normal tt) (snd (disconnect_sync js_String d)) evs /\
  timers (snd (disconnect_sync js_String d)) = [].
Proof.
  intros [Htimers Hsettled] Hsync.
  destruct (disconnect_sync_spec d) as [_ [_ [HP [HPs _]]]].
  destruct (disconnect_sync_clock d) as [HT _].
  split; [|now rewrite HT].
  unfold disconnect.
  destruct (disconnect_sync js_String d) as [[[]|err] d1]; simpl in *; [|discriminate].
  rewrite HP. destruct (connectPromise d) as [p0|]; [|reflexivity].
  rewrite await_settled; [reflexivity|].
  unfold is_pending in *. now rewrite HPs.
Qed.

(** C4. Take a call of [connect] whose [disconnect] completes, on device
    [d1] with the events [rest] still to come and no timer armed; [connect]
    then opens the session and waits with a timeout of 15000 ms (15 s).
    When the timer comes first, the awaited result rejects with the error
    whose message is the localised [error.connect_timeout], and no timer is
    left.  When the ['initialized'] signal comes first, the result
    resolves, the timer was cleared and none is left, and whatever happens
    afterwards the promise stays fulfilled, no timer is armed and the
    timeout callback never runs. *)
Theorem connect_timeout_race :
  forall (d : device) (evs : list event) (d1 : device) (rest : list event),
    disconnect homey__ js_String d evs = Settled (Normal tt) d1 rest ->
    timers d1 = [] ->
    CONNECT_TIMEOUT = (15 * 1000)%N /\
    (race CONNECT_TIMEOUT rest = TimerFirst ->
     exists d' rest',
       connect homey__ js_String d evs =
       Settled (Throw (ErrorInstance (homey__ "error.connect_timeout"))) d' rest' /\
       timers d' = []) /\
    (race CONNECT_TIMEOUT rest = SignalFirst ->
     exists d' rest',
       connect homey__ js_String d evs = Settled (Normal tt) d' rest' /\
       In (ClearTimeout (length (promises d1))) (trace d') /\
       timers d' = [] /\
       forall later : list event,
         nth_error (promises (run homey__ d' later)) (length (promises d1)) =
           Some Fulfilled /\
         timers (run homey__ d' later) = [] /\
         timeout_calls (trace (run homey__ d' later)) = timeout_calls (trace d')).
Proof.
  intros d evs d1 rest Hdis Htimers. split; [reflexivity|].
  set (p := length (promises d1)).
  assert (Hatt : attempt p (now d1 + CONNECT_TIMEOUT)%N
                   (timeout_calls (trace (snd (open_session d1))))
                   (snd (open_session d1))).
  { rewrite open_session_spec. simpl. rewrite Htimers. simpl.
    repeat split.
    - simpl. unfold p.
      rewrite nth_error_app2, Nat.sub_diag; [reflexivity | apply Nat.le_refl].
    - simpl. eexists. reflexivity.
    - simpl. unfold CONNECT_TIMEOUT. lia. }
  pose proof (await_race p _ _ rest _ Hatt) as Hrace.
  assert (Hbudget : (now d1 + CONNECT_TIMEOUT - now (snd (open_session d1)))%N =
                    CONNECT_TIMEOUT).
  { rewrite open_session_spec. simpl. lia. }
  rewrite Hbudget in Hrace.
  assert (Hconn : forall d' rest',
             await homey__ p (snd (open_session d1)) rest = (d', Some rest') ->
             connect homey__ js_String d evs = Settled (outcome p d') d' rest').
  { intros d' rest' Haw. unfold connect. rewrite Hdis.
    rewrite open_session_spec in *. simpl in *. fold p. fold p in Haw.
    now rewrite Haw. }
  split.
  - intros Hr. rewrite Hr in Hrace.
    destruct Hrace as [d' [rest' [Haw [Hrej Htim]]]].
    exists d', rest'. split; [|assumption].
    rewrite (Hconn d' rest' Haw). unfold outcome. now rewrite Hrej.
  - intros Hr. rewrite Hr in Hrace.
    destruct Hrace as [d' [rest' [Haw [Hful [Htim [Hcalls Hclr]]]]]].
    exists d', rest'. split; [|split; [assumption|split; [assumption|]]].
    + rewrite (Hconn d' rest' Haw). unfold outcome. now rewrite Hful.
    + intros later.
      destruct (run_succeeded p (timeout_calls (trace d')) later d')
        as [Ht' [Hp' Hc']]; [now repeat split|].
      now repeat split.
Qed.

End Session.


(* ================================================================== *)
(** ** The session on concrete runs *)

Example connected_registry :
  map fst (entities Run.connected) = ["_temperature"; "_mmwave"] /\
  listeners Run.connected =
    [(10, StateListener "_temperature"); (11, StateListener "_mmwave")].
Proof. split; reflexivity. Qed.

Example connected_hears_reading :
  capability_writes (trace (step Sample.locale Run.connected Run.reading)) =
  [("measure_temperature", VNum 21.5)].
Proof. reflexivity. Qed.

(** An entity object that was replaced in the registry is out of reach of
    [disconnect]: it keeps its listener, and a state event on it is still
    dispatched. *)
Example replaced_object_keeps_listener :
  listeners (device_of (disconnect Sample.locale Sample.String_ Run.replaced [])) =
    [(10, StateListener "_temperature")] /\
  capability_writes
    (trace (step Sample.locale
              (device_of (disconnect Sample.locale Sample.String_ Run.replaced []))
              Run.reading)) =
  [("measure_temperature", VNum 21.5)].
Proof. split; vm_compute; reflexivity. Qed.

(** C1 as stated fails: [disconnect] completes and the registry still
    holds the two entries. *)
Lemma disconnect_registry_counterexample :
  disconnect Sample.locale Sample.String_ Run.connected [Run.reading] =
    Settled (Normal tt) Run.disconnected [Run.reading] /\
  map fst (entities Run.disconnected) = ["_temperature"; "_mmwave"].
Proof. split; vm_compute; reflexivity. Qed.

Lemma disconnect_revokes_listeners_witness :
  entities Run.disconnected = entities Run.connected /\
  step Sample.locale Run.disconnected Run.reading = Run.disconnected.
Proof.
  assert (Hdis : disconnect Sample.locale Sample.String_ Run.connected [Run.reading] =
                 Settled (Normal tt) Run.disconnected [Run.reading])
    by (vm_compute; reflexivity).
  destruct (disconnect_revokes_listeners_keeps_registry Sample.locale Sample.String_
              Run.connected [Run.reading] Run.disconnected [Run.reading] Hdis)
    as [Hreg [_ [_ Hquiet]]].
  split.
  - exact Hreg.
  - destruct (entities Run.disconnected) as [|[k e] es] eqn:Hes;
      [vm_compute in Hes; discriminate|].
    assert (Ho : oid_of (original e) = 10)
      by (vm_compute in Hes; inversion Hes; reflexivity).
    unfold Run.reading. rewrite <- Ho. apply (Hquiet k e). now left.
Defined.

(** C2 as stated fails: the client that [connect] creates is told to
    reconnect by itself. *)
Lemma connect_reconnect_counterexample :
  In (NewClient (client_options "everything-presence-one-7083cc.local" (VNum 6053)))
    (trace (device_of (connect Sample.locale Sample.String_ Sample.device0 []))) /\
  reconnect (client_options "everything-presence-one-7083cc.local" (VNum 6053)) = true /\
  reconnectInterval (client_options "everything-presence-one-7083cc.local" (VNum 6053)) =
    30000%N.
Proof.
  split; [|split; reflexivity].
  vm_compute. auto.
Qed.

Lemma client_error_policy_witness :
  fst (on_client_error Sample.locale Sample.String_
         (ErrorInstance "Bad format: Encryption expected") Run.connected []) =
  set_trace
    (trace Run.connected ++
     [DebugClient "error:"; Translate "error.unavailable_encrypted";
      SetUnavailable "Encrypted devices are not supported"]) Run.connected /\
  fst (on_client_error Sample.locale Sample.String_
         (NotAnError (VStr "ECONNRESET")) Run.connected [Elapse 15000]) =
  set_trace
    (trace Run.timed_out ++
     [Log "Could not re-connect after error"; Translate "error.unavailable";
      SetUnavailable "Device unavailable"]) Run.timed_out /\
  (exists delta,
      trace (fst (on_client_error Sample.locale Sample.String_
                    (NotAnError (VStr "ECONNRESET")) Run.connected [Elapse 15000])) =
      trace Run.torn_down ++
      [DebugClient "connecting:";
       NewClient (client_options "everything-presence-one-7083cc.local" (VNum 6053));
       SetTimeout 1 CONNECT_TIMEOUT;
       ClientConnect] ++ delta).
Proof.
  split; [|split].
  - exact (f_equal fst
             (proj1 (client_error_policy Sample.locale Sample.String_
                       (ErrorInstance "Bad format: Encryption expected") Run.connected [])
                eq_refl)).
  - assert (Hc : connect Sample.locale Sample.String_
                   (set_trace (trace Run.connected ++ [DebugClient "error:"]) Run.connected)
                   [Elapse 15000] =
                 Settled (Throw (ErrorInstance "Connect timeout")) Run.timed_out [])
      by (vm_compute; reflexivity).
    exact (f_equal fst
             (proj1 (proj2 (proj2 (client_error_policy Sample.locale Sample.String_
                                     (NotAnError (VStr "ECONNRESET")) Run.connected
                                     [Elapse 15000])
                              eq_refl))
                _ _ _ Hc)).
  - assert (Hdis : disconnect Sample.locale Sample.String_
                     (set_trace (trace Run.connected ++ [DebugClient "error:"]) Run.connected)
                     [Elapse 15000] =
                   Settled (Normal tt) Run.torn_down [Elapse 15000])
      by (vm_compute; reflexivity).
    destruct (proj1 (proj2 (proj2 (proj2 (proj2
                (proj2 (client_error_policy Sample.locale Sample.String_
                          (NotAnError (VStr "ECONNRESET")) Run.connected [Elapse 15000])
                   eq_refl)))))
                Run.torn_down [Elapse 15000] Hdis) as [[delta Ht] _].
    exists delta. exact Ht.
Defined.

Lemma connect_timeout_race_witness :
  (exists d' rest,
      connect Sample.locale Sample.String_ Sample.device0 [Elapse 14999; Elapse 1; Initialized] =
      Settled (Throw (ErrorInstance "Connect timeout")) d' rest /\
      timers d' = []) /\
  (exists d' rest,
      connect Sample.locale Sample.String_ Sample.device0 [Elapse 14999; Initialized; Elapse 1] =
      Settled (Normal tt) d' rest /\
      timers (run Sample.locale d' [Elapse 1]) = []).
Proof.
  split.
  - exact (proj1 (proj2 (connect_timeout_race Sample.locale Sample.String_ Sample.device0
                           [Elapse 14999; Elapse 1; Initialized]
                           Run.cleared [Elapse 14999; Elapse 1; Initialized]
                           eq_refl eq_refl))
             eq_refl).
  - destruct (proj2 (proj2 (connect_timeout_race Sample.locale Sample.String_ Sample.device0
                              [Elapse 14999; Initialized; Elapse 1]
                              Run.cleared [Elapse 14999; Initialized; Elapse 1]
                              eq_refl eq_refl))
                eq_refl) as [d' [rest [Hc [_ [_ Hlater]]]]].
    exists d', rest. split; [exact Hc|].
    exact (proj1 (proj2 (Hlater [Elapse 1]))).
Defined.

(* ================================================================== *)
(** * Part II: the rest of the driver

    [onDiscoveryAvailable] and [onDeleted], and further properties of the
    methods modelled above. *)

(** ** Further observations *)

Definition setting_write (e : effect) : option (string * value) :=
  match e with
  | SetSettings k v => Some (k, v)
  | _ => None
  end.

(** The settings written by a trace ([this.setSettings]), in order. *)
Fixpoint setting_writes (tr : list effect) : list (string * value) :=
  match tr with
  | [] => []
  | e :: rest =>
      match setting_write e with
      | Some w => w :: setting_writes rest
      | None => setting_writes rest
      end
  end.

(** The commands sent to entity objects ([setState]), in order. *)
Fixpoint entity_commands (tr : list effect) : list (nat * value) :=
  match tr with
  | [] => []
  | EntitySetState o v :: rest => (o, v) :: entity_commands rest
  | _ :: rest => entity_commands rest
  end.

(** How many times the device was marked unavailable. *)
Fixpoint unavailable_marks (tr : list effect) : nat :=
  match tr with
  | [] => 0
  | SetUnavailable _ :: rest => S (unavailable_marks rest)
  | _ :: rest => unavailable_marks rest
  end.

Definition is_registered (k : string) (d : device) : bool :=
  match map_get k (entities d) with
  | Some _ => true
  | None => false
  end.

(** The test of [disconnect] on a registry entry, as a predicate: the
    original object has a function-valued [removeAllListeners]. *)
Definition revocable (entity : entry) : bool :=
  negb (negb (typeof (original entity) =? "object")%string ||
        is_null (original entity) ||
        negb (has_property "removeAllListeners" (original entity)) ||
        negb (typeof (get (original entity) "removeAllListeners") =? "function")%string).

(** The time that passes in a sequence of events. *)
Fixpoint elapsed (evs : list event) : N :=
  match evs with
  | [] => 0
  | Elapse ms :: rest => ms + elapsed rest
  | _ :: rest => elapsed rest
  end.

(** The capability written for an entity and a state value, as a table:
    the first [switch] of [onEntityState] without its effects. *)
Definition capability_route (entity : ParsedEntityData) (v : value)
  : list (string * value) :=
  if is_case (EntityConfig.deviceClass (EntityData.config entity)) "temperature" then
    if (typeof v =? "number")%string then [("measure_temperature"%string, v)] else []
  else if is_case (EntityConfig.deviceClass (EntityData.config entity)) "humidity" then
    if (typeof v =? "number")%string then [("measure_humidity"%string, v)] else []
  else if is_case (EntityConfig.deviceClass (EntityData.config entity)) "illuminance" then
    if (typeof v =? "number")%string then [("measure_luminance"%string, v)] else []
  else if is_case (EntityConfig.deviceClass (EntityData.config entity)) "motion" then
    if (typeof v =? "boolean")%string then [("alarm_motion.pir"%string, v)] else []
  else if is_case (EntityConfig.deviceClass (EntityData.config entity)) "occupancy" then
    if (typeof v =? "boolean")%string then
      if includesBinarySensorMMWave entity then [("alarm_motion.mmwave"%string, v)]
      else if includesBinarySensorOccupancy entity then [("alarm_motion"%string, v)]
      else []
    else []
  else [].

(** The setting written for an entity and a state value: the second
    [switch] of [onEntityState] without its effects. *)
Definition setting_route (entity : ParsedEntityData) (v : value)
  : list (string * value) :=
  if (EntityConfig.objectId (EntityData.config entity) =? DRIVER_SETTINGS.MMWAVE_SENSITIVITY)%string ||
     (EntityConfig.objectId (EntityData.config entity) =? DRIVER_SETTINGS.MMWAVE_ON_LATENCY)%string ||
     (EntityConfig.objectId (EntityData.config entity) =? DRIVER_SETTINGS.MMWAVE_OFF_LATENCY)%string ||
     (EntityConfig.objectId (EntityData.config entity) =? DRIVER_SETTINGS.MMWAVE_DISTANCE)%string
  then
    if (typeof v =? "number")%string
    then [(EntityConfig.objectId (EntityData.config entity), v)] else []
  else if (EntityConfig.objectId (EntityData.config entity) =? DRIVER_SETTINGS.MMWAVE_LED)%string ||
          (EntityConfig.objectId (EntityData.config entity) =? DRIVER_SETTINGS.ESP_32_STATUS_LED)%string
  then
    if (typeof v =? "boolean")%string
    then [(EntityConfig.objectId (EntityData.config entity), v)] else []
  else [].

(** ** State dispatch, continued *)

Lemma setting_writes_app (l1 l2 : list effect) :
  setting_writes (l1 ++ l2) = setting_writes l1 ++ setting_writes l2.
Proof.
  induction l1 as [|e l1 IH]; simpl; [reflexivity|].
  destruct (setting_write e); simpl; now rewrite IH.
Qed.

(** What a dispatch on a registered entity does: it returns normally,
    touches nothing but the trace, and writes what the two tables say. *)
Lemma onEntityState_routes (d : device) (entityId : string) (e : entry) (state : value) :
  map_get entityId (entities d) = Some e ->
  exists delta,
    onEntityState entityId state d = (Normal tt, set_trace (trace d ++ delta) d) /\
    capability_writes delta = capability_route (data e) (get state "state") /\
    setting_writes delta = setting_route (data e) (get state "state").
Proof.
  intros Hget. unfold onEntityState, capability_route, setting_route.
  method_step. rewrite Hget. simpl.
  split_ifs;
    unfold set_trace; simpl; repeat rewrite <- app_assoc; simpl;
    (eexists; split; [reflexivity | split; reflexivity]).
Qed.

Lemma is_case_other (c : option string) (known : string) :
  c <> Some known -> is_case c known = false.
Proof.
  intros Hne. destruct c as [s|]; simpl; [|reflexivity].
  destruct (s =? known)%string eqn:E; [|reflexivity].
  apply String.eqb_eq in E. subst. now contradiction Hne.
Qed.

(** X1. The other sensor classes.  For a registered entity of class
    [humidity] (resp. [illuminance]) a numeric state is written to
    [measure_humidity] (resp. [measure_luminance]); for class [motion] a
    boolean state is written to [alarm_motion.pir]; a state of another type
    writes no capability.  In each case it is the only capability write. *)
Theorem sensor_state_dispatch :
  forall (d : device) (entityId : string) (e : entry) (state : value),
    map_get entityId (entities d) = Some e ->
    (EntityConfig.deviceClass (EntityData.config (data e)) = Some "humidity"%string ->
     (forall v : float,
         get state "state" = VNum v ->
         capability_writes (trace (exec (onEntityState entityId state) d)) =
         capability_writes (trace d) ++ [("measure_humidity"%string, VNum v)]) /\
     ((typeof (get state "state") =? "number")%string = false ->
      capability_writes (trace (exec (onEntityState entityId state) d)) =
      capability_writes (trace d))) /\
    (EntityConfig.deviceClass (EntityData.config (data e)) = Some "illuminance"%string ->
     (forall v : float,
         get state "state" = VNum v ->
         capability_writes (trace (exec (onEntityState entityId state) d)) =
         capability_writes (trace d) ++ [("measure_luminance"%string, VNum v)]) /\
     ((typeof (get state "state") =? "number")%string = false ->
      capability_writes (trace (exec (onEntityState entityId state) d)) =
      capability_writes (trace d))) /\
    (EntityConfig.deviceClass (EntityData.config (data e)) = Some "motion"%string ->
     (forall b : bool,
         get state "state" = VBool b ->
         capability_writes (trace (exec (onEntityState entityId state) d)) =
         capability_writes (trace d) ++ [("alarm_motion.pir"%string, VBool b)]) /\
     ((typeof (get state "state") =? "boolean")%string = false ->
      capability_writes (trace (exec (onEntityState entityId state) d)) =
      capability_writes (trace d))).
Proof.
  intros d entityId e state Hget.
  destruct (onEntityState_routes d entityId e state Hget) as [delta [Hrun [Hcap _]]].
  unfold exec. rewrite Hrun. simpl. rewrite capability_writes_app, Hcap.
  unfold capability_route.
  split; [|split]; intros Hclass; rewrite Hclass; simpl;
    (split; [intros v Hv; now rewrite Hv | intros Hty; rewrite Hty; apply app_nil_r]).
Qed.

(** More announcements of the client, for the runs below. *)
Module More.

Definition humidity : value :=
  Sample.entity 30 "_humidity" "everything-presence-one-7083ccsensor_humidity" "humidity".

Definition illuminance : value :=
  Sample.entity 31 "_illuminance" "everything-presence-one-7083ccsensor_illuminance"
    "illuminance".

Definition pir : value :=
  Sample.entity 32 "_pir" "everything-presence-one-7083ccbinary_sensor_pir" "motion".

Definition voltage : value :=
  Sample.entity 33 "_voltage" "everything-presence-one-7083ccsensor_voltage" "voltage".

Definition led : value :=
  Sample.entity 34 "mmwave_led" "everything-presence-one-7083ccswitch_mmwave_led" "".

(** The home of a device that announced its sensors and its settings. *)
Definition home : device :=
  Eval vm_compute in
    run Sample.locale Run.connected
      [NewEntity humidity; NewEntity illuminance; NewEntity pir; NewEntity voltage;
       NewEntity led; NewEntity Sample.sensitivity].

End More.

Lemma sensor_state_dispatch_witness :
  capability_writes
    (trace (exec (onEntityState "_humidity" (Sample.state (VNum 40.5)))
              (exec (registerEntity More.humidity) Sample.device0))) =
  [("measure_humidity"%string, VNum 40.5)] /\
  capability_writes
    (trace (exec (onEntityState "_pir" (Sample.state (VNum 1)))
              (exec (registerEntity More.pir) Sample.device0))) = [].
Proof.
  split.
  - apply (proj1 (proj1 (sensor_state_dispatch
                           (exec (registerEntity More.humidity) Sample.device0)
                           "_humidity" _ (Sample.state (VNum 40.5)) eq_refl)
                    eq_refl) 40.5%float eq_refl).
  - apply (proj2 (proj2 (proj2 (sensor_state_dispatch
                                  (exec (registerEntity More.pir) Sample.device0)
                                  "_pir" _ (Sample.state (VNum 1)) eq_refl))
                    eq_refl) eq_refl).
Defined.

(** X2. One state event, at most one write of each kind.  Whatever the
    device, the identifier and the payload, [onEntityState] changes nothing
    but the trace, and adds at most one capability write and at most one
    settings write to it. *)
Theorem onEntityState_at_most_one_write :
  forall (d : device) (entityId : string) (state : value),
    exists delta,
      exec (onEntityState entityId state) d = set_trace (trace d ++ delta) d /\
      length (capability_writes delta) <= 1 /\
      length (setting_writes delta) <= 1.
Proof.
  intros d entityId state.
  destruct (map_get entityId (entities d)) as [e|] eqn:Hget.
  - destruct (onEntityState_routes d entityId e state Hget) as [delta [Hrun [Hcap Hset]]].
    exists delta. unfold exec. rewrite Hrun, Hcap, Hset. split; [reflexivity|].
    unfold capability_route, setting_route. split; split_ifs; simpl; auto.
  - exists []. unfold exec, onEntityState, bind, get_device. simpl. rewrite Hget. simpl.
    split; [symmetry; apply set_trace_nil | simpl; auto].
Qed.

(** X3. Entities that carry no capability.  A registered entity whose
    device class is absent or is none of [temperature], [humidity],
    [illuminance], [motion], [occupancy] never writes a capability; nor
    does an [occupancy] entity whose unique id has none of the four
    markers. *)
Theorem unrouted_entity_writes_no_capability :
  forall (d : device) (entityId : string) (e : entry) (state : value),
    map_get entityId (entities d) = Some e ->
    ((forall known,
         In known ["temperature"; "humidity"; "illuminance"; "motion"; "occupancy"]%string ->
         EntityConfig.deviceClass (EntityData.config (data e)) <> Some known) ->
     capability_writes (trace (exec (onEntityState entityId state) d)) =
     capability_writes (trace d)) /\
    (EntityConfig.deviceClass (EntityData.config (data e)) = Some "occupancy"%string ->
     includesBinarySensorMMWave (data e) = false ->
     includesBinarySensorOccupancy (data e) = false ->
     capability_writes (trace (exec (onEntityState entityId state) d)) =
     capability_writes (trace d)).
Proof.
  intros d entityId e state Hget.
  destruct (onEntityState_routes d entityId e state Hget) as [delta [Hrun [Hcap _]]].
  unfold exec. rewrite Hrun. simpl. rewrite capability_writes_app, Hcap.
  unfold capability_route. split.
  - intros Hnone.
    rewrite !is_case_other by (apply Hnone; simpl; auto 6).
    apply app_nil_r.
  - intros Hclass Hmm Hocc. rewrite Hclass, Hmm, Hocc. simpl.
    destruct (typeof (get state "state") =? "boolean")%string; apply app_nil_r.
Qed.

Lemma unrouted_entity_witness :
  capability_writes
    (trace (exec (onEntityState "_voltage" (Sample.state (VNum 3.5)))
              (exec (registerEntity More.voltage) Sample.device0))) = [].
Proof.
  apply (proj1 (unrouted_entity_writes_no_capability
                  (exec (registerEntity More.voltage) Sample.device0)
                  "_voltage" _ (Sample.state (VNum 3.5)) eq_refl)).
  intros known Hin. simpl in Hin.
  repeat (destruct Hin as [<-|Hin]; [discriminate|]). contradiction.
Defined.

(** X4. Settings mirrored from the device.  For a registered entity, the
    settings write depends on the object id alone: a numeric state of
    [mmwave_sensitivity], [mmwave_on_latency], [mmwave_off_latency] or
    [mmwave_distance], and a boolean state of [mmwave_led] or
    [esp32_status_led], is written under that key; a state of the other
    type writes no setting; and an entity with any other object id never
    writes a setting. *)
Theorem state_mirrors_setting :
  forall (d : device) (entityId : string) (e : entry) (state : value),
    map_get entityId (entities d) = Some e ->
    (In (EntityConfig.objectId (EntityData.config (data e)))
        [DRIVER_SETTINGS.MMWAVE_SENSITIVITY; DRIVER_SETTINGS.MMWAVE_ON_LATENCY;
         DRIVER_SETTINGS.MMWAVE_OFF_LATENCY; DRIVER_SETTINGS.MMWAVE_DISTANCE] ->
     (forall v : float,
         get state "state" = VNum v ->
         setting_writes (trace (exec (onEntityState entityId state) d)) =
         setting_writes (trace d) ++
         [(EntityConfig.objectId (EntityData.config (data e)), VNum v)]) /\
     ((typeof (get state "state") =? "number")%string = false ->
      setting_writes (trace (exec (onEntityState entityId state) d)) =
      setting_writes (trace d))) /\
    (In (EntityConfig.objectId (EntityData.config (data e)))
        [DRIVER_SETTINGS.MMWAVE_LED; DRIVER_SETTINGS.ESP_32_STATUS_LED] ->
     (forall b : bool,
         get state "state" = VBool b ->
         setting_writes (trace (exec (onEntityState entityId state) d)) =
         setting_writes (trace d) ++
         [(EntityConfig.objectId (EntityData.config (data e)), VBool b)]) /\
     ((typeof (get state "state") =? "boolean")%string = false ->
      setting_writes (trace (exec (onEntityState entityId state) d)) =
      setting_writes (trace d))) /\
    (is_driver_setting (EntityConfig.objectId (EntityData.config (data e))) = false ->
     setting_writes (trace (exec (onEntityState entityId state) d)) =
     setting_writes (trace d)).
Proof.
  intros d entityId e state Hget.
  destruct (onEntityState_routes d entityId e state Hget) as [delta [Hrun [_ Hset]]].
  unfold exec. rewrite Hrun. simpl. rewrite setting_writes_app, Hset.
  unfold setting_route.
  set (k := EntityConfig.objectId (EntityData.config (data e))).
  split; [|split].
  - intros Hin. simpl in Hin.
    assert (Hk : ((k =? DRIVER_SETTINGS.MMWAVE_SENSITIVITY)%string ||
                  (k =? DRIVER_SETTINGS.MMWAVE_ON_LATENCY)%string ||
                  (k =? DRIVER_SETTINGS.MMWAVE_OFF_LATENCY)%string ||
                  (k =? DRIVER_SETTINGS.MMWAVE_DISTANCE)%string) = true).
    { repeat (destruct Hin as [<-|Hin]; [reflexivity|]). contradiction. }
    rewrite Hk. split.
    + intros v Hv. now rewrite Hv.
    + intros Hty. rewrite Hty. apply app_nil_r.
  - intros Hin. simpl in Hin.
    assert (Hk : ((k =? DRIVER_SETTINGS.MMWAVE_SENSITIVITY)%string ||
                  (k =? DRIVER_SETTINGS.MMWAVE_ON_LATENCY)%string ||
                  (k =? DRIVER_SETTINGS.MMWAVE_OFF_LATENCY)%string ||
                  (k =? DRIVER_SETTINGS.MMWAVE_DISTANCE)%string) = false /\
                 ((k =? DRIVER_SETTINGS.MMWAVE_LED)%string ||
                  (k =? DRIVER_SETTINGS.ESP_32_STATUS_LED)%string) = true).
    { repeat (destruct Hin as [<-|Hin]; [split; reflexivity|]). contradiction. }
    destruct Hk as [Hk1 Hk2]. rewrite Hk1, Hk2. split.
    + intros b Hb. now rewrite Hb.
    + intros Hty. rewrite Hty. apply app_nil_r.
  - intros Hnot. unfold is_driver_setting in Hnot. fold k in Hnot.
    repeat (apply orb_false_iff in Hnot; destruct Hnot as [Hnot ?]).
    repeat match goal with
           | H : (_ =? _)%string = false |- _ => rewrite H; clear H
           end.
    simpl. apply app_nil_r.
Qed.

Lemma state_mirrors_setting_witness :
  setting_writes
    (trace (exec (onEntityState "mmwave_sensitivity" (Sample.state (VNum 7)))
              (exec (registerEntity Sample.sensitivity) Sample.device0))) =
  [("mmwave_sensitivity"%string, VNum 7)] /\
  setting_writes
    (trace (exec (onEntityState "mmwave_led" (Sample.state (VNum 7)))
              (exec (registerEntity More.led) Sample.device0))) = [].
Proof.
  split.
  - apply (proj1 (proj1 (state_mirrors_setting
                           (exec (registerEntity Sample.sensitivity) Sample.device0)
                           "mmwave_sensitivity" _ (Sample.state (VNum 7)) eq_refl)
                    (or_introl eq_refl)) 7%float eq_refl).
  - apply (proj2 (proj1 (proj2 (state_mirrors_setting
                                  (exec (registerEntity More.led) Sample.device0)
                                  "mmwave_led" _ (Sample.state (VNum 7)) eq_refl))
                    (or_introl eq_refl)) eq_refl).
Defined.

(** ** Registration and delivery *)

Definition listener_objectId (l : entity_listener) : string :=
  match l with
  | StateListener objectId => objectId
  end.

(** The listeners of entity object [o], in the order they were added. *)
Definition listeners_of (o : nat) (d : device) : list (nat * entity_listener) :=
  filter (fun l => (fst l =? o)%nat) (listeners d).

Lemma forEach_app {A : Type} (l1 l2 : list A) (f : A -> M unit) (d : device) :
  forEach (l1 ++ l2) f d = bind (forEach l1 f) (fun _ => forEach l2 f) d.
Proof.
  revert d. induction l1 as [|a l1 IH]; intros d; simpl.
  - reflexivity.
  - unfold bind. destruct (f a d) as [[[]|err] d']; [|reflexivity].
    rewrite IH. reflexivity.
Qed.

Lemma state_listener_normal (objectId : string) (state : value) (d : device) :
  state_listener objectId state d = (Normal tt, exec (state_listener objectId state) d).
Proof.
  unfold exec. pose proof (state_listener_no_throw objectId state d) as H.
  destruct (state_listener objectId state d) as [c d']. simpl in *. now subst.
Qed.

Section Delivery.

Variable homey__ : string -> string.

(** A state event runs the listeners of its object, one after the other. *)
Lemma state_event_fold (d : device) (o : nat) (state : value) :
  step homey__ d (EntityState o state) =
  fold_left
    (fun d' l => exec (state_listener (listener_objectId (snd l)) state) d')
    (listeners_of o d) d.
Proof.
  unfold step, exec, handle, bind, get_device, listeners_of. simpl.
  generalize (listeners d) as ls. intros ls. revert d.
  induction ls as [|[o' [objectId]] ls IH]; intros d; simpl; [reflexivity|].
  unfold bind. destruct (o' =? o)%nat; simpl.
  - rewrite state_listener_normal. apply IH.
  - apply IH.
Qed.

(** X6. Registration subscribes, and never unsubscribes.  A payload that
    passes the schema, has a [Connection] and a function [on] is registered
    without error: one call of [subscribeStatesService] on its connection,
    and one more ['state'] listener on the object, after those already
    there.  No registration, successful or not, removes a listener; so
    announcing the same object twice leaves two listeners on it. *)
Theorem registerEntity_subscribes :
  forall (d : device) (entity : value) (parsed : ParsedEntityData),
    entitySchema entity = Some parsed ->
    has_property "connection" entity = true ->
    instanceof_Connection (get entity "connection") = true ->
    has_property "on" entity = true ->
    typeof (get entity "on") = "function"%string ->
    fst (registerEntity entity d) = Normal tt /\
    listeners (exec (registerEntity entity) d) =
      listeners d ++
      [(oid_of entity, StateListener (EntityConfig.objectId (EntityData.config parsed)))] /\
    trace (exec (registerEntity entity) d) =
      trace d ++
      [DebugEntity ("Register entity: " ++
                    EntityConfig.objectId (EntityData.config parsed) ++ ":")%string;
       SubscribeStatesService (oid_of (get entity "connection"))] /\
    listeners (exec (registerEntity entity) (exec (registerEntity entity) d)) =
      listeners d ++
      [(oid_of entity, StateListener (EntityConfig.objectId (EntityData.config parsed)));
       (oid_of entity, StateListener (EntityConfig.objectId (EntityData.config parsed)))] /\
    (forall (other : value) (l : nat * entity_listener),
        In l (listeners d) -> In l (listeners (exec (registerEntity other) d))).
Proof.
  intros d entity parsed Hparse Hconn Hinst Hon Hfun.
  destruct (entitySchema_object entity parsed Hparse) as [Hobj Hnull].
  assert (Hrun : forall d0,
             registerEntity entity d0 =
             (Normal tt,
              set_listeners
                (listeners d0 ++
                 [(oid_of entity,
                   StateListener (EntityConfig.objectId (EntityData.config parsed)))])
                (set_trace
                   (trace d0 ++
                    [DebugEntity ("Register entity: " ++
                                  EntityConfig.objectId (EntityData.config parsed) ++ ":")%string;
                     SubscribeStatesService (oid_of (get entity "connection"))])
                   (set_entities
                      (map_set (EntityConfig.objectId (EntityData.config parsed))
                         {| data := parsed; original := entity |} (entities d0)) d0)))).
  { intros d0. unfold registerEntity. rewrite Hparse. method_step.
    rewrite Hobj, Hnull, Hconn, Hinst, Hon, Hfun. simpl.
    unfold set_listeners, set_trace, set_entities. simpl.
    now rewrite <- app_assoc. }
  unfold exec. rewrite !Hrun. simpl. rewrite <- app_assoc. simpl.
  repeat split.
  intros other l Hin.
  unfold registerEntity. destruct (entitySchema other) as [p|]; method_step.
  - split_ifs; simpl; auto. apply in_or_app. now left.
  - assumption.
Qed.

Lemma listeners_of_none (o : nat) (ls : list (nat * entity_listener)) :
  (forall l, ~ In (o, l) ls) -> filter (fun l => (fst l =? o)%nat) ls = [].
Proof.
  induction ls as [|[o' l'] ls IH]; intros Hnone; simpl; [reflexivity|].
  destruct (o' =? o)%nat eqn:E.
  - apply Nat.eqb_eq in E. subst. exfalso. apply (Hnone l'). now left.
  - apply IH. intros l Hl. apply (Hnone l). now right.
Qed.

(** X7. Registration, then delivery.  Once an entity is registered (on an
    object that carried no listener), a state event of that object is
    handed to [onEntityState] exactly once, under the object id of the
    entity, and that dispatch does not fail. *)
Theorem registered_entity_hears_its_state :
  forall (d : device) (entity : value) (parsed : ParsedEntityData) (state : value),
    entitySchema entity = Some parsed ->
    has_property "connection" entity = true ->
    instanceof_Connection (get entity "connection") = true ->
    has_property "on" entity = true ->
    typeof (get entity "on") = "function"%string ->
    (forall l, ~ In (oid_of entity, l) (listeners d)) ->
    step homey__ (exec (registerEntity entity) d) (EntityState (oid_of entity) state) =
      exec (onEntityState (EntityConfig.objectId (EntityData.config parsed)) state)
        (exec (registerEntity entity) d) /\
    fst (onEntityState (EntityConfig.objectId (EntityData.config parsed)) state
           (exec (registerEntity entity) d)) = Normal tt.
Proof.
  intros d entity parsed state Hparse Hconn Hinst Hon Hfun Hnone.
  destruct (entitySchema_object entity parsed Hparse) as [Hobj Hnull].
  set (k := EntityConfig.objectId (EntityData.config parsed)).
  assert (Hls : listeners (exec (registerEntity entity) d) =
                listeners d ++ [(oid_of entity, StateListener k)]).
  { unfold exec, registerEntity. rewrite Hparse. method_step.
    now rewrite Hobj, Hnull, Hconn, Hinst, Hon, Hfun. }
  assert (Hreg : map_get k (entities (exec (registerEntity entity) d)) =
                 Some {| data := parsed; original := entity |}).
  { rewrite (registerEntity_stores d entity parsed Hparse). apply map_get_set_same. }
  remember (exec (registerEntity entity) d) as d1 eqn:Hd1. clear Hd1.
  destruct (onEntityState_routes _ k _ state Hreg) as [delta [Hrun _]].
  split; [|now rewrite Hrun].
  rewrite state_event_fold. unfold listeners_of. rewrite Hls, filter_app.
  rewrite (listeners_of_none _ _ Hnone). simpl. rewrite Nat.eqb_refl. simpl.
  unfold exec, state_listener, try_catch. now rewrite Hrun.
Qed.

End Delivery.

Lemma registerEntity_subscribes_witness :
  listeners (exec (registerEntity Sample.temperature) Sample.device0) =
    [(10, StateListener "_temperature")] /\
  listeners (exec (registerEntity Sample.temperature)
               (exec (registerEntity Sample.temperature) Sample.device0)) =
    [(10, StateListener "_temperature"); (10, StateListener "_temperature")].
Proof.
  destruct (registerEntity_subscribes Sample.device0 Sample.temperature _
              eq_refl eq_refl eq_refl eq_refl eq_refl) as [_ [Hone [_ [Htwo _]]]].
  split; [exact Hone | exact Htwo].
Defined.

(** An object that was announced twice hears every state twice. *)
Example twice_registered_twice_written :
  capability_writes
    (trace (step Sample.locale
              (exec (registerEntity Sample.temperature)
                 (exec (registerEntity Sample.temperature) Sample.device0))
              Run.reading)) =
  [("measure_temperature"%string, VNum 21.5); ("measure_temperature"%string, VNum 21.5)].
Proof. vm_compute. reflexivity. Qed.

Lemma registered_entity_hears_witness :
  step Sample.locale (exec (registerEntity More.humidity) Sample.device0)
    (EntityState 30 (Sample.state (VNum 40.5))) =
  exec (onEntityState "_humidity" (Sample.state (VNum 40.5)))
    (exec (registerEntity More.humidity) Sample.device0).
Proof.
  apply (proj1 (registered_entity_hears_its_state Sample.locale Sample.device0
                  More.humidity _ (Sample.state (VNum 40.5))
                  eq_refl eq_refl eq_refl eq_refl eq_refl
                  (fun l (H : In (30, l) []) => H))).
Defined.

(** ** Disconnect, continued *)

(** A payload that passes the schema and has a connection and [on], but
    is no event emitter: it has no [removeAllListeners]. *)
Definition bare_entity : value :=
  VObject 40 ObjectPrototype
    [("config"%string, Sample.config "_bare" "everything-presence-one-7083ccsensor_bare" "");
     ("type"%string, VStr "Sensor");
     ("name"%string, VStr " Sensor");
     ("id"%string, VNum 1);
     ("connection"%string, Sample.connection);
     ("on"%string, VFunction)].

(** A connected device whose client fails to close its transport. *)
Definition faulty : device :=
  Eval vm_compute in
    mkDevice (store_host Run.connected) (store_port Run.connected) (client Run.connected)
      (connectPromise Run.connected) (entities Run.connected) (listeners Run.connected)
      (promises Run.connected) (timers Run.connected) (now Run.connected)
      (Some (ErrorInstance "socket closed")) (trace Run.connected).

Section Teardown.

Variable homey__ : string -> string.
Variable js_String : value -> string.

Lemma revoke_loop_completion (es : list (string * entry)) :
  forall d : device,
    fst (forEach es (fun kv => revoke (snd kv)) d) =
    if forallb (fun kv => revocable (snd kv)) es
    then Normal tt
    else Throw (ErrorInstance "Expected entity.removeAllListeners to be a function").
Proof.
  induction es as [|[k e] es IH]; intros d; simpl; [reflexivity|].
  unfold bind, revocable. unfold revoke at 1. simpl.
  destruct (negb (typeof (original e) =? "object")%string ||
            is_null (original e) ||
            negb (has_property "removeAllListeners" (original e)) ||
            negb (typeof (get (original e) "removeAllListeners") =? "function")%string);
    simpl; [reflexivity|].
  unfold entity_removeAllListeners. method_step. apply IH.
Qed.

Lemma disconnect_sync_completion (d : device) :
  fst (disconnect_sync js_String d) =
  if forallb (fun kv => revocable (snd kv)) (entities d)
  then Normal tt
  else Throw (ErrorInstance "Expected entity.removeAllListeners to be a function").
Proof.
  unfold disconnect_sync, client_disconnect, client_removeAllListeners, try_catch.
  method_step.
  destruct (client d) as [c|] eqn:Hc; simpl;
    [destruct (disconnect_fault d) as [err|]; simpl|];
    rewrite ?Hc; simpl; apply revoke_loop_completion.
Qed.

(** X8. When [disconnect] fails.  Up to its [await], [disconnect]
    completes exactly when every entry of the registry has a function
    [removeAllListeners], and otherwise throws the contract error; an
    exception of [client.disconnect()] never makes it fail, it is logged
    with its message. *)
Theorem disconnect_fails_only_on_contract :
  forall d : device,
    (forallb (fun kv => revocable (snd kv)) (entities d) = true ->
     fst (disconnect_sync js_String d) = Normal tt) /\
    (forallb (fun kv => revocable (snd kv)) (entities d) = false ->
     fst (disconnect_sync js_String d) =
     Throw (ErrorInstance "Expected entity.removeAllListeners to be a function")) /\
    (forall err c,
        disconnect_fault d = Some err ->
        client d = Some c ->
        In (LogError "Failed to disconnect client"
              (NotAnError (VStr (getErrorMessage js_String err))))
          (trace (snd (disconnect_sync js_String d)))).
Proof.
  intros d. rewrite disconnect_sync_completion.
  split; [|split].
  - now intros ->.
  - now intros ->.
  - intros err c Hfault Hc.
    unfold disconnect_sync, client_disconnect, client_removeAllListeners, try_catch.
    method_step. rewrite Hc. simpl. rewrite Hfault. simpl. rewrite Hc. simpl.
    match goal with
    | |- context [forEach (entities d) _ ?d1] =>
        destruct (revoke_evolves (entities d) d1) as [_ [_ [delta [Ht _]]]]
    end.
    rewrite Ht. simpl. rewrite !in_app_iff. simpl. tauto.
Qed.

(** X9. An entry that cannot be revoked blocks every connect.  While the
    registry holds an entry without a function [removeAllListeners],
    [connect] rejects with the contract error before it creates a client:
    the registry is as it was, no client was created, and the client in
    place has lost its listeners. *)
Theorem unrevocable_entry_blocks_connect :
  forall (d : device) (k : string) (e : entry) (evs : list event),
    In (k, e) (entities d) ->
    revocable e = false ->
    exists d',
      connect homey__ js_String d evs =
      Settled (Throw (ErrorInstance "Expected entity.removeAllListeners to be a function"))
        d' evs /\
      entities d' = entities d /\
      client_silent d' /\
      (forall o, In (NewClient o) (trace d') -> In (NewClient o) (trace d)).
Proof.
  intros d k e evs Hin Hrev.
  assert (Hall : forallb (fun kv => revocable (snd kv)) (entities d) = false).
  { destruct (forallb (fun kv => revocable (snd kv)) (entities d)) eqn:E; [|reflexivity].
    rewrite forallb_forall in E. specialize (E _ Hin). simpl in E. congruence. }
  pose proof (disconnect_sync_completion d) as Hfst. rewrite Hall in Hfst.
  destruct (disconnect_sync_spec homey__ js_String d) as [HE [HS _]].
  destruct (disconnect_sync_trace js_String d) as [_ [_ [delta [Ht Hq]]]].
  exists (snd (disconnect_sync js_String d)).
  unfold connect, disconnect.
  destruct (disconnect_sync js_String d) as [c d1]. simpl in *. subst c.
  repeat split; auto.
  intros o Ho. rewrite Ht in Ho. apply in_app_or in Ho.
  destruct Ho as [Ho|[Ho|Ho]]; [assumption | discriminate |].
  rewrite Forall_forall in Hq. destruct (Hq _ Ho).
Qed.

End Teardown.

Lemma disconnect_fails_only_on_contract_witness :
  fst (disconnect_sync Sample.String_ faulty) = Normal tt /\
  fst (disconnect_sync Sample.String_ (exec (registerEntity bare_entity) Run.connected)) =
  Throw (ErrorInstance "Expected entity.removeAllListeners to be a function") /\
  In (LogError "Failed to disconnect client" (NotAnError (VStr "socket closed")))
    (trace (snd (disconnect_sync Sample.String_ faulty))).
Proof.
  split; [|split].
  - apply (proj1 (disconnect_fails_only_on_contract Sample.String_ faulty)).
    vm_compute. reflexivity.
  - apply (proj1 (proj2 (disconnect_fails_only_on_contract Sample.String_
                           (exec (registerEntity bare_entity) Run.connected)))).
    vm_compute. reflexivity.
  - apply (proj2 (proj2 (disconnect_fails_only_on_contract Sample.String_ faulty))
             (ErrorInstance "socket closed")
             {| options := client_options "everything-presence-one-7083cc.local" (VNum 6053);
                client_listeners := [OnNewEntity; OnError; OnInitialized 0] |});
      vm_compute; reflexivity.
Defined.

Lemma unrevocable_entry_blocks_connect_witness :
  exists d',
    connect Sample.locale Sample.String_
      (exec (registerEntity bare_entity) Run.connected) [Initialized] =
    Settled (Throw (ErrorInstance "Expected entity.removeAllListeners to be a function"))
      d' [Initialized] /\
    map fst (entities d') = ["_temperature"; "_mmwave"; "_bare"]%string.
Proof.
  destruct (unrevocable_entry_blocks_connect Sample.locale Sample.String_
              (exec (registerEntity bare_entity) Run.connected) "_bare"
              {| data := match entitySchema bare_entity with
                         | Some parsed => parsed
                         | None => EntityData.Build_t
                                     (EntityConfig.Build_t "" 0 "" "" "" None None None None
                                        None None false 0) 0 "" "" None
                         end;
                 original := bare_entity |}
              [Initialized])
    as [d' [Hc [He _]]].
  - vm_compute. auto.
  - vm_compute. reflexivity.
  - exists d'. split; [exact Hc|]. rewrite He. vm_compute. reflexivity.
Defined.

(** ** Connect and disconnect in time *)

(** A connect attempt that [disconnect] has cut off from its client:
    promise [p] is pending, its timer is the only one and is due at [due],
    and the client has no listener. *)
Definition waiting (p : nat) (due : N) (d : device) : Prop :=
  nth_error (promises d) p = Some Pending /\
  timers d = [(p, due)] /\
  client_silent d /\
  (now d < due)%N.

(** A device in the middle of its first connect. *)
Definition connecting : device :=
  Eval vm_compute in device_of (connect Sample.locale Sample.String_ Sample.device0 []).

Section Timing.

Variable homey__ : string -> string.
Variable js_String : value -> string.

Lemma silent_client_hears_nothing (d : device) (ev : event) :
  client_silent d ->
  match ev with
  | Initialized | NewEntity _ => step homey__ d ev = d
  | _ => True
  end.
Proof.
  intros Hs. unfold client_silent in Hs.
  destruct ev; try exact I;
    unfold step, exec, handle, client_emit, bind, get_device; simpl;
    destruct (client d) as [c|]; try reflexivity; rewrite Hs; reflexivity.
Qed.

Lemma waiting_step (p : nat) (due : N) (d : device) (ev : event) :
  waiting p due d ->
  (now d + elapsed [ev] < due)%N ->
  waiting p due (step homey__ d ev) /\
  now (step homey__ d ev) = (now d + elapsed [ev])%N.
Proof.
  intros Hw Hlt. destruct ev as [ms| |entity|o state]; simpl in Hlt.
  - destruct Hw as [Hp [Ht [Hs Hn]]].
    unfold step, exec, handle, run_timers. method_step. method_step.
    rewrite Ht. simpl. rewrite N.add_0_r in Hlt.
    assert (Hdue : (due <=? now d + ms)%N = false) by (apply N.leb_gt; exact Hlt).
    rewrite Hdue. simpl. rewrite N.add_0_r. repeat split; auto.
  - destruct Hw as [Hp [Ht [Hs Hn]]].
    rewrite (silent_client_hears_nothing d Initialized Hs). simpl.
    rewrite N.add_0_r. now repeat split.
  - destruct Hw as [Hp [Ht [Hs Hn]]].
    rewrite (silent_client_hears_nothing d (NewEntity entity) Hs). simpl.
    rewrite N.add_0_r. now repeat split.
  - unfold step, exec, handle, bind, get_device. simpl. rewrite N.add_0_r.
    apply (forEach_preserves (fun d' => waiting p due d' /\ now d' = now d));
      [|now split].
    intros [o' [objectId]] d' Hd'. destruct (o' =? o)%nat; [|exact Hd'].
    destruct (state_listener_frame objectId state d') as [delta [Heq _]].
    rewrite Heq. exact Hd'.
Qed.

Lemma waiting_timeout (p : nat) (due : N) (d : device) (ms : N) :
  waiting p due d -> (due <= now d + ms)%N ->
  nth_error (promises (step homey__ d (Elapse ms))) p =
  Some (Rejected (ErrorInstance (homey__ "error.connect_timeout"))).
Proof.
  intros [Hp [Ht [Hs Hn]]] Hle.
  unfold step, exec, handle, run_timers. method_step. method_step.
  rewrite Ht. simpl.
  assert (Hdue : (due <=? now d + ms)%N = true) by (apply N.leb_le; exact Hle).
  rewrite Hdue. simpl. unfold is_pending. simpl. rewrite Hp. simpl.
  now apply (nth_error_update_nth_same _ _ _ Pending).
Qed.

Lemma await_waiting (p : nat) (due : N) (evs : list event) :
  forall d : device,
    waiting p due d ->
    (now d + elapsed evs < due)%N ->
    snd (await homey__ p d evs) = None.
Proof.
  induction evs as [|ev evs IH]; intros d Hw Hlt; simpl.
  - destruct Hw as [Hp _]. unfold is_pending. now rewrite Hp.
  - assert (Hpend : is_pending p d = true)
      by (destruct Hw as [Hp _]; unfold is_pending; now rewrite Hp).
    rewrite Hpend. simpl.
    assert (Hev : (now d + elapsed [ev] < due)%N).
    { destruct ev; simpl in *; lia. }
    destruct (waiting_step p due d ev Hw Hev) as [Hw' Hnow].
    apply IH; [exact Hw'|]. rewrite Hnow. destruct ev; simpl in *; lia.
Qed.

Lemma await_waiting_timeout (p : nat) (due : N) (ms : N) (post : list event)
  (pre : list event) :
  forall d : device,
    waiting p due d ->
    (now d + elapsed pre < due)%N ->
    (due <= now d + elapsed pre + ms)%N ->
    exists d',
      await homey__ p d (pre ++ Elapse ms :: post) = (d', Some post) /\
      nth_error (promises d') p =
      Some (Rejected (ErrorInstance (homey__ "error.connect_timeout"))).
Proof.
  induction pre as [|ev pre IH]; intros d Hw Hlt Hle; simpl;
    assert (Hpend : is_pending p d = true)
      by (destruct Hw as [Hp _]; unfold is_pending; now rewrite Hp);
    rewrite Hpend; simpl.
  - simpl in Hle. rewrite N.add_0_r in Hle.
    pose proof (waiting_timeout p due d ms Hw Hle) as Hrej.
    exists (step homey__ d (Elapse ms)). split; [|exact Hrej].
    apply await_settled. unfold is_pending. now rewrite Hrej.
  - assert (Hev : (now d + elapsed [ev] < due)%N).
    { destruct ev; simpl in *; lia. }
    destruct (waiting_step p due d ev Hw Hev) as [Hw' Hnow].
    apply IH; [exact Hw' | |]; rewrite Hnow; destruct ev; simpl in *; lia.
Qed.

(** X10. A disconnect during a connect waits for the timeout.  When a
    connect attempt is in flight, [disconnect] takes the listeners off the
    client, so the ['initialized'] signal can no longer settle the promise
    it awaits: whatever the client emits, [disconnect] stays pending until
    the connect timer is due, and completes when it fires (the attempt is
    then rejected with the timeout error). *)
Theorem disconnect_waits_for_connect_timeout :
  forall (d : device) (p : nat) (due : N) (n : nat) (evs : list event),
    attempt p due n d ->
    connectPromise d = Some p ->
    fst (disconnect_sync js_String d) = Normal tt ->
    ((now d + elapsed evs < due)%N ->
     exists d', disconnect homey__ js_String d evs = Unsettled d') /\
    (forall pre ms post,
        evs = pre ++ Elapse ms :: post ->
        (now d + elapsed pre < due)%N ->
        (due <= now d + elapsed pre + ms)%N ->
        exists d',
          disconnect homey__ js_String d evs = Settled (Normal tt) d' post /\
          nth_error (promises d') p =
          Some (Rejected (ErrorInstance (homey__ "error.connect_timeout")))).
Proof.
  intros d p due n evs [Hp [Ht [_ [Hn _]]]] Hcp Hsync.
  destruct (disconnect_sync_spec homey__ js_String d) as [_ [HS [HP [HPs _]]]].
  destruct (disconnect_sync_clock js_String d) as [HT HN].
  assert (Hw : waiting p due (snd (disconnect_sync js_String d))).
  { repeat split; try congruence; now rewrite HN. }
  unfold disconnect.
  destruct (disconnect_sync js_String d) as [[[]|err] d1]; simpl in *; [|discriminate].
  rewrite HP, Hcp. split.
  - intros Hlt. rewrite <- HN in Hlt.
    pose proof (await_waiting p due evs d1 Hw Hlt) as Hnone.
    destruct (await homey__ p d1 evs) as [d2 [rest|]]; [discriminate|].
    now exists d2.
  - intros pre ms post -> Hlt Hle. rewrite <- HN in Hlt, Hle.
    destruct (await_waiting_timeout p due ms post pre d1 Hw Hlt Hle) as [d' [Haw Hrej]].
    exists d'. now rewrite Haw.
Qed.

(** X11. The session of a timed-out connect stays live.  When the timer
    comes first, [connect] rejects but the client keeps its listeners: a
    late ['initialized'] signal still lists the entities and marks the
    device available (the promise stays rejected), and a ['newEntity']
    event is still registered. *)
Theorem timed_out_session_stays_live :
  forall (d : device) (evs : list event) (d1 : device) (rest : list event),
    disconnect homey__ js_String d evs = Settled (Normal tt) d1 rest ->
    timers d1 = [] ->
    race CONNECT_TIMEOUT rest = TimerFirst ->
    exists d' rest',
      connect homey__ js_String d evs =
      Settled (Throw (ErrorInstance (homey__ "error.connect_timeout"))) d' rest' /\
      trace (step homey__ d' Initialized) =
      trace d' ++
      [DebugClient "connected"; ClearTimeout (length (promises d1)); ListEntitiesService;
       DnsLookup (formatHostname (store_host d1)); SetAvailable] /\
      nth_error (promises (step homey__ d' Initialized)) (length (promises d1)) =
      Some (Rejected (ErrorInstance (homey__ "error.connect_timeout"))) /\
      (forall entity,
          step homey__ d' (NewEntity entity) = exec (registerEntity entity) d').
Proof.
  intros d evs d1 rest Hdis Htimers Hr.
  set (p := length (promises d1)).
  assert (Hatt : attempt p (now d1 + CONNECT_TIMEOUT)%N
                   (timeout_calls (trace (snd (open_session d1))))
                   (snd (open_session d1))).
  { rewrite open_session_spec. simpl. rewrite Htimers. simpl.
    repeat split.
    - simpl. unfold p.
      rewrite nth_error_app2, Nat.sub_diag; [reflexivity | apply Nat.le_refl].
    - simpl. eexists. reflexivity.
    - simpl. unfold CONNECT_TIMEOUT. lia. }
  pose proof (await_race homey__ p _ _ rest _ Hatt) as Hrace.
  assert (Hbudget : (now d1 + CONNECT_TIMEOUT - now (snd (open_session d1)))%N =
                    CONNECT_TIMEOUT).
  { rewrite open_session_spec. simpl. lia. }
  rewrite Hbudget, Hr in Hrace.
  destruct Hrace as [d' [rest' [Haw [Hrej Htim]]]].
  pose proof (await_client homey__ p rest (snd (open_session d1))) as Hc.
  rewrite Haw, open_session_spec in Hc. simpl in Hc. fold p in Hc.
  exists d', rest'. split; [|split; [|split]].
  - unfold connect. rewrite Hdis. rewrite open_session_spec in *. simpl in *.
    fold p. fold p in Haw. rewrite Haw. unfold outcome. now rewrite Hrej.
  - unfold step, exec, handle, client_emit, bind, get_device. simpl.
    rewrite Hc. simpl. unfold is_pending. simpl. rewrite Hrej. simpl.
    now repeat rewrite <- app_assoc.
  - unfold step, exec, handle, client_emit, bind, get_device. simpl.
    rewrite Hc. simpl. unfold is_pending. simpl. rewrite Hrej. simpl. exact Hrej.
  - intros entity.
    unfold step, exec, handle, client_emit, bind, get_device. simpl.
    rewrite Hc. simpl. unfold bind.
    destruct (registerEntity entity d') as [[[]|err] d2]; reflexivity.
Qed.

End Timing.

Lemma disconnect_waits_witness :
  (exists d',
      disconnect Sample.locale Sample.String_ connecting [Initialized; Elapse 14999] =
      Unsettled d') /\
  (exists d',
      disconnect Sample.locale Sample.String_ connecting
        [Initialized; Elapse 15000; Initialized] =
      Settled (Normal tt) d' [Initialized] /\
      nth_error (promises d') 0 = Some (Rejected (ErrorInstance "Connect timeout"))).
Proof.
  assert (Hatt : attempt 0 15000 0 connecting).
  { repeat split; try reflexivity. eexists. reflexivity. }
  split.
  - apply (proj1 (disconnect_waits_for_connect_timeout Sample.locale Sample.String_
                    connecting 0 15000%N 0 [Initialized; Elapse 14999]
                    Hatt eq_refl eq_refl)).
    reflexivity.
  - apply (proj2 (disconnect_waits_for_connect_timeout Sample.locale Sample.String_
                    connecting 0 15000%N 0 [Initialized; Elapse 15000; Initialized]
                    Hatt eq_refl eq_refl)
             [Initialized] 15000%N [Initialized] eq_refl).
    + reflexivity.
    + vm_compute. discriminate.
Defined.

Lemma timed_out_session_witness :
  exists d' rest',
    connect Sample.locale Sample.String_ Sample.device0 [Elapse 15000; Initialized] =
    Settled (Throw (ErrorInstance "Connect timeout")) d' rest' /\
    trace (step Sample.locale d' Initialized) =
    trace d' ++
    [DebugClient "connected"; ClearTimeout 0; ListEntitiesService;
     DnsLookup "everything-presence-one-7083cc.local"; SetAvailable].
Proof.
  destruct (timed_out_session_stays_live Sample.locale Sample.String_ Sample.device0
              [Elapse 15000; Initialized] Run.cleared [Elapse 15000; Initialized]
              eq_refl eq_refl eq_refl) as [d' [rest' [Hc [Ht _]]]].
  exists d', rest'. split; [exact Hc | exact Ht].
Defined.

(** ** Availability *)



Section Availability.

Variable homey__ : string -> string.
Variable js_String : value -> string.






End Availability.

Example failed_first_connect_is_only_logged :
  unavailable_marks
    (trace (fst (onInit Sample.locale Sample.String_ Sample.device0 [Elapse 15000]))) = 0 /\
  In (LogError "EverythingPresenceOneDevice failed to connect"
        (ErrorInstance "Connect timeout"))
    (trace (fst (onInit Sample.locale Sample.String_ Sample.device0 [Elapse 15000]))).
Proof. split; vm_compute; auto 10. Qed.

(** ** Settings written by the user, continued *)

(** Whether [onSettings] gets past changed key [k] without throwing: the
    key is no driver setting, or its entity is registered with an original
    that is truthy and, when the new value is a number or a boolean, has a
    function [setState]. *)
Definition accepted (d : device) (newSettings : value) (k : string) : bool :=
  if is_driver_setting k then
    match map_get k (entities d) with
    | Some e =>
        truthy (original e) &&
        (if (typeof (get newSettings k) =? "number")%string ||
            (typeof (get newSettings k) =? "boolean")%string
         then negb (negb (typeof (original e) =? "object")%string ||
                    is_null (original e) ||
                    negb (has_property "setState" (original e)) ||
                    negb (typeof (get (original e) "setState") =? "function")%string)
         else true)
    | None => false
    end
  else true.

(** The command that changed key [k] sends, if it sends one. *)
Definition commanded (d : device) (newSettings : value) (k : string)
  : list (nat * value) :=
  if is_driver_setting k then
    match map_get k (entities d) with
    | Some e =>
        if (typeof (get newSettings k) =? "number")%string ||
           (typeof (get newSettings k) =? "boolean")%string
        then [(oid_of (original e), get newSettings k)]
        else []
    | None => []
    end
  else [].

Lemma entity_commands_app (l1 l2 : list effect) :
  entity_commands (l1 ++ l2) = entity_commands l1 ++ entity_commands l2.
Proof.
  induction l1 as [|e l1 IH]; simpl; [reflexivity|].
  destruct e; simpl; now rewrite ?IH.
Qed.

Lemma readable (v : value) (k : string) :
  v <> VUndefined -> v <> VNull -> unreadable v k = None.
Proof. destruct v; try reflexivity; congruence. Qed.

Lemma onSettings_key_accepted (d : device) (newSettings : value) (k : string) :
  newSettings <> VUndefined ->
  newSettings <> VNull ->
  accepted d newSettings k = true ->
  exists delta,
    onSettings_key newSettings k d = (Normal tt, set_trace (trace d ++ delta) d) /\
    entity_commands delta = commanded d newSettings k.
Proof.
  intros Hu Hn. unfold accepted, commanded, onSettings_key. method_step.
  rewrite (readable newSettings k Hu Hn).
  destruct (is_driver_setting k).
  - destruct (map_get k (entities d)) as [e|]; [|discriminate].
    intros Hacc. apply andb_true_iff in Hacc. destruct Hacc as [Htruthy Hset].
    rewrite Htruthy. simpl.
    destruct ((typeof (get newSettings k) =? "number")%string ||
              (typeof (get newSettings k) =? "boolean")%string).
    + apply negb_true_iff in Hset. rewrite Hset. simpl.
      exists [EntitySetState (oid_of (original e)) (get newSettings k)]. now split.
    + exists []. split; [now rewrite set_trace_nil | reflexivity].
  - intros _. exists [Log "Unknown changed setting key:"]. now split.
Qed.

Lemma onSettings_key_refused (d : device) (newSettings : value) (k : string) :
  newSettings <> VUndefined ->
  newSettings <> VNull ->
  accepted d newSettings k = false ->
  exists err, onSettings_key newSettings k d = (Throw err, d).
Proof.
  intros Hu Hn. unfold accepted, onSettings_key. method_step.
  rewrite (readable newSettings k Hu Hn).
  destruct (is_driver_setting k); [|discriminate].
  destruct (map_get k (entities d)) as [e|]; [|intros _; eexists; reflexivity].
  destruct (truthy (original e)); simpl; [|intros _; eexists; reflexivity].
  destruct ((typeof (get newSettings k) =? "number")%string ||
            (typeof (get newSettings k) =? "boolean")%string); [|discriminate].
  intros Hset. apply negb_false_iff in Hset. rewrite Hset. eexists. reflexivity.
Qed.

Lemma onSettings_loop_accepted (newSettings : value) (keys : list string) :
  newSettings <> VUndefined ->
  newSettings <> VNull ->
  forall d : device,
    forallb (accepted d newSettings) keys = true ->
    exists delta,
      forEach keys (onSettings_key newSettings) d =
        (Normal tt, set_trace (trace d ++ delta) d) /\
      entity_commands delta = flat_map (commanded d newSettings) keys.
Proof.
  intros Hu Hn. induction keys as [|k keys IH]; intros d Hall; simpl.
  - exists []. split; [now rewrite set_trace_nil | reflexivity].
  - simpl in Hall. apply andb_true_iff in Hall. destruct Hall as [Hk Hkeys].
    destruct (onSettings_key_accepted d newSettings k Hu Hn Hk) as [delta1 [Hrun1 Hcmd1]].
    destruct (IH (set_trace (trace d ++ delta1) d) Hkeys) as [delta2 [Hrun2 Hcmd2]].
    exists (delta1 ++ delta2). unfold bind. rewrite Hrun1, Hrun2. split.
    + unfold set_trace. simpl. now rewrite app_assoc.
    + rewrite entity_commands_app, Hcmd1, Hcmd2. reflexivity.
Qed.

Lemma onSettings_unfold (newSettings : value) (changedKeys : list string) (d : device) :
  onSettings newSettings changedKeys d =
  forEach changedKeys (onSettings_key newSettings)
    (set_trace (trace d ++ [Log "EverythingPresenceOneDevice settings were changed"]) d).
Proof. reflexivity. Qed.

Lemma onSettings_unfold_exec (newSettings : value) (changedKeys : list string)
  (d : device) :
  exec (onSettings newSettings changedKeys) d =
  snd (forEach changedKeys (onSettings_key newSettings)
         (set_trace (trace d ++ [Log "EverythingPresenceOneDevice settings were changed"]) d)).
Proof. reflexivity. Qed.

Lemma onSettings_accepted (d : device) (newSettings : value) (changedKeys : list string) :
  newSettings <> VUndefined ->
  newSettings <> VNull ->
  forallb (accepted d newSettings) changedKeys = true ->
  exists delta,
    onSettings newSettings changedKeys d = (Normal tt, set_trace (trace d ++ delta) d) /\
    entity_commands delta = flat_map (commanded d newSettings) changedKeys.
Proof.
  intros Hu Hn Hall. rewrite onSettings_unfold.
  destruct (onSettings_loop_accepted newSettings changedKeys Hu Hn
              (set_trace (trace d ++ [Log "EverythingPresenceOneDevice settings were changed"]) d)
              Hall) as [delta [Hrun Hcmd]].
  rewrite Hrun.
  exists (Log "EverythingPresenceOneDevice settings were changed" :: delta). split.
  - unfold set_trace. simpl. now rewrite <- app_assoc.
  - simpl. exact Hcmd.
Qed.

(** X13. What a settings change sends.  [newSettings] is the object the
    host passes (its properties can be read).  When every changed key is
    accepted, [onSettings] completes, changes nothing but the trace, and
    sends [setState] to the registered object of each driver setting whose
    new value is a number or a boolean, with that value and in the order of
    the changed keys; the other keys send nothing. *)
Theorem onSettings_sends_commands :
  forall (d : device) (newSettings : value) (changedKeys : list string),
    newSettings <> VUndefined ->
    newSettings <> VNull ->
    forallb (accepted d newSettings) changedKeys = true ->
    fst (onSettings newSettings changedKeys d) = Normal tt /\
    (exists delta,
        exec (onSettings newSettings changedKeys) d = set_trace (trace d ++ delta) d) /\
    entity_commands (trace (exec (onSettings newSettings changedKeys) d)) =
    entity_commands (trace d) ++ flat_map (commanded d newSettings) changedKeys.
Proof.
  intros d newSettings changedKeys Hu Hn Hall.
  destruct (onSettings_accepted d newSettings changedKeys Hu Hn Hall)
    as [delta [Hrun Hcmd]].
  unfold exec. rewrite Hrun. simpl. split; [reflexivity|]. split.
  - now exists delta.
  - now rewrite entity_commands_app, Hcmd.
Qed.

(** X14. A settings change is not atomic.  [newSettings] is the object
    the host passes.  When the keys before [k] are accepted and [k] is not,
    [onSettings] rejects, the commands of the keys before [k] have been
    sent all the same, and the keys after [k] are not looked at. *)
Theorem onSettings_stops_at_first_refusal :
  forall (d : device) (newSettings : value) (pre : list string) (k : string)
    (post : list string),
    newSettings <> VUndefined ->
    newSettings <> VNull ->
    forallb (accepted d newSettings) pre = true ->
    accepted d newSettings k = false ->
    (exists err, fst (onSettings newSettings (pre ++ k :: post) d) = Throw err) /\
    exec (onSettings newSettings (pre ++ k :: post)) d =
      exec (onSettings newSettings pre) d /\
    entity_commands (trace (exec (onSettings newSettings (pre ++ k :: post)) d)) =
    entity_commands (trace d) ++ flat_map (commanded d newSettings) pre.
Proof.
  intros d newSettings pre k post Hu Hn Hpre Hk.
  destruct (onSettings_accepted d newSettings pre Hu Hn Hpre) as [delta [Hrun Hcmd]].
  assert (Hexec : exists err,
             onSettings newSettings (pre ++ k :: post) d =
             (Throw err, set_trace (trace d ++ delta) d)).
  { rewrite onSettings_unfold, forEach_app. unfold bind at 1.
    rewrite <- onSettings_unfold, Hrun. simpl. unfold bind.
    destruct (onSettings_key_refused (set_trace (trace d ++ delta) d) newSettings k
                Hu Hn Hk)
      as [err Hthrow].
    rewrite Hthrow. now exists err. }
  destruct Hexec as [err Hexec]. unfold exec. rewrite Hexec, Hrun. simpl.
  split; [now exists err|]. split; [reflexivity|].
  now rewrite entity_commands_app, Hcmd.
Qed.

(** The new settings of the two witnesses below. *)
Definition new_settings : value :=
  VObject 50 ObjectPrototype
    [("mmwave_sensitivity"%string, VNum 5);
     ("mmwave_led"%string, VBool true);
     ("mmwave_distance"%string, VNum 300);
     ("ip"%string, VStr "192.168.1.20")].

Lemma onSettings_sends_commands_witness :
  fst (onSettings new_settings ["mmwave_sensitivity"; "ip"; "mmwave_led"]%string More.home) =
    Normal tt /\
  entity_commands
    (trace (exec (onSettings new_settings ["mmwave_sensitivity"; "ip"; "mmwave_led"]%string)
              More.home)) =
  [(13, VNum 5); (34, VBool true)].
Proof.
  assert (Hu : new_settings <> VUndefined) by discriminate.
  assert (Hn : new_settings <> VNull) by discriminate.
  destruct (onSettings_sends_commands More.home new_settings
              ["mmwave_sensitivity"; "ip"; "mmwave_led"]%string Hu Hn eq_refl)
    as [Hok [_ Hcmd]].
  split; [exact Hok | exact Hcmd].
Defined.

Lemma onSettings_stops_witness :
  (exists err,
      fst (onSettings new_settings
             (["mmwave_led"%string] ++ "mmwave_distance"%string :: ["mmwave_sensitivity"%string])
             More.home) = Throw err) /\
  entity_commands
    (trace (exec (onSettings new_settings
                    (["mmwave_led"%string] ++ "mmwave_distance"%string :: ["mmwave_sensitivity"%string]))
              More.home)) =
  [(34, VBool true)].
Proof.
  assert (Hu : new_settings <> VUndefined) by discriminate.
  assert (Hn : new_settings <> VNull) by discriminate.
  destruct (onSettings_stops_at_first_refusal More.home new_settings
              ["mmwave_led"]%string "mmwave_distance" ["mmwave_sensitivity"]%string
              Hu Hn eq_refl eq_refl) as [Hthrow [_ Hcmd]].
  split; [exact Hthrow | exact Hcmd].
Defined.

(* ================================================================== *)
(** ** Discovery and deletion *)

(** [v === s] for a string [s]. *)
Definition strictly_equals_string (v : value) (s : string) : bool :=
  match v with
  | VStr s' => (s' =? s)%string
  | _ => false
  end.

(** One of the three updates of [onDiscoveryAvailable]:
    [if (typeof found === 'string' && settings.k !== found) settings.k = found]. *)
Definition refresh (k : string) (found : value) (settings : list (string * value))
  : list (string * value) :=
  match found with
  | VStr s =>
      if negb (strictly_equals_string
                 (match lookup k settings with Some v => v | None => VUndefined end) s)
      then map_set k (VStr s) settings
      else settings
  | _ => settings
  end.

(** The body of [onDiscoveryAvailable] on a record whose properties can be
    read: the settings object after the three updates, and the argument of
    [this.setSettings] when it is called. *)
Definition sighted (settings : list (string * value)) (discoveryResult : value)
  : list (string * value) * option (list (string * value)) :=
  let s1 := refresh "ip" (get discoveryResult "address") settings in
  let s2 := refresh "esp_home_version" (get (get discoveryResult "txt") "version") s1 in
  let s3 :=
    refresh "project_version" (get (get discoveryResult "txt") "project_version") s2 in
  (s3, if (0 <? length s3)%nat then Some s3 else None).

(** [onDiscoveryAvailable]: [settings] are the properties of the object
    [this.getSettings()] returns.  The first read, [discoveryResult.address],
    throws on [undefined] and [null], before anything is written. *)
Definition onDiscoveryAvailable (settings : list (string * value)) (discoveryResult : value)
  : completion (list (string * value) * option (list (string * value))) :=
  match unreadable discoveryResult "address" with
  | Some err => Throw err
  | None => Normal (sighted settings discoveryResult)
  end.

Section Deletion.

Variable homey__ : string -> string.
Variable js_String : value -> string.

(** [onAdded] and [onRenamed] only log. *)
Definition onAdded : M unit :=
  emit (Log "EverythingPresenceOneDevice has been added").

Definition onRenamed (name : string) : M unit :=
  emit (Log "EverythingPresenceOneDevice was renamed to:").

(** [onDeleted]: the disconnect runs on its own, its failure is dropped. *)
Definition onDeleted (d : device) (evs : list event) : device * list event :=
  let d1 := exec (emit (Log "EverythingPresenceOneDevice has been deleted")) d in
  match disconnect homey__ js_String d1 evs with
  | Settled _ d2 rest => (d2, rest)
  | Unsettled d2 => (d2, [])
  end.

End Deletion.

(** A discovery record of the device. *)
Definition sighting : value :=
  VObject 60 ObjectPrototype
    [("id"%string, VStr "7083cc");
     ("address"%string, VStr "192.168.1.20");
     ("host"%string, VStr "everything-presence-one-7083cc");
     ("txt"%string,
      VObject 61 ObjectPrototype
        [("version"%string, VStr "2023.7.1"); ("project_version"%string, VStr "1.1.6")])].

Lemma lookup_map_set_same (k : string) (v : value) (m : list (string * value)) :
  lookup k (map_set k v m) = Some v.
Proof.
  induction m as [|[k' v'] m IH]; simpl.
  - now rewrite String.eqb_refl.
  - destruct (k' =? k)%string eqn:E; simpl.
    + now rewrite String.eqb_refl.
    + now rewrite E.
Qed.

Lemma lookup_map_set_other (k k' : string) (v : value) (m : list (string * value)) :
  k <> k' -> lookup k' (map_set k v m) = lookup k' m.
Proof.
  intros Hne. induction m as [|[k0 v0] m IH]; simpl.
  - destruct (k =? k')%string eqn:E; [apply String.eqb_eq in E; contradiction | reflexivity].
  - destruct (k0 =? k)%string eqn:E; simpl.
    + apply String.eqb_eq in E; subst k0.
      destruct (k =? k')%string eqn:E'; [apply String.eqb_eq in E'; contradiction | reflexivity].
    + now rewrite IH.
Qed.

Lemma refresh_found (k s : string) (settings : list (string * value)) :
  lookup k (refresh k (VStr s) settings) = Some (VStr s).
Proof.
  unfold refresh.
  destruct (lookup k settings) as [v|] eqn:Hl; simpl.
  - destruct v; simpl; try apply lookup_map_set_same.
    destruct (s0 =? s)%string eqn:E; simpl; [|apply lookup_map_set_same].
    apply String.eqb_eq in E. now subst.
  - apply lookup_map_set_same.
Qed.

Lemma refresh_other (k k' : string) (found : value) (settings : list (string * value)) :
  k <> k' -> lookup k' (refresh k found settings) = lookup k' settings.
Proof.
  intros Hne. unfold refresh. destruct found; try reflexivity.
  destruct (negb _); [now apply lookup_map_set_other | reflexivity].
Qed.

Lemma refresh_not_string (k : string) (found : value) (settings : list (string * value)) :
  (typeof found =? "string")%string = false -> refresh k found settings = settings.
Proof.
  destruct found; simpl; try reflexivity. discriminate.
Qed.

Lemma refresh_settled (k : string) (found : value) (settings : list (string * value)) :
  (forall s, found = VStr s -> lookup k settings = Some (VStr s)) ->
  refresh k found settings = settings.
Proof.
  intros Hfound. destruct found; try reflexivity.
  unfold refresh. rewrite (Hfound s eq_refl). simpl. now rewrite String.eqb_refl.
Qed.

Lemma refresh_length (k : string) (found : value) (settings : list (string * value)) :
  length settings <= length (refresh k found settings).
Proof.
  unfold refresh. destruct found; auto. destruct (negb _); auto.
  clear. induction settings as [|[k0 v0] m IH]; simpl; [auto|].
  destruct (k0 =? k)%string; simpl; [auto|]. now apply le_n_S.
Qed.

(** The updates of [sighted], key by key. *)
Lemma sighted_spec :
  forall (settings : list (string * value)) (discoveryResult : value),
    (forall a, get discoveryResult "address" = VStr a ->
               lookup "ip" (fst (sighted settings discoveryResult)) =
               Some (VStr a)) /\
    (forall v, get (get discoveryResult "txt") "version" = VStr v ->
               lookup "esp_home_version"
                 (fst (sighted settings discoveryResult)) = Some (VStr v)) /\
    (forall v, get (get discoveryResult "txt") "project_version" = VStr v ->
               lookup "project_version"
                 (fst (sighted settings discoveryResult)) = Some (VStr v)) /\
    (forall k, k <> "ip"%string -> k <> "esp_home_version"%string ->
               k <> "project_version"%string ->
               lookup k (fst (sighted settings discoveryResult)) =
               lookup k settings) /\
    ((typeof (get discoveryResult "address") =? "string")%string = false ->
     (typeof (get (get discoveryResult "txt") "version") =? "string")%string = false ->
     (typeof (get (get discoveryResult "txt") "project_version") =? "string")%string = false ->
     fst (sighted settings discoveryResult) = settings) /\
    (snd (sighted settings discoveryResult) =
     match fst (sighted settings discoveryResult) with
     | [] => None
     | _ :: _ => Some (fst (sighted settings discoveryResult))
     end) /\
    (settings <> [] -> snd (sighted settings discoveryResult) <> None) /\
    fst (sighted (fst (sighted settings discoveryResult))
           discoveryResult) =
    fst (sighted settings discoveryResult).
Proof.
  intros settings discoveryResult. unfold sighted. simpl.
  split; [|split; [|split; [|split; [|split; [|split; [|split]]]]]].
  - intros a Ha. rewrite Ha.
    rewrite !refresh_other by discriminate. apply refresh_found.
  - intros v Hv. rewrite Hv.
    rewrite refresh_other by discriminate. apply refresh_found.
  - intros v Hv. rewrite Hv. apply refresh_found.
  - intros k H1 H2 H3. rewrite !refresh_other; auto.
  - intros H1 H2 H3. now rewrite !refresh_not_string.
  - match goal with |- context [length ?s3] => destruct s3; reflexivity end.
  - intros Hne.
    match goal with
    | |- context [length ?s3] =>
        assert (Hlen : length settings <= length s3)
          by (eapply Nat.le_trans; [|apply refresh_length];
              eapply Nat.le_trans; [|apply refresh_length]; apply refresh_length);
        destruct s3
    end; [|discriminate].
    destruct settings; [contradiction | simpl in Hlen; lia].
  - set (s3 := refresh "project_version"
                 (get (get discoveryResult "txt") "project_version")
                 (refresh "esp_home_version" (get (get discoveryResult "txt") "version")
                    (refresh "ip" (get discoveryResult "address") settings))).
    assert (H1 : refresh "ip" (get discoveryResult "address") s3 = s3).
    { apply refresh_settled. intros a Ha. unfold s3. rewrite Ha.
      rewrite !refresh_other by discriminate. apply refresh_found. }
    rewrite H1.
    assert (H2 : refresh "esp_home_version" (get (get discoveryResult "txt") "version") s3 =
                 s3).
    { apply refresh_settled. intros v Hv. unfold s3. rewrite Hv.
      rewrite refresh_other by discriminate. apply refresh_found. }
    rewrite H2.
    apply refresh_settled. intros v Hv. unfold s3. rewrite Hv. apply refresh_found.
Qed.


(** X15. What a sighting writes.  On a discovery record that is
    [undefined] or [null], [onDiscoveryAvailable] rejects and writes
    nothing.  On any other record it completes: the settings then hold the
    address, the version and the project version of the record wherever the
    record has them as strings, and are unchanged on every other key and
    wherever the record has no string.  [setSettings] is called with the
    whole settings object exactly when that object has a key, so also when
    the sighting brought nothing new.  A second sighting of the same record
    changes nothing more. *)
Theorem sighting_refreshes_settings :
  forall (settings : list (string * value)) (discoveryResult : value),
    (discoveryResult = VUndefined \/ discoveryResult = VNull ->
     exists err, onDiscoveryAvailable settings discoveryResult = Throw err) /\
    (discoveryResult <> VUndefined -> discoveryResult <> VNull ->
     exists s call,
       onDiscoveryAvailable settings discoveryResult = Normal (s, call) /\
       (forall a, get discoveryResult "address" = VStr a ->
                  lookup "ip" s = Some (VStr a)) /\
       (forall v, get (get discoveryResult "txt") "version" = VStr v ->
                  lookup "esp_home_version" s = Some (VStr v)) /\
       (forall v, get (get discoveryResult "txt") "project_version" = VStr v ->
                  lookup "project_version" s = Some (VStr v)) /\
       (forall k, k <> "ip"%string -> k <> "esp_home_version"%string ->
                  k <> "project_version"%string ->
                  lookup k s = lookup k settings) /\
       ((typeof (get discoveryResult "address") =? "string")%string = false ->
        (typeof (get (get discoveryResult "txt") "version") =? "string")%string = false ->
        (typeof (get (get discoveryResult "txt") "project_version") =? "string")%string =
          false ->
        s = settings) /\
       call = match s with [] => None | _ :: _ => Some s end /\
       (settings <> [] -> call <> None) /\
       onDiscoveryAvailable s discoveryResult = Normal (s, call)).
Proof.
  intros settings discoveryResult. split.
  - intros [-> | ->]; eexists; reflexivity.
  - intros Hu Hn.
    assert (Hread : forall st, onDiscoveryAvailable st discoveryResult =
                               Normal (sighted st discoveryResult)).
    { intros st. unfold onDiscoveryAvailable.
      destruct discoveryResult; try reflexivity; congruence. }
    destruct (sighted_spec settings discoveryResult)
      as (H1 & H2 & H3 & H4 & H5 & H6 & H7 & H8).
    exists (fst (sighted settings discoveryResult)),
           (snd (sighted settings discoveryResult)).
    rewrite !Hread.
    split; [now destruct (sighted settings discoveryResult)|].
    split; [exact H1|]. split; [exact H2|]. split; [exact H3|]. split; [exact H4|].
    split; [exact H5|]. split; [exact H6|]. split; [exact H7|].
    f_equal.
    rewrite (surjective_pairing (sighted (fst (sighted settings discoveryResult))
                                   discoveryResult)).
    f_equal; [exact H8|].
    destruct (sighted_spec (fst (sighted settings discoveryResult)) discoveryResult)
      as (_ & _ & _ & _ & _ & H6' & _ & _).
    rewrite H6', H8. symmetry. exact H6.
Qed.

Example sighting_of_the_device :
  onDiscoveryAvailable [("ip"%string, VStr "192.168.1.9")] sighting =
  Normal
    ([("ip"%string, VStr "192.168.1.20"); ("esp_home_version"%string, VStr "2023.7.1");
      ("project_version"%string, VStr "1.1.6")],
     Some
       [("ip"%string, VStr "192.168.1.20"); ("esp_home_version"%string, VStr "2023.7.1");
        ("project_version"%string, VStr "1.1.6")]).
Proof. repeat split. Qed.

(** A sighting that brings nothing new is written all the same, and one on
    a device without settings and without news is not. *)
Example sighting_without_news :
  onDiscoveryAvailable [("ip"%string, VStr "192.168.1.20")]
    (VObject 62 ObjectPrototype [("id"%string, VStr "7083cc")]) =
  Normal ([("ip"%string, VStr "192.168.1.20")], Some [("ip"%string, VStr "192.168.1.20")]) /\
  onDiscoveryAvailable [] (VObject 62 ObjectPrototype [("id"%string, VStr "7083cc")]) =
  Normal ([], None).
Proof. split; reflexivity. Qed.

(* ================================================================== *)
(** ** What the registry keeps *)

(** The event announces an entity under object id [k]: a ['newEntity']
    event whose payload passes the schema with that [objectId]. *)
Definition announces (k : string) (ev : event) : bool :=
  match ev with
  | NewEntity entity =>
      match entitySchema entity with
      | Some parsed => (EntityConfig.objectId (EntityData.config parsed) =? k)%string
      | None => false
      end
  | _ => false
  end.

Lemma map_set_keeps {V : Type} (k k' : string) (v : V) (m : list (string * V)) :
  map_get k' m <> None -> map_get k' (map_set k v m) <> None.
Proof.
  intros Hk. destruct (String.eqb_spec k k') as [->|Hne].
  - rewrite map_get_set_same. discriminate.
  - now rewrite map_get_set_other.
Qed.

Lemma is_registered_entities (k : string) (d d' : device) :
  entities d' = entities d -> is_registered k d' = is_registered k d.
Proof. unfold is_registered. now intros ->. Qed.

Lemma registerEntity_keeps (k : string) (entity : value) (d : device) :
  is_registered k d = true -> is_registered k (exec (registerEntity entity) d) = true.
Proof.
  intros Hk. destruct (entitySchema entity) as [parsed|] eqn:Hparse.
  - unfold is_registered in *.
    rewrite (registerEntity_stores d entity parsed Hparse).
    pose proof (map_set_keeps (EntityConfig.objectId (EntityData.config parsed)) k
                  {| data := parsed; original := entity |} (entities d)) as Hkeep.
    destruct (map_get k (entities d)); [|discriminate].
    destruct (map_get k (map_set _ _ (entities d))); [reflexivity|].
    exfalso. apply Hkeep; [discriminate | reflexivity].
  - unfold exec. now rewrite (registerEntity_malformed d entity Hparse).
Qed.

Lemma registerEntity_same (k : string) (entity : value) (d : device) :
  announces k (NewEntity entity) = false ->
  map_get k (entities (exec (registerEntity entity) d)) = map_get k (entities d).
Proof.
  unfold announces. destruct (entitySchema entity) as [parsed|] eqn:Hparse.
  - intros Hne. rewrite (registerEntity_stores d entity parsed Hparse).
    apply map_get_set_other. now apply String.eqb_neq.
  - intros _. unfold exec. now rewrite (registerEntity_malformed d entity Hparse).
Qed.

Lemma onSettings_entities (newSettings : value) (changedKeys : list string) (d : device) :
  entities (exec (onSettings newSettings changedKeys) d) = entities d.
Proof.
  rewrite onSettings_unfold_exec.
  apply (forEach_preserves (fun d' => entities d' = entities d)); [|reflexivity].
  intros k' d' Hd'.
  pose proof (onSettings_key_entities newSettings k' d') as He. unfold exec in He.
  now rewrite He.
Qed.

Section Registry.

Variable homey__ : string -> string.
Variable js_String : value -> string.

Lemma step_same (k : string) (d : device) (ev : event) :
  announces k ev = false ->
  map_get k (entities (step homey__ d ev)) = map_get k (entities d).
Proof.
  intros Hno. unfold step, exec. destruct ev as [ms| |entity|o state]; simpl.
  - unfold run_timers. method_step. method_step.
    apply (forEach_preserves
             (fun d' => map_get k (entities d') = map_get k (entities d)));
      [|reflexivity].
    intros [p due] d' Hd'. rewrite timeout_callback_spec. simpl.
    destruct (is_pending p d'); exact Hd'.
  - unfold client_emit, bind, get_device. simpl.
    destruct (client d) as [c|]; [|reflexivity].
    apply (forEach_preserves
             (fun d' => map_get k (entities d') = map_get k (entities d)));
      [|reflexivity].
    intros l d' Hd'. destruct l; try exact Hd'.
    rewrite initialized_listener_spec. simpl.
    destruct (is_pending promise d'); exact Hd'.
  - unfold client_emit, bind, get_device. simpl.
    destruct (client d) as [c|]; [|reflexivity].
    apply (forEach_preserves
             (fun d' => map_get k (entities d') = map_get k (entities d)));
      [|reflexivity].
    intros l d' Hd'. destruct l; try exact Hd'.
    pose proof (registerEntity_same k entity d' Hno) as Hr. unfold exec in Hr.
    now rewrite Hr.
  - unfold bind, get_device. simpl.
    apply (forEach_preserves
             (fun d' => map_get k (entities d') = map_get k (entities d)));
      [|reflexivity].
    intros [o' [objectId]] d' Hd'. destruct (o' =? o)%nat; [|exact Hd'].
    destruct (state_listener_frame objectId state d') as [delta [Heq _]].
    rewrite Heq. exact Hd'.
Qed.

Lemma run_same (k : string) (evs : list event) :
  existsb (announces k) evs = false ->
  forall d, map_get k (entities (run homey__ d evs)) = map_get k (entities d).
Proof.
  induction evs as [|ev evs IH]; intros Hno d; simpl; [reflexivity|].
  simpl in Hno. apply orb_false_iff in Hno. destruct Hno as [Hev Hevs].
  rewrite (IH Hevs). now apply step_same.
Qed.

Lemma await_same (k : string) (p : nat) (evs : list event) :
  existsb (announces k) evs = false ->
  forall d,
    map_get k (entities (fst (await homey__ p d evs))) = map_get k (entities d) /\
    (forall rest, snd (await homey__ p d evs) = Some rest ->
                  existsb (announces k) rest = false).
Proof.
  induction evs as [|ev evs IH]; intros Hno d; simpl.
  - destruct (negb (is_pending p d)); simpl; split; try reflexivity.
    + intros rest Hrest. now inversion Hrest.
    + discriminate.
  - destruct (negb (is_pending p d)); simpl.
    + split; [reflexivity|]. intros rest Hrest. inversion Hrest. exact Hno.
    + simpl in Hno. apply orb_false_iff in Hno. destruct Hno as [Hev Hevs].
      destruct (IH Hevs (step homey__ d ev)) as [Hsame Hrest].
      split; [|exact Hrest]. rewrite Hsame. now apply step_same.
Qed.

Lemma disconnect_same (k : string) (d : device) (evs : list event) :
  existsb (announces k) evs = false ->
  map_get k (entities (device_of (disconnect homey__ js_String d evs))) =
    map_get k (entities d) /\
  (forall c d1 rest,
      disconnect homey__ js_String d evs = Settled c d1 rest ->
      existsb (announces k) rest = false).
Proof.
  intros Hno. destruct (disconnect_sync_spec homey__ js_String d) as [HE _].
  unfold disconnect.
  destruct (disconnect_sync js_String d) as [[[]|err] d1]; simpl in *.
  - destruct (connectPromise d1) as [p|].
    + destruct (await_same k p evs Hno d1) as [Hsame Hrest].
      destruct (await homey__ p d1 evs) as [d2 [rest|]]; simpl in *.
      * split; [now rewrite Hsame, HE|].
        intros c d' rest' Heq. inversion Heq; subst. now apply Hrest.
      * split; [now rewrite Hsame, HE | discriminate].
    + simpl. split; [now rewrite HE|].
      intros c d' rest' Heq. inversion Heq; now subst.
  - split; [now rewrite HE|]. intros c d' rest' Heq. inversion Heq; now subst.
Qed.

Lemma connect_same (k : string) (d : device) (evs : list event) :
  existsb (announces k) evs = false ->
  map_get k (entities (device_of (connect homey__ js_String d evs))) =
    map_get k (entities d).
Proof.
  intros Hno. destruct (disconnect_same k d evs Hno) as [Hd Hrest].
  unfold connect.
  destruct (disconnect homey__ js_String d evs) as [[[]|err] d1 rest|d1];
    simpl in Hd; try exact Hd.
  specialize (Hrest _ _ _ eq_refl).
  rewrite open_session_spec.
  match goal with
  | |- context [await homey__ ?p ?d2 rest] =>
      destruct (await_same k p rest Hrest d2) as [Ha _];
      destruct (await homey__ p d2 rest) as [d3 [rest'|]]
  end; simpl in *; now rewrite Ha.
Qed.

Lemma step_keeps (k : string) (d : device) (ev : event) :
  is_registered k d = true -> is_registered k (step homey__ d ev) = true.
Proof.
  intros Hk. unfold step, exec. destruct ev as [ms| |entity|o state]; simpl.
  - unfold run_timers. method_step. method_step.
    apply (forEach_preserves (fun d' => is_registered k d' = true)); [|exact Hk].
    intros [p due] d' Hd'. rewrite timeout_callback_spec. simpl.
    destruct (is_pending p d'); exact Hd'.
  - unfold client_emit, bind, get_device. simpl.
    destruct (client d) as [c|]; [|exact Hk].
    apply (forEach_preserves (fun d' => is_registered k d' = true)); [|exact Hk].
    intros l d' Hd'. destruct l; try exact Hd'.
    rewrite initialized_listener_spec. simpl.
    destruct (is_pending promise d'); exact Hd'.
  - unfold client_emit, bind, get_device. simpl.
    destruct (client d) as [c|]; [|exact Hk].
    apply (forEach_preserves (fun d' => is_registered k d' = true)); [|exact Hk].
    intros l d' Hd'. destruct l; try exact Hd'.
    now apply registerEntity_keeps.
  - unfold bind, get_device. simpl.
    apply (forEach_preserves (fun d' => is_registered k d' = true)); [|exact Hk].
    intros [o' [objectId]] d' Hd'. destruct (o' =? o)%nat; [|exact Hd'].
    destruct (state_listener_frame objectId state d') as [delta [Heq _]].
    rewrite Heq. exact Hd'.
Qed.

Lemma run_keeps (k : string) (evs : list event) :
  forall d, is_registered k d = true -> is_registered k (run homey__ d evs) = true.
Proof.
  induction evs as [|ev evs IH]; intros d Hk; simpl; [exact Hk|].
  apply IH. now apply step_keeps.
Qed.

Lemma await_keeps (k : string) (p : nat) (evs : list event) :
  forall d, is_registered k d = true ->
            is_registered k (fst (await homey__ p d evs)) = true.
Proof.
  induction evs as [|ev evs IH]; intros d Hk; simpl.
  - now destruct (negb (is_pending p d)).
  - destruct (negb (is_pending p d)); [exact Hk|].
    apply IH. now apply step_keeps.
Qed.

Lemma disconnect_keeps (k : string) (d : device) (evs : list event) :
  is_registered k d = true ->
  is_registered k (device_of (disconnect homey__ js_String d evs)) = true.
Proof.
  intros Hk. destruct (disconnect_sync_spec homey__ js_String d) as [HE _].
  assert (Hs : is_registered k (snd (disconnect_sync js_String d)) = true)
    by now rewrite (is_registered_entities k d _ HE).
  unfold disconnect.
  destruct (disconnect_sync js_String d) as [[[]|err] d1]; simpl in *; [|exact Hs].
  destruct (connectPromise d1) as [p|]; [|exact Hs].
  pose proof (await_keeps k p evs d1 Hs) as Ha.
  destruct (await homey__ p d1 evs) as [d2 [rest|]]; exact Ha.
Qed.

Lemma connect_keeps (k : string) (d : device) (evs : list event) :
  is_registered k d = true ->
  is_registered k (device_of (connect homey__ js_String d evs)) = true.
Proof.
  intros Hk. pose proof (disconnect_keeps k d evs Hk) as Hd.
  unfold connect.
  destruct (disconnect homey__ js_String d evs) as [[[]|err] d1 rest|d1];
    simpl in Hd; try exact Hd.
  rewrite open_session_spec.
  match goal with
  | |- context [await homey__ ?p ?d2 rest] =>
      pose proof (await_keeps k p rest d2 Hd) as Ha;
      destruct (await homey__ p d2 rest) as [d3 [rest'|]]
  end; exact Ha.
Qed.

(** X16. The registry never forgets.  An object id that is registered
    stays registered: through any sequence of events, through [disconnect]
    and [connect] (so across a reconnect), through the error listener of
    the client (hence also after a failed reconnect), through [onInit],
    [onDeleted] and [onSettings].  Its entry can only be replaced by a
    later announcement under the same id: as long as no ['newEntity'] event
    brings a payload that passes the schema with this object id, each of
    these leaves the entry as it is, parsed data and original object, and
    [onSettings] leaves the whole registry as it is. *)
Theorem registry_never_forgets :
  forall (d : device) (k : string),
    is_registered k d = true ->
    (forall evs, is_registered k (run homey__ d evs) = true) /\
    (forall evs, is_registered k (device_of (disconnect homey__ js_String d evs)) = true) /\
    (forall evs, is_registered k (device_of (connect homey__ js_String d evs)) = true) /\
    (forall error evs,
        is_registered k (fst (on_client_error homey__ js_String error d evs)) = true) /\
    (forall evs, is_registered k (fst (onInit homey__ js_String d evs)) = true) /\
    (forall evs, is_registered k (fst (onDeleted homey__ js_String d evs)) = true) /\
    (forall newSettings changedKeys,
        is_registered k (exec (onSettings newSettings changedKeys) d) = true) /\
    (forall evs,
        existsb (announces k) evs = false ->
        map_get k (entities (run homey__ d evs)) = map_get k (entities d) /\
        map_get k (entities (device_of (disconnect homey__ js_String d evs))) =
          map_get k (entities d) /\
        map_get k (entities (device_of (connect homey__ js_String d evs))) =
          map_get k (entities d) /\
        (forall error,
            map_get k (entities (fst (on_client_error homey__ js_String error d evs))) =
            map_get k (entities d)) /\
        map_get k (entities (fst (onInit homey__ js_String d evs))) =
          map_get k (entities d) /\
        map_get k (entities (fst (onDeleted homey__ js_String d evs))) =
          map_get k (entities d)) /\
    (forall newSettings changedKeys,
        entities (exec (onSettings newSettings changedKeys) d) = entities d).
Proof.
  intros d k Hk.
  split; [intros evs; now apply run_keeps|].
  split; [intros evs; now apply disconnect_keeps|].
  split; [intros evs; now apply connect_keeps|].
  split; [|split; [|split; [|split; [|split]]]].
  - intros error evs. unfold on_client_error.
    destruct (includes (getErrorMessage js_String error) "Bad format: Encryption expected");
      [exact Hk|].
    pose proof (connect_keeps k (exec (debugClient "error:") d) evs Hk) as Hc.
    destruct (connect homey__ js_String _ evs) as [[[]|err] d2 rest|d2]; exact Hc.
  - intros evs. unfold onInit.
    pose proof (connect_keeps k
                  (exec (emit (Log "EverythingPresenceOneDevice has been initialized")) d)
                  evs Hk) as Hc.
    destruct (connect homey__ js_String _ evs) as [[[]|err] d2 rest|d2]; exact Hc.
  - intros evs. unfold onDeleted.
    pose proof (disconnect_keeps k
                  (exec (emit (Log "EverythingPresenceOneDevice has been deleted")) d)
                  evs Hk) as Hc.
    destruct (disconnect homey__ js_String _ evs) as [c d2 rest|d2]; exact Hc.
  - intros newSettings changedKeys. rewrite onSettings_unfold_exec.
    apply (forEach_preserves (fun d' => is_registered k d' = true)); [|exact Hk].
    intros k' d' Hd'.
    pose proof (onSettings_key_entities newSettings k' d') as He. unfold exec in He.
    now rewrite (is_registered_entities k d' _ He).
  - intros evs Hno.
    split; [now apply run_same|].
    split; [now apply disconnect_same|].
    split; [now apply connect_same|].
    split; [|split].
    + intros error. unfold on_client_error.
      destruct (includes (getErrorMessage js_String error)
                  "Bad format: Encryption expected"); [reflexivity|].
      pose proof (connect_same k (exec (debugClient "error:") d) evs Hno) as Hc.
      destruct (connect homey__ js_String _ evs) as [[[]|err] d2 rest|d2]; exact Hc.
    + unfold onInit.
      pose proof (connect_same k
                    (exec (emit (Log "EverythingPresenceOneDevice has been initialized")) d)
                    evs Hno) as Hc.
      destruct (connect homey__ js_String _ evs) as [[[]|err] d2 rest|d2]; exact Hc.
    + unfold onDeleted.
      destruct (disconnect_same k
                  (exec (emit (Log "EverythingPresenceOneDevice has been deleted")) d)
                  evs Hno) as [Hc _].
      destruct (disconnect homey__ js_String _ evs) as [c d2 rest|d2]; exact Hc.
  - intros newSettings changedKeys. apply onSettings_entities.
Qed.

End Registry.

Lemma registry_never_forgets_witness :
  is_registered "_temperature"
    (fst (on_client_error Sample.locale Sample.String_ (ErrorInstance "read ECONNRESET")
            Run.connected [Elapse 15000])) = true /\
  is_registered "_temperature"
    (device_of (connect Sample.locale Sample.String_ Run.connected [Initialized])) = true /\
  map_get "_temperature"
    (entities (run Sample.locale Run.connected
                 [NewEntity Sample.mmwave; Run.reading; Elapse 15000])) =
    map_get "_temperature" (entities Run.connected) /\
  map_get "_temperature"
    (entities (fst (on_client_error Sample.locale Sample.String_
                      (ErrorInstance "read ECONNRESET") Run.connected
                      [NewEntity Sample.mmwave; Run.reading; Elapse 15000]))) =
    map_get "_temperature" (entities Run.connected).
Proof.
  destruct (registry_never_forgets Sample.locale Sample.String_ Run.connected
              "_temperature" eq_refl)
    as [_ [_ [Hconnect [Herror [_ [_ [_ [Hsame _]]]]]]]].
  assert (Hno : existsb (announces "_temperature")
                  [NewEntity Sample.mmwave; Run.reading; Elapse 15000] = false)
    by (vm_compute; reflexivity).
  destruct (Hsame _ Hno) as [Hrun [_ [_ [Herr _]]]].
  split; [|split; [|split]].
  - exact (Herror (ErrorInstance "read ECONNRESET") [Elapse 15000]).
  - exact (Hconnect [Initialized]).
  - exact Hrun.
  - exact (Herr (ErrorInstance "read ECONNRESET")).
Defined.

(* ================================================================== *)
(** ** The host name *)

(** X17. The host name of the client.  [formatHostname] returns its
    argument or its argument followed by [.local]; the result always ends
    in [.local], and formatting twice is formatting once. *)
Theorem formatHostname_normalises :
  forall hostname : string,
    (formatHostname hostname = hostname \/
     formatHostname hostname = (hostname ++ ".local")%string) /\
    endsWith (formatHostname hostname) ".local" = true /\
    formatHostname (formatHostname hostname) = formatHostname hostname.
Proof.
  intros hostname. split; [|split].
  - unfold formatHostname. destruct (endsWith hostname ".local"); auto.
  - apply formatHostname_local.
  - unfold formatHostname at 1. now rewrite formatHostname_local.
Qed.

(* ================================================================== *)
(** ** One session at a time *)

Section OneSession.

Variable homey__ : string -> string.
Variable js_String : value -> string.

Lemma step_connectPromise (d : device) (ev : event) :
  connectPromise (step homey__ d ev) = connectPromise d.
Proof.
  unfold step, exec. destruct ev as [ms| |entity|o state]; simpl.
  - unfold run_timers. method_step. method_step.
    apply (forEach_preserves (fun d' => connectPromise d' = connectPromise d));
      [|reflexivity].
    intros [p due] d' Hd'. rewrite timeout_callback_spec. simpl.
    destruct (is_pending p d'); exact Hd'.
  - unfold client_emit, bind, get_device. simpl.
    destruct (client d) as [c|]; [|reflexivity].
    apply (forEach_preserves (fun d' => connectPromise d' = connectPromise d));
      [|reflexivity].
    intros l d' Hd'. destruct l; try exact Hd'.
    rewrite initialized_listener_spec. simpl.
    destruct (is_pending promise d'); exact Hd'.
  - unfold client_emit, bind, get_device. simpl.
    destruct (client d) as [c|]; [|reflexivity].
    apply (forEach_preserves (fun d' => connectPromise d' = connectPromise d));
      [|reflexivity].
    intros l d' Hd'. destruct l; try exact Hd'.
    destruct (registerEntity_frame entity d') as [es [ls [delta [Heq _]]]].
    rewrite Heq. exact Hd'.
  - unfold bind, get_device. simpl.
    apply (forEach_preserves (fun d' => connectPromise d' = connectPromise d));
      [|reflexivity].
    intros [o' [objectId]] d' Hd'. destruct (o' =? o)%nat; [|exact Hd'].
    destruct (state_listener_frame objectId state d') as [delta [Heq _]].
    rewrite Heq. exact Hd'.
Qed.

Lemma await_connectPromise (p : nat) (evs : list event) :
  forall d, connectPromise (fst (await homey__ p d evs)) = connectPromise d.
Proof.
  induction evs as [|ev evs IH]; intros d; simpl.
  - now destruct (negb (is_pending p d)).
  - destruct (negb (is_pending p d)); [reflexivity|].
    rewrite IH. apply step_connectPromise.
Qed.

Lemma disconnect_silences (d : device) (evs : list event) :
  client_silent (device_of (disconnect homey__ js_String d evs)).
Proof.
  destruct (disconnect_sync_spec homey__ js_String d) as [_ [HS _]].
  unfold disconnect.
  destruct (disconnect_sync js_String d) as [[[]|err] d1]; simpl in *; [|exact HS].
  destruct (connectPromise d1) as [p|]; [|exact HS].
  pose proof (await_unplugged homey__ (entities d1) (listeners d1) p evs d1) as Ha.
  destruct (await homey__ p d1 evs) as [d2 [rest|]]; simpl in *;
    now apply Ha.
Qed.

(** X18. One session at a time.  Whenever [disconnect] has settled or is
    still waiting, the client in place has no listener.  A [connect] that
    gets past it then installs one client with exactly three listeners
    (['newEntity'], ['error'], ['initialized']), and [this.connectPromise]
    is a promise that did not exist before; both stay so while the attempt
    is awaited. *)
Theorem connect_installs_one_session :
  forall (d : device) (evs : list event),
    client_silent (device_of (disconnect homey__ js_String d evs)) /\
    (forall d1 rest,
        disconnect homey__ js_String d evs = Settled (Normal tt) d1 rest ->
        client (device_of (connect homey__ js_String d evs)) =
          Some {| options := client_options (formatHostname (store_host d)) (store_port d);
                  client_listeners :=
                    [OnNewEntity; OnError; OnInitialized (length (promises d1))] |} /\
        connectPromise (device_of (connect homey__ js_String d evs)) =
          Some (length (promises d1)) /\
        nth_error (promises d1) (length (promises d1)) = None).
Proof.
  intros d evs. split; [apply disconnect_silences|].
  intros d1 rest Hdis.
  pose proof (disconnect_evolves homey__ js_String d evs) as [Hh [Hp _]].
  rewrite Hdis in Hh, Hp. simpl in Hh, Hp.
  unfold connect. rewrite Hdis, open_session_spec.
  match goal with
  | |- context [await homey__ ?p ?d2 rest] =>
      pose proof (await_client homey__ p rest d2) as Hc;
      pose proof (await_connectPromise p rest d2) as Hcp;
      assert (Hdev : device_of
                       (let (d3, o) := await homey__ p d2 rest in
                        match o with
                        | Some rest' => Settled (outcome p d3) d3 rest'
                        | None => Unsettled d3
                        end) = fst (await homey__ p d2 rest))
        by (destruct (await homey__ p d2 rest) as [d3 [rest'|]]; reflexivity)
  end.
  rewrite Hdev, Hc, Hcp. simpl. rewrite Hh, Hp. repeat split.
  apply nth_error_None. apply Nat.le_refl.
Qed.

End OneSession.

Example reconnect_installs_one_session :
  option_map client_listeners
    (client (device_of (connect Sample.locale Sample.String_ Run.connected [Initialized]))) =
  Some [OnNewEntity; OnError; OnInitialized 1] /\
  connectPromise (device_of (connect Sample.locale Sample.String_ Run.connected [Initialized])) =
  Some 1.
Proof. split; vm_compute; reflexivity. Qed.
